(** * The self-correcting retrieval pipeline of the AI troubleshooter

    A shallow embedding of the node functions of [v10_graph_nodes.py]
    (class [Nodes]: [retrieve], [rerank], [grade_documents], [generate],
    [transform_query]) together with the properties of the design
    document that concern them.

    Conventions of the embedding.
    - A Python [str] is a Rocq [string]; one [ascii] stands for one
      character of the texts the session handles, so [String.length] is
      Python's [len]. The literals of the source that hold other
      characters are written as they are; their length is never taken.
    - A Python float score is a rational ([Q]); only constants,
      comparisons and [1.0 / (i + 1)] occur.
    - A node either returns a partial update of the session state or
      raises; external collaborators (retriever, reranker, chat model)
      are oracles that may answer differently at every call, so each
      oracle receives the number of external calls made so far.
    - Every external call is recorded in a trace, which is the only
      mutable state threaded through the nodes. *)

From Stdlib Require Import String Ascii List Arith Lia Bool.
From Stdlib Require Import ZArith QArith Permutation Sorted DecimalString DecimalNat.
Import ListNotations.

Local Close Scope Q_scope.
Local Open Scope string_scope.
Local Open Scope list_scope.
Local Open Scope nat_scope.

(** ** Python string operations used by the nodes *)

Module PyStr.

Definition nl : string := String (ascii_of_nat 10) EmptyString.

(** [str(n)] for a non-negative integer. *)
Definition of_nat (n : nat) : string :=
  NilEmpty.string_of_uint (Nat.to_uint n).

(** [sub in s]. *)
Fixpoint contains (sub s : string) : bool :=
  prefix sub s ||
  match s with
  | EmptyString => false
  | String _ s' => contains sub s'
  end.

Definition is_upper (c : ascii) : bool :=
  (65 <=? nat_of_ascii c) && (nat_of_ascii c <=? 90).

Definition lower_char (c : ascii) : ascii :=
  if is_upper c then ascii_of_nat (nat_of_ascii c + 32) else c.

(** [s.lower()]. The nodes only look for ASCII words in lowered text
    and compare it with ASCII words, and no other character becomes an
    ASCII letter when lowered, so only [A]-[Z] are mapped. *)
Fixpoint lower (s : string) : string :=
  match s with
  | EmptyString => EmptyString
  | String c s' => String (lower_char c) (lower s')
  end.

(** [c.isspace()] on the characters below 256. *)
Definition is_space (c : ascii) : bool :=
  let n := nat_of_ascii c in
  ((9 <=? n) && (n <=? 13)) || ((28 <=? n) && (n <=? 32))
  || (n =? 133) || (n =? 160).

Fixpoint lstrip (s : string) : string :=
  match s with
  | EmptyString => EmptyString
  | String c s' => if is_space c then lstrip s' else s
  end.

(** Removing the trailing white space: a character is kept when
    something that is kept follows it, or when it is not a space. *)
Fixpoint rstrip (s : string) : string :=
  match s with
  | EmptyString => EmptyString
  | String c s' =>
      match rstrip s' with
      | EmptyString => if is_space c then EmptyString else String c EmptyString
      | r => String c r
      end
  end.

(** [s.strip()]. *)
Definition strip (s : string) : string := rstrip (lstrip s).

(** [s[:n]]. *)
Fixpoint take (n : nat) (s : string) : string :=
  match n, s with
  | S k, String c s' => String c (take k s')
  | _, _ => EmptyString
  end.

(** [s.split(sep)] for a non-empty [sep]: the text is scanned from the
    left; at an occurrence of [sep] the current piece is closed and
    the characters of [sep] are skipped ([skip] counts those still to
    be dropped; [cur] is the current piece, reversed). *)
Fixpoint split_aux (sep : string) (skip : nat) (cur : list ascii)
         (s : string) : list string :=
  match s with
  | EmptyString => [string_of_list_ascii (rev cur)]
  | String c s' =>
      match skip with
      | S k => split_aux sep k cur s'
      | O =>
          if prefix sep s
          then string_of_list_ascii (rev cur)
               :: split_aux sep (String.length sep - 1) [] s'
          else split_aux sep 0 (c :: cur) s'
      end
  end.

Definition split (sep s : string) : list string := split_aux sep 0 [] s.

(** [sep.join(parts)]. *)
Fixpoint join (sep : string) (parts : list string) : string :=
  match parts with
  | [] => EmptyString
  | [p] => p
  | p :: rest => (p ++ sep ++ join sep rest)%string
  end.

End PyStr.

(** ** Results, the call trace and the node monad *)

(** What a Python call produces: a value, or a raised [Exception] with
    its message. *)
Inductive result (A : Type) : Type :=
| Ok (a : A)
| Raise (e : string).
Arguments Ok {A} a.
Arguments Raise {A} e.

(** A chat message [{"role": ..., "content": ...}]. *)
Record message : Type := Msg { role : string; msg_content : string }.

(** A candidate chunk, a Python dict. [content] is always present; the
    other keys are read with [.get] and may be absent. *)
Record Doc : Type := mkDoc {
  content : string;
  score : option Q;
  retrieval_method : option string;
  metadata : list (string * string);
  rerank_score : option Q;
  original_rank : option nat;
  new_rank : option nat
}.

(** A document as the retriever hands it over ([hasattr(doc, 'metadata')]
    may fail). *)
Record LangchainDoc : Type := mkLangchainDoc {
  page_content : string;
  lc_metadata : option (list (string * string))
}.

(** The external calls a node can make. *)
Inductive call : Type :=
| CallBuildIndex (log_content url : string)
| CallRetrieve (log_content query : string) (k : nat)
| CallRerank (query : string) (documents : list Doc) (top_k : nat)
| CallChat (messages : list message) (max_tokens : nat)
| CallClock
| CallUuid.

Definition trace : Type := list call.

(** A computation that may raise and that extends the call trace. *)
Definition M (A : Type) : Type := trace -> result A * trace.

Definition ret {A} (a : A) : M A := fun t => (Ok a, t).

Definition throw {A} (e : string) : M A := fun t => (Raise e, t).

Definition bind {A B} (m : M A) (f : A -> M B) : M B :=
  fun t =>
    match m t with
    | (Ok a, t') => f a t'
    | (Raise e, t') => (Raise e, t')
    end.

(** [try: body except Exception as e: handler(e)]. *)
Definition try_except {A} (body : M A) (handler : string -> M A) : M A :=
  fun t =>
    match body t with
    | (Ok a, t') => (Ok a, t')
    | (Raise e, t') => handler e t'
    end.

(** An external call: it is logged, and the oracle's answer for this
    moment (the number of calls made before it) is delivered. *)
Definition external {A} (c : call) (answer : nat -> result A) : M A :=
  fun t => (answer (List.length t), t ++ [c]).

(** A pure library function that may raise. *)
Definition lift {A} (r : result A) : M A := fun t => (r, t).

Declare Scope node_scope.
Delimit Scope node_scope with node.
Notation "x <- m ;; k" := (bind m (fun x => k))
  (at level 61, m at next level, right associativity) : node_scope.
Local Open Scope node_scope.

(** ** The session state and the partial updates the nodes return *)

(** A key of the state dict that [state.get(key, default)] reads: the key
    can be missing, hold [None], or hold a value. *)
Inductive field (A : Type) : Type :=
| Missing
| PyNone
| Val (a : A).
Arguments Missing {A}.
Arguments PyNone {A}.
Arguments Val {A} a.

(** [state.get(key, default)]: [None] in the result is Python's [None]. *)
Definition get_default {A} (f : field A) (default : A) : option A :=
  match f with
  | Missing => Some default
  | PyNone => None
  | Val a => Some a
  end.

(** Truth value of an optional string: [None] and [''] are false. *)
Definition truthy (s : option string) : bool :=
  match s with
  | Some (String _ _) => true
  | _ => false
  end.

(** [x or default] for an optional string. *)
Definition or_else (s : option string) (default : string) : string :=
  match s with
  | Some (String c r) => String c r
  | _ => default
  end.

(** [f"{x}"] for an optional string. *)
Definition fmt (s : option string) : string :=
  match s with
  | Some x => x
  | None => "None"
  end.

(** A parsed JSON value ([json.loads]). *)
#[warnings="-register-all"]
Inductive json : Type :=
| JNull
| JBool (b : bool)
| JNum (q : Q)
| JStr (s : string)
| JArr (l : list json)
| JObj (members : list (string * json)).

(** [LogAlert], [LogAlertPayload], [AlertMeta] and
    [AnsibleRemediationOutput] of [v10_ansible_schemas.py]; a
    [Dict[str, str]] is an association list. *)
Record LogAlert : Type := mkLogAlert {
  labels : list (string * string);
  annotations : list (string * string);
  startsAt : string;
  endsAt : string;
  generatorURL : string
}.

Record LogAlertPayload : Type := mkLogAlertPayload {
  alerts : list LogAlert;
  commonLabels : list (string * string);
  commonAnnotations : list (string * string);
  externalURL : string;
  groupKey : string;
  receiver : string;
  status : string;
  version : string
}.

Record AlertMeta : Type := mkAlertMeta {
  endpoint : string;
  received_at : string;
  source : list (string * string)
}.

Record AnsibleRemediationOutput : Type := mkAnsibleRemediationOutput {
  meta : AlertMeta;
  payload : LogAlertPayload;
  rca : string;
  playbook : option string
}.

(** The session state ([GraphState]), as the front end initialises it. *)
Record GraphState : Type := mkGraphState {
  question : string;
  namespace : field string;
  pod_name : field string;
  log_context : string;
  pod_events : string;
  retrieved_docs : list Doc;
  reranked_docs : list Doc;
  relevance_scores : list Q;
  generation : string;
  iteration : nat;
  max_iterations : nat;
  transformation_history : list string;
  ansible_output : option AnsibleRemediationOutput;
  ansible_formatted : option string
}.

(** The dict a node returns: only some keys are present. For the two
    structured-alert keys the value itself may be [None]. *)
Record Update : Type := mkUpdate {
  u_question : option string;
  u_retrieved_docs : option (list Doc);
  u_reranked_docs : option (list Doc);
  u_relevance_scores : option (list Q);
  u_generation : option string;
  u_iteration : option nat;
  u_transformation_history : option (list string);
  u_ansible_output : option (option AnsibleRemediationOutput);
  u_ansible_formatted : option (option string)
}.

Definition or_keep {A} (new : option A) (old : A) : A :=
  match new with Some a => a | None => old end.

(** The controller writes the returned keys over the state and keeps
    every other key. *)
Definition merge (st : GraphState) (u : Update) : GraphState :=
  {| question := or_keep (u_question u) (question st);
     namespace := namespace st;
     pod_name := pod_name st;
     log_context := log_context st;
     pod_events := pod_events st;
     retrieved_docs := or_keep (u_retrieved_docs u) (retrieved_docs st);
     reranked_docs := or_keep (u_reranked_docs u) (reranked_docs st);
     relevance_scores := or_keep (u_relevance_scores u) (relevance_scores st);
     generation := or_keep (u_generation u) (generation st);
     iteration := or_keep (u_iteration u) (iteration st);
     max_iterations := max_iterations st;
     transformation_history :=
       or_keep (u_transformation_history u) (transformation_history st);
     ansible_output := or_keep (u_ansible_output u) (ansible_output st);
     ansible_formatted := or_keep (u_ansible_formatted u) (ansible_formatted st) |}.

(** ** The collaborators of the nodes *)

(** The attributes of a [Nodes] instance. The three services are
    oracles: their first argument is the number of external calls made
    before this one; [Raise] stands for any exception of the call,
    a timeout included. *)
Record Nodes : Type := mkNodes {
  llama_stack_url : string;
  model_display_name : string;
  model_provider : string;
  (** [K8sHybridRetriever(log_content=..., llama_stack_url=...)] *)
  new_retriever : nat -> string -> string -> result unit;
  (** [retriever.retrieve(query=..., k=...)] on the retriever built
      over [log_content] *)
  retriever_retrieve : nat -> string -> string -> nat -> result (list LangchainDoc);
  (** [self.reranker.rerank_documents(query, documents, top_k)] *)
  rerank_documents : nat -> string -> list Doc -> nat -> result (list Doc);
  (** [self.inference.chat_completion(messages, max_tokens, temperature=0.0)] *)
  chat_completion : nat -> list message -> nat -> result string
}.

(** What the nodes take from the Python library and the long prompt
    templates of the source, which are literals with holes. *)
Record Library : Type := mkLibrary {
  json_loads : string -> result json;
  import_schemas : result unit;
  utcnow_isoformat : nat -> string;
  uuid4 : nat -> string;
  (** [f"{x:.3f}"] *)
  fmt_3f : Q -> string;
  (** grading prompt: question, document content *)
  grading_prompt : string -> string -> string;
  (** system prompt of [generate]: namespace as printed *)
  system_prompt : string -> string;
  (** component context for a Kubernetes workload: namespace, pod *)
  k8s_component_context : string -> string -> string;
  (** component context for any other infrastructure component *)
  infra_component_context : string;
  (** user prompt of [generate]: component context, question, evidence *)
  user_prompt : string -> string -> string -> string;
  (** system prompt of the structured alert: namespace, pod *)
  ansible_system_prompt : string -> string -> string;
  (** user prompt of the structured alert: namespace, pod, question,
      evidence *)
  ansible_user_prompt : string -> string -> string -> string -> string;
  (** rewrite prompt: original question, log preview *)
  transform_prompt : string -> string -> string
}.

(** ** The nodes *)

Section NodesImpl.

Variable self : Nodes.
Variable lib : Library.

(** *** Node 1: retrieve *)

Definition error_patterns : list string :=
  ["error"; "failed"; "crash"; "oom"; "timeout";
   "backoff"; "terminated"; "killed"; "unavailable"].

Definition resource_patterns : list (string * string) :=
  [("secret", "secret"); ("configmap", "configmap");
   ("environment:", "environment"); ("volumes:", "volume");
   ("mountvolume", "mount")].

(** The first error pattern found in the text, if any (the loop with
    [break]). *)
Fixpoint first_pattern (patterns : list string) (text : string) : list string :=
  match patterns with
  | [] => []
  | p :: rest =>
      if PyStr.contains p text then [p] else first_pattern rest text
  end.

(** Every resource keyword whose pattern is found (no [break]). *)
Fixpoint resource_keywords (patterns : list (string * string))
         (text : string) : list string :=
  match patterns with
  | [] => []
  | (p, keyword) :: rest =>
      if PyStr.contains p text
      then keyword :: resource_keywords rest text
      else resource_keywords rest text
  end.

Definition build_enhanced_query (question log_context : string)
           (state : GraphState) : string :=
  let parts1 := [question] in
  let parts2 :=
    match pod_name state with
    | Val (String c r) => parts1 ++ [("pod:" ++ String c r)%string]
    | _ => parts1
    end in
  let parts3 :=
    match namespace state with
    | Val (String c r) => parts2 ++ [("namespace:" ++ String c r)%string]
    | _ => parts2
    end in
  let parts4 :=
    match log_context with
    | EmptyString => parts3
    | _ =>
        parts3
        ++ first_pattern error_patterns (PyStr.lower log_context)
        ++ resource_keywords resource_patterns (PyStr.lower log_context)
    end in
  PyStr.join " " parts4.

(** The evidence text: the log context, with the pod events appended
    under their header when there are any. *)
Definition combined_logs (state : GraphState) : string :=
  match pod_events state with
  | EmptyString => log_context state
  | events =>
      (log_context state ++ PyStr.nl ++ PyStr.nl ++ "=== Pod Events ==="
       ++ PyStr.nl ++ events)%string
  end.

(** [for i, doc in enumerate(langchain_docs): retrieved_docs.append(...)]
    with score [1.0 / (i + 1)]. *)
Fixpoint convert_docs (i : nat) (docs : list LangchainDoc) : list Doc :=
  match docs with
  | [] => []
  | d :: rest =>
      {| content := page_content d;
         score := Some (1 # Pos.of_succ_nat i)%Q;
         retrieval_method := Some "nvidia_hybrid";
         metadata := match lc_metadata d with Some m => m | None => [] end;
         rerank_score := None;
         original_rank := None;
         new_rank := None |}
      :: convert_docs (S i) rest
  end.

Definition retrieve_result (docs : list Doc) (q : string) : Update :=
  mkUpdate (Some q) (Some docs) None None None None None None None.

Definition retrieve (state : GraphState) : M Update :=
  let question := question state in
  let log_context := log_context state in
  let combined := combined_logs state in
  if match combined with EmptyString => true | _ => false end
     || (String.length combined <? 50)
  then ret (retrieve_result [] question)
  else
    try_except
      (_ <- external (CallBuildIndex combined (llama_stack_url self))
              (fun n => new_retriever self n combined (llama_stack_url self)) ;;
       let enhanced_query := build_enhanced_query question log_context state in
       langchain_docs <-
         external (CallRetrieve combined enhanced_query 10)
           (fun n => retriever_retrieve self n combined enhanced_query 10) ;;
       ret (retrieve_result (convert_docs 0 langchain_docs) question))
      (fun _ => ret (retrieve_result [] question)).

(** *** Node 2: rerank *)

(** [x.get('score', 0)]. *)
Definition score_key (d : Doc) : Q :=
  match score d with Some q => q | None => 0%Q end.

(** [sorted(docs, key=..., reverse=True)] is the stable sort by
    decreasing key: a document is placed before the first document
    further right whose key is not larger than its own. *)
Fixpoint insert_desc (x : Doc) (l : list Doc) : list Doc :=
  match l with
  | [] => [x]
  | y :: l' =>
      if Qle_bool (score_key y) (score_key x)
      then x :: y :: l'
      else y :: insert_desc x l'
  end.

Definition sorted_by_score_desc (docs : list Doc) : list Doc :=
  fold_right insert_desc [] docs.

Definition rerank_result (docs : list Doc) (q : string) : Update :=
  mkUpdate (Some q) None (Some docs) None None None None None None.

Definition rerank (state : GraphState) : M Update :=
  let question := question state in
  let retrieved_docs := retrieved_docs state in
  match retrieved_docs with
  | [] => ret (rerank_result [] question)
  | _ =>
      try_except
        (reranked_docs <-
           external (CallRerank question retrieved_docs 10)
             (fun n => rerank_documents self n question retrieved_docs 10) ;;
         ret (rerank_result reranked_docs question))
        (fun _ =>
           let top_docs := firstn 5 (sorted_by_score_desc retrieved_docs) in
           ret (rerank_result top_docs question))
  end.

(** *** Node 3: grade_documents *)

(** The body of the loop for one document: the two accumulators
    [filtered_docs] and [relevance_scores] are extended in place. *)
Definition grade_one (question : string) (doc : Doc)
           (acc : list Doc * list Q) : M (list Doc * list Q) :=
  let '(filtered_docs, relevance_scores) := acc in
  let prompt := grading_prompt lib question (content doc) in
  let messages := [Msg "user" prompt] in
  try_except
    (response <- external (CallChat messages 100)
                   (fun n => chat_completion self n messages 100) ;;
     let grade_text := PyStr.lower response in
     if PyStr.contains "yes" grade_text
     then ret (filtered_docs ++ [doc], relevance_scores ++ [1%Q])
     else ret (filtered_docs, relevance_scores ++ [0%Q]))
    (fun _ => ret (filtered_docs ++ [doc], relevance_scores ++ [(1 # 2)%Q])).

Fixpoint grade_loop (question : string) (docs : list Doc)
         (acc : list Doc * list Q) : M (list Doc * list Q) :=
  match docs with
  | [] => ret acc
  | doc :: rest =>
      acc' <- grade_one question doc acc ;;
      grade_loop question rest acc'
  end.

Definition grade_result (docs : list Doc) (scores : list Q) (q : string) : Update :=
  mkUpdate (Some q) None (Some docs) (Some scores) None None None None None.

Definition grade_documents (state : GraphState) : M Update :=
  let question := question state in
  let reranked_docs := reranked_docs state in
  match reranked_docs with
  | [] => ret (grade_result [] [] question)
  | _ =>
      r <- grade_loop question reranked_docs ([], []) ;;
      ret (grade_result (fst r) (snd r) question)
  end.

(** *** Node 4: generate *)

Definition no_data_message : string :=
  "❌ No relevant log data found to answer the question. Please try rephrasing or check if logs are available.".

(** One entry of [context_parts]. *)
Definition snippet (i : nat) (doc : Doc) : string :=
  ("**Log Snippet " ++ PyStr.of_nat i ++ "** (Score: "
   ++ fmt_3f lib (score_key doc) ++ "):" ++ PyStr.nl
   ++ content doc ++ PyStr.nl)%string.

(** [for i, doc in enumerate(reranked_docs, 1)]. *)
Fixpoint context_parts (i : nat) (docs : list Doc) : list string :=
  match docs with
  | [] => []
  | doc :: rest => snippet i doc :: context_parts (S i) rest
  end.

Definition metadata_trailer (evidence iteration : nat) : string :=
  (PyStr.nl ++ PyStr.nl ++ "---" ++ PyStr.nl
   ++ "**🎯 Analysis Metadata**:" ++ PyStr.nl
   ++ "- **Model**: " ++ model_display_name self ++ PyStr.nl
   ++ "- **Provider**: " ++ model_provider self ++ PyStr.nl
   ++ "- **Evidence**: " ++ PyStr.of_nat evidence ++ " log snippets" ++ PyStr.nl
   ++ "- **Iteration**: " ++ PyStr.of_nat iteration ++ PyStr.nl)%string.

(** [namespace and namespace.lower() != 'none'] *)
Definition is_kubernetes (namespace : option string) : bool :=
  match namespace with
  | Some (String c r) => negb (String.eqb (PyStr.lower (String c r)) "none")
  | _ => false
  end.

(** [namespace and namespace.lower() not in ['none', 'unknown', '']] *)
Definition wants_structured_alert (namespace : option string) : bool :=
  match namespace with
  | Some (String c r) =>
      negb (existsb (String.eqb (PyStr.lower (String c r)))
              ["none"; "unknown"; ""])
  | _ => false
  end.

(** [xs[i]], raising [IndexError] out of range. *)
Definition index {A} (xs : list A) (i : nat) : M A :=
  match nth_error xs i with
  | Some x => ret x
  | None => throw "IndexError: list index out of range"
  end.

Definition fence_json : string := "```json".
Definition fence : string := "```".

(** The JSON text inside a Markdown code block, when there is one. *)
Definition extract_json (ansible_response : string) : M string :=
  if PyStr.contains fence_json ansible_response then
    after <- index (PyStr.split fence_json ansible_response) 1 ;;
    inside <- index (PyStr.split fence after) 0 ;;
    ret (PyStr.strip inside)
  else if PyStr.contains fence ansible_response then
    after <- index (PyStr.split fence ansible_response) 1 ;;
    inside <- index (PyStr.split fence after) 0 ;;
    ret (PyStr.strip inside)
  else ret ansible_response.

Fixpoint lookup (key : string) (members : list (string * json)) : option json :=
  match members with
  | [] => None
  | (k, v) :: rest => if String.eqb k key then Some v else lookup key rest
  end.

(** [parsed.get(key, default)]: only a JSON object has [get]. *)
Definition py_get (parsed : json) (key default : string) : M json :=
  match parsed with
  | JObj members =>
      ret (match lookup key members with Some v => v | None => JStr default end)
  | _ => throw "AttributeError: object has no attribute 'get'"
  end.

(** The Pydantic models accept only strings in their [str] and
    [Dict[str, str]] fields. *)
Definition validated_str (v : json) : M string :=
  match v with
  | JStr s => ret s
  | _ => throw "ValidationError: Input should be a valid string"
  end.

(** The body of the inner [try] of [generate]. Here [namespace] is a
    non-empty string. *)
Definition structured_alert (namespace : string) (pod_name : option string)
           (question context : string) : M AnsibleRemediationOutput :=
  _ <- lift (import_schemas lib) ;;
  let messages :=
    [Msg "system"
       (ansible_system_prompt lib namespace (or_else pod_name "pod-name"));
     Msg "user"
       (ansible_user_prompt lib namespace (or_else pod_name "All pods")
          question context)] in
  ansible_response <- external (CallChat messages 1500)
                        (fun n => chat_completion self n messages 1500) ;;
  json_text <- extract_json ansible_response ;;
  parsed <- lift (json_loads lib json_text) ;;
  alert_name <- py_get parsed "alert_name" "KubernetesPodIssue" ;;
  severity <- py_get parsed "severity" "warning" ;;
  rca_text <- py_get parsed "rca" "Root cause analysis not available" ;;
  now <- external CallClock (fun n => Ok (utcnow_isoformat lib n)) ;;
  let timestamp := (now ++ "Z")%string in
  let instance :=
    if truthy pod_name
    then (namespace ++ "/" ++ fmt pod_name)%string
    else namespace in
  uuid <- external CallUuid (fun n => Ok (uuid4 lib n)) ;;
  alert_name <- validated_str alert_name ;;
  severity <- validated_str severity ;;
  rca_text <- validated_str rca_text ;;
  let summary := (alert_name ++ " in " ++ namespace)%string in
  ret {| meta :=
           {| endpoint := "alerts";
              received_at := timestamp;
              source := [("name", "ai-troubleshooter-v10");
                         ("type", "log_analysis");
                         ("uuid", uuid)] |};
         payload :=
           {| alerts :=
                [ {| labels := [("alertname", alert_name);
                                ("instance", instance);
                                ("namespace", namespace);
                                ("pod_name", or_else pod_name "");
                                ("severity", severity)];
                     annotations := [("summary", summary);
                                     ("description", question)];
                     startsAt := timestamp;
                     endsAt := "0001-01-01T00:00:00Z";
                     generatorURL :=
                       ("http://ai-troubleshooter-v10/logs?namespace="
                        ++ namespace)%string |} ];
              commonLabels := [("alertname", alert_name);
                               ("namespace", namespace);
                               ("severity", severity)];
              commonAnnotations := [("summary", summary)];
              externalURL := "http://ai-troubleshooter-v10";
              groupKey := ("alertname:" ++ alert_name)%string;
              receiver := "Ansible";
              status := "firing";
              version := "4" |};
         rca := rca_text;
         playbook := None |}.

(** The secondary path as a whole: attempted only for a namespace that
    names a Kubernetes scope; its own [except] turns every failure
    into [None]. *)
Definition ansible_step (namespace pod_name : option string)
           (question context : string) : M (option AnsibleRemediationOutput) :=
  if wants_structured_alert namespace then
    try_except
      (remediation <- structured_alert (fmt namespace) pod_name question context ;;
       ret (Some remediation))
      (fun _ => ret None)
  else ret None.

Definition generate_short (g q : string) : Update :=
  mkUpdate (Some q) None None None (Some g) None None None None.

Definition generate_full (g q : string)
           (a : option AnsibleRemediationOutput) : Update :=
  mkUpdate (Some q) None None None (Some g) None None (Some a) (Some None).

Definition generate (state : GraphState) : M Update :=
  let question := question state in
  let reranked_docs := reranked_docs state in
  let namespace := get_default (namespace state) "unknown" in
  let pod_name := get_default (pod_name state) "" in
  match reranked_docs with
  | [] => ret (generate_short no_data_message question)
  | _ =>
      let context := PyStr.join PyStr.nl (context_parts 1 reranked_docs) in
      let component_context :=
        if is_kubernetes namespace
        then k8s_component_context lib (fmt namespace)
               (or_else pod_name "All pods in namespace")
        else infra_component_context lib in
      let messages :=
        [Msg "system" (system_prompt lib (fmt namespace));
         Msg "user" (user_prompt lib component_context question context)] in
      try_except
        (answer <- external (CallChat messages 500)
                     (fun n => chat_completion self n messages 500) ;;
         let generation :=
           (answer ++ metadata_trailer (List.length reranked_docs)
                        (iteration state))%string in
         ansible_output <- ansible_step namespace pod_name question context ;;
         ret (generate_full generation question ansible_output))
        (fun e =>
           ret (generate_short ("❌ Generation error: " ++ e)%string question))
  end.

(** *** Node 5: transform_query *)

Definition transform_ok (q : string) (i : nat) (h : list string) : Update :=
  mkUpdate (Some q) None None None None (Some i) (Some h) None None.

Definition transform_failed (q : string) (i : nat) : Update :=
  mkUpdate (Some q) None None None None (Some i) None None None.

Definition transform_query (state : GraphState) : M Update :=
  let original_question := question state in
  let iteration := iteration state + 1 in
  let log_context := log_context state in
  let log_preview :=
    match log_context with
    | EmptyString => "No logs available"
    | _ => PyStr.take 500 log_context
    end in
  let messages :=
    [Msg "user" (transform_prompt lib original_question log_preview)] in
  try_except
    (response <- external (CallChat messages 100)
                   (fun n => chat_completion self n messages 100) ;;
     let new_question := PyStr.strip response in
     let transformation_history :=
       transformation_history state ++ [original_question] in
     ret (transform_ok new_question iteration transformation_history))
    (fun _ => ret (transform_failed original_question iteration)).

End NodesImpl.

(** ** The self-correction controller *)

Module Controller.

(** Modelled from the spec: the graph that sequences the nodes (its
    states and conditional edges) is not among the sources; these are
    the states of section 4.7 of the design document. *)
Inductive phase : Type :=
| RETRIEVE
| RERANK
| GRADE
| GENERATE
| TRANSFORM
| END.

Definition phase_eq_dec (a b : phase) : {a = b} + {a <> b}.
Proof. decide equality. Defined.

(** Modelled from the spec: a configuration of the controller, the
    current state of the machine with the session state; [visited]
    records the nodes executed so far, oldest first. *)
Record config : Type := mkConfig {
  at_phase : phase;
  session : GraphState;
  visited : list phase
}.

(** Number of passes through RETRIEVE so far. *)
Definition retrieve_passes (c : config) : nat :=
  count_occ phase_eq_dec (visited c) RETRIEVE.

Section Machine.

Variable self : Nodes.
Variable lib : Library.

(** The two signals the design document leaves open: the relevance
    threshold of the GRADE edge and the generation-quality signal of
    the GENERATE edge. *)
Variable below_relevance_threshold : GraphState -> bool.
Variable flags_insufficient_grounding : GraphState -> bool.

(** Modelled from the spec: the retry budget, [iteration <
    max_iterations]. *)
Definition budget_left (st : GraphState) : bool :=
  iteration st <? max_iterations st.

(** Modelled from the spec: the GRADE edge; TRANSFORM is taken when
    the filtered document set is empty or below the relevance
    threshold and the budget is not exhausted, GENERATE otherwise. *)
Definition after_grade (st : GraphState) : phase :=
  if (match reranked_docs st with [] => true | _ => false end
      || below_relevance_threshold st)
     && budget_left st
  then TRANSFORM
  else GENERATE.

(** Modelled from the spec: the GENERATE edge; TRANSFORM is taken on
    the generation-quality signal while the budget is not exhausted,
    END otherwise. *)
Definition after_generate (st : GraphState) : phase :=
  if flags_insufficient_grounding st && budget_left st
  then TRANSFORM
  else END.

(** Modelled from the spec: running [node] in configuration [c]; its
    update is merged into the session state and [next] picks the
    following state of the machine. *)
Definition run_node (c : config) (node : GraphState -> M Update)
           (next : GraphState -> phase) : M config :=
  u <- node (session c) ;;
  let st := merge (session c) u in
  ret (mkConfig (next st) st (visited c ++ [at_phase c])).

(** Modelled from the spec: one transition of the controller,
    [RETRIEVE -> RERANK -> GRADE -> {GENERATE | TRANSFORM -> RETRIEVE}
    -> {END | TRANSFORM -> RETRIEVE}]; END is terminal. *)
Definition step (c : config) : M config :=
  match at_phase c with
  | RETRIEVE => run_node c (retrieve self) (fun _ => RERANK)
  | RERANK => run_node c (rerank self) (fun _ => GRADE)
  | GRADE => run_node c (grade_documents self lib) after_grade
  | GENERATE => run_node c (generate self lib) after_generate
  | TRANSFORM => run_node c (transform_query self lib) (fun _ => RETRIEVE)
  | END => ret c
  end.

(** Modelled from the spec: [n] transitions in a row. *)
Fixpoint steps (n : nat) (c : config) : M config :=
  match n with
  | O => ret c
  | S k => c' <- step c ;; steps k c'
  end.

(** Modelled from the spec: the initial configuration, RETRIEVE with
    the session state of the front end. *)
Definition start (st : GraphState) : config := mkConfig RETRIEVE st [].

End Machine.

End Controller.

(** ** Definitions used in the statements *)

(** The grading policy in the words of the design document: an
    affirmative token in the lowercased answer keeps the document with
    score 1.0, any other answer drops it with score 0.0, and a failed
    judgment call keeps it with the reduced confidence 0.5. The first
    component says whether the document is kept. *)
Definition relevance_decision (answer : result string) : bool * Q :=
  match answer with
  | Ok response =>
      if PyStr.contains "yes" (PyStr.lower response)
      then (true, 1%Q)
      else (false, 0%Q)
  | Raise _ => (true, (1 # 2)%Q)
  end.

(** The chat request that grades one document. *)
Definition grading_messages (lib : Library) (q : string) (d : Doc) : list message :=
  [Msg "user" (grading_prompt lib q (content d))].

(** The decisions for a list of documents graded one after the other,
    the first of them as external call number [n]. *)
Fixpoint verdicts (self : Nodes) (lib : Library) (q : string) (n : nat)
         (docs : list Doc) : list (bool * Q) :=
  match docs with
  | [] => []
  | d :: rest =>
      relevance_decision (chat_completion self n (grading_messages lib q d) 100)
      :: verdicts self lib q (S n) rest
  end.

(** The documents whose decision is to keep them, in order. *)
Definition kept (docs : list Doc) (vs : list (bool * Q)) : list Doc :=
  map fst (filter (fun p => fst (snd p)) (combine docs vs)).

(** The documents whose relevance score is not zero, in order. *)
Definition scored_nonzero (docs : list Doc) (scores : list Q) : list Doc :=
  map fst (filter (fun p => negb (Qeq_bool (snd p) 0)) (combine docs scores)).

Definition grading_calls (lib : Library) (q : string) (docs : list Doc) : trace :=
  map (fun d => CallChat (grading_messages lib q d) 100) docs.

(** Decreasing order of fusion score. *)
Definition score_ge (a b : Doc) : Prop := (score_key b <= score_key a)%Q.

(** The five nodes of the workflow. *)
Inductive node : Type :=
| NodeRetrieve
| NodeRerank
| NodeGrade
| NodeGenerate
| NodeTransform.

Definition run (self : Nodes) (lib : Library) (n : node) : GraphState -> M Update :=
  match n with
  | NodeRetrieve => retrieve self
  | NodeRerank => rerank self
  | NodeGrade => grade_documents self lib
  | NodeGenerate => generate self lib
  | NodeTransform => transform_query self lib
  end.

(** The chat requests of [generate] and [transform_query]. *)
Definition evidence_context (lib : Library) (st : GraphState) : string :=
  PyStr.join PyStr.nl (context_parts lib 1 (reranked_docs st)).

Definition generate_messages (lib : Library) (st : GraphState) : list message :=
  let namespace := get_default (namespace st) "unknown" in
  let pod_name := get_default (pod_name st) "" in
  [Msg "system" (system_prompt lib (fmt namespace));
   Msg "user"
     (user_prompt lib
        (if is_kubernetes namespace
         then k8s_component_context lib (fmt namespace)
                (or_else pod_name "All pods in namespace")
         else infra_component_context lib)
        (question st) (evidence_context lib st))].

Definition alert_messages (lib : Library) (st : GraphState) : list message :=
  let namespace := fmt (get_default (namespace st) "unknown") in
  let pod_name := get_default (pod_name st) "" in
  [Msg "system" (ansible_system_prompt lib namespace (or_else pod_name "pod-name"));
   Msg "user"
     (ansible_user_prompt lib namespace (or_else pod_name "All pods")
        (question st) (evidence_context lib st))].

Definition transform_messages (lib : Library) (st : GraphState) : list message :=
  [Msg "user"
     (transform_prompt lib (question st)
        match log_context st with
        | EmptyString => "No logs available"
        | _ => PyStr.take 500 (log_context st)
        end)].

(** *** Concrete collaborators and sessions for the examples *)

Module Demo.

Definition lib : Library :=
  {| json_loads := fun _ => Raise "JSONDecodeError";
     import_schemas := Ok tt;
     utcnow_isoformat := fun _ => "2025-01-01T00:00:00";
     uuid4 := fun _ => "00000000-0000-4000-8000-000000000000";
     fmt_3f := fun _ => "0.000";
     grading_prompt := fun q c => (q ++ PyStr.nl ++ c)%string;
     system_prompt := fun ns => ns;
     k8s_component_context := fun ns pod => (ns ++ "/" ++ pod)%string;
     infra_component_context := "infrastructure";
     user_prompt := fun cc q ctx => (cc ++ PyStr.nl ++ q ++ PyStr.nl ++ ctx)%string;
     ansible_system_prompt := fun ns pod => (ns ++ "/" ++ pod)%string;
     ansible_user_prompt := fun ns pod q ctx => (ns ++ "/" ++ pod ++ q ++ ctx)%string;
     transform_prompt := fun q preview => (q ++ PyStr.nl ++ preview)%string |}.

(** Every service is down: each call raises. *)
Definition all_down : Nodes :=
  {| llama_stack_url := "http://llama";
     model_display_name := "model";
     model_provider := "llamastack";
     new_retriever := fun _ _ _ => Raise "connection refused";
     retriever_retrieve := fun _ _ _ _ => Raise "connection refused";
     rerank_documents := fun _ _ _ _ => Raise "connection refused";
     chat_completion := fun _ _ _ => Raise "connection refused" |}.

(** The services work and the model answers every request with [reply]. *)
Definition answering (reply : string) : Nodes :=
  {| llama_stack_url := "http://llama";
     model_display_name := "model";
     model_provider := "llamastack";
     new_retriever := fun _ _ _ => Ok tt;
     retriever_retrieve := fun _ _ _ _ => Ok [mkLangchainDoc "pod crashed: error" None];
     rerank_documents := fun _ _ docs _ => Ok docs;
     chat_completion := fun _ _ _ => Ok reply |}.

Definition doc (text : string) (s : Q) : Doc :=
  mkDoc text (Some s) (Some "nvidia_hybrid") [] None None None.

Definition session (logs : string) (docs : list Doc) (max : nat) : GraphState :=
  {| question := "what errors occurred";
     namespace := Val "prod";
     pod_name := Val "";
     log_context := logs;
     pod_events := "";
     retrieved_docs := docs;
     reranked_docs := docs;
     relevance_scores := [];
     generation := "";
     iteration := 0;
     max_iterations := max;
     transformation_history := [];
     ansible_output := None;
     ansible_formatted := None |}.

Definition long_logs : string :=
  "2025-01-01 ERROR pod web-1 failed to mount volume: secret db-pass not found".

End Demo.

(** *** Two statements of the design document, as propositions *)

(** The grader's two outputs are equally long. *)
Definition grader_outputs_parallel (self : Nodes) (lib : Library)
           (st : GraphState) (t : trace) : Prop :=
  forall u t',
    grade_documents self lib st t = (Ok u, t') ->
    exists docs scores,
      u_reranked_docs u = Some docs /\
      u_relevance_scores u = Some scores /\
      List.length docs = List.length scores.

(** The history is as long as the iteration counter says. *)
Definition history_tracks_iteration (st : GraphState) : Prop :=
  List.length (transformation_history st) = iteration st.

(** A step of node [n] keeps the history as long as the counter says. *)
Definition step_keeps_history_length (self : Nodes) (lib : Library) (n : node)
           (st : GraphState) (t : trace) : Prop :=
  history_tracks_iteration st ->
  forall u t',
    run self lib n st t = (Ok u, t') ->
    history_tracks_iteration (merge st u).

(** *** Measure and invariant of the controller *)

Definition rank (p : Controller.phase) : nat :=
  match p with
  | Controller.RETRIEVE => 4
  | Controller.RERANK => 3
  | Controller.GRADE => 2
  | Controller.GENERATE => 1
  | Controller.TRANSFORM => 0
  | Controller.END => 0
  end.

(** What is left to do: five transitions for each retry still allowed,
    and the rest of the current pass. *)
Definition measure (c : Controller.config) : nat :=
  5 * (max_iterations (Controller.session c) - iteration (Controller.session c))
  + rank (Controller.at_phase c).

(** The passes through RETRIEVE made so far, given the iteration
    counter: one more than the counter once the current pass has begun. *)
Definition passes_due (c : Controller.config) : nat :=
  match Controller.at_phase c with
  | Controller.RETRIEVE => iteration (Controller.session c)
  | _ => iteration (Controller.session c) + 1
  end.

Definition consistent (N : nat) (c : Controller.config) : Prop :=
  max_iterations (Controller.session c) = N /\
  iteration (Controller.session c) <= N /\
  (Controller.at_phase c = Controller.TRANSFORM ->
   iteration (Controller.session c) < N) /\
  Controller.retrieve_passes c = passes_due c.

(** What a run of the controller ends with: the state of the machine,
    [iteration], the passes through RETRIEVE, the answer and the
    history. *)
Definition outcome (r : result Controller.config * trace) :
  option (Controller.phase * nat * nat * string * list string) :=
  match r with
  | (Ok c, _) =>
      Some (Controller.at_phase c,
            iteration (Controller.session c),
            Controller.retrieve_passes c,
            generation (Controller.session c),
            transformation_history (Controller.session c))
  | (Raise _, _) => None
  end.

(** *** More about the nodes *)

(** [xs] is [ys] with some elements left out, the order kept. *)
Inductive Subseq {A : Type} : list A -> list A -> Prop :=
| Subseq_nil : Subseq [] []
| Subseq_skip (y : A) (xs ys : list A) : Subseq xs ys -> Subseq xs (y :: ys)
| Subseq_keep (x : A) (xs ys : list A) : Subseq xs ys -> Subseq (x :: xs) (x :: ys).

(** The hints [_build_enhanced_query] appends to the question: the pod,
    the namespace, one error pattern, the resource keywords. *)
Definition pod_hint (state : GraphState) : list string :=
  match pod_name state with
  | Val (String c r) => [("pod:" ++ String c r)%string]
  | _ => []
  end.

Definition namespace_hint (state : GraphState) : list string :=
  match namespace state with
  | Val (String c r) => [("namespace:" ++ String c r)%string]
  | _ => []
  end.

Definition error_hint (log_context : string) : list string :=
  match log_context with
  | EmptyString => []
  | _ => first_pattern error_patterns (PyStr.lower log_context)
  end.

Definition resource_hints (log_context : string) : list string :=
  match log_context with
  | EmptyString => []
  | _ => resource_keywords resource_patterns (PyStr.lower log_context)
  end.

(** First and last character of a text. *)
Definition first_char (s : string) : option ascii :=
  match s with
  | EmptyString => None
  | String c _ => Some c
  end.

Fixpoint last_char (s : string) : option ascii :=
  match s with
  | EmptyString => None
  | String c EmptyString => Some c
  | String _ s' => last_char s'
  end.

Definition not_space (c : option ascii) : Prop :=
  match c with
  | Some a => PyStr.is_space a = false
  | None => False
  end.

(** One pass of the workflow without a rewrite: retrieve, rerank, grade,
    generate, each update merged into the state before the next node
    runs. *)
Definition forward_pass (self : Nodes) (lib : Library) (st : GraphState) : M GraphState :=
  u1 <- retrieve self st ;;
  let st1 := merge st u1 in
  u2 <- rerank self st1 ;;
  let st2 := merge st1 u2 in
  u3 <- grade_documents self lib st2 ;;
  let st3 := merge st2 u3 in
  u4 <- generate self lib st3 ;;
  ret (merge st3 u4).

(** [dict.get(key, default)] on a [Dict[str, str]]. *)
Fixpoint dict_get (d : list (string * string)) (key default : string) : string :=
  match d with
  | [] => default
  | (k, v) :: rest => if String.eqb k key then v else dict_get rest key default
  end.

(** [AnsibleRemediationOutput.to_display_format] of
    [v10_ansible_schemas.py]. *)
Record DisplayFormat : Type := mkDisplayFormat {
  display_rca : string;
  display_playbook : string;
  display_alert_name : string;
  display_severity : string;
  display_namespace : string;
  display_pod_name : string
}.

Definition to_display_format (r : AnsibleRemediationOutput) : DisplayFormat :=
  {| display_rca := rca r;
     display_playbook := match playbook r with Some p => p | None => "" end;
     display_alert_name := dict_get (commonLabels (payload r)) "alertname" "LogAlert";
     display_severity := dict_get (commonLabels (payload r)) "severity" "warning";
     display_namespace := dict_get (commonLabels (payload r)) "namespace" "unknown";
     display_pod_name := dict_get (commonLabels (payload r)) "pod_name" "" |}.

(** [AnsibleRemediationOutput.to_eda_webhook]: the alert without the
    analysis and the playbook. *)
Definition to_eda_webhook (r : AnsibleRemediationOutput) : AlertMeta * LogAlertPayload :=
  (meta r, payload r).

(** *** More collaborators for the examples *)

Module Fixtures.

(** Retrieval works and finds two documents; the reranker is down. *)
Definition reranker_down : Nodes :=
  {| llama_stack_url := "http://llama";
     model_display_name := "model";
     model_provider := "llamastack";
     new_retriever := fun _ _ _ => Ok tt;
     retriever_retrieve := fun _ _ _ _ =>
       Ok [mkLangchainDoc "first" None; mkLangchainDoc "second" None];
     rerank_documents := fun _ _ _ _ => Raise "reranker down";
     chat_completion := fun _ _ _ => Ok "yes" |}.

(** A library whose JSON parser accepts every text as the empty object. *)
Definition empty_object_lib : Library :=
  {| json_loads := fun _ => Ok (JObj []);
     import_schemas := import_schemas Demo.lib;
     utcnow_isoformat := utcnow_isoformat Demo.lib;
     uuid4 := uuid4 Demo.lib;
     fmt_3f := fmt_3f Demo.lib;
     grading_prompt := grading_prompt Demo.lib;
     system_prompt := system_prompt Demo.lib;
     k8s_component_context := k8s_component_context Demo.lib;
     infra_component_context := infra_component_context Demo.lib;
     user_prompt := user_prompt Demo.lib;
     ansible_system_prompt := ansible_system_prompt Demo.lib;
     ansible_user_prompt := ansible_user_prompt Demo.lib;
     transform_prompt := transform_prompt Demo.lib |}.

End Fixtures.

(** ** The model registry ([v10_model_config.py]) and the inference
    client ([v10_model_inference.py]) *)

(** A Python dict with string keys, in insertion order. *)
Module Dict.

Definition t (V : Type) : Type := list (string * V).

(** [d.get(key)]. *)
Fixpoint get {V} (d : t V) (key : string) : option V :=
  match d with
  | [] => None
  | (k, v) :: rest => if String.eqb k key then Some v else get rest key
  end.

(** [d[key] = value]: an existing key keeps its place. *)
Fixpoint set {V} (d : t V) (key : string) (value : V) : t V :=
  match d with
  | [] => [(key, value)]
  | (k, v) :: rest =>
      if String.eqb k key then (k, value) :: rest else (k, v) :: set rest key value
  end.

(** [d.update(other)]. *)
Definition update {V} (d other : t V) : t V :=
  fold_left (fun acc kv => set acc (fst kv) (snd kv)) other d.

Definition keys {V} (d : t V) : list string := map fst d.

End Dict.

(** The process environment and [os.getenv(key, default)]. *)
Definition environ : Type := string -> option string.

Definition getenv (env : environ) (key default : string) : string :=
  match env key with
  | Some v => v
  | None => default
  end.

Module ModelRegistry.

Record ModelConfig : Type := mkModelConfig {
  id : string;
  display_name : string;
  provider : string;
  endpoint : string;
  api_key : option string;
  model_id : string;
  description : string
}.

(** The registry [MODELS], evaluated in the environment of the import. *)
Definition MODELS (env : environ) : Dict.t ModelConfig :=
  [ ("llama-3b",
     mkModelConfig "llama-3b" "🦙 Llama 3.2 3B (Fast, Local)" "llamastack"
       (getenv env "LLAMA_STACK_URL"
          "http://llamastack-custom-distribution-service.model.svc.cluster.local:8321")
       None "llama-32-3b-instruct" "Fast local model, good for quick analysis");
    ("qwen-32b",
     mkModelConfig "qwen-32b" "🌟 Qwen 2.5 32B (Powerful, Local)" "vllm"
       (getenv env "QWEN_ENDPOINT" "")
       None "Qwen/Qwen2.5-32B-Instruct" "More capable local model for complex issues");
    ("granite-8b",
     mkModelConfig "granite-8b" "💎 Granite 3.1 8B (Local)" "vllm"
       (getenv env "GRANITE_ENDPOINT" "")
       None "ibm-granite/granite-3.1-8b-instruct"
       "IBM Granite model for enterprise workloads");
    ("groq",
     mkModelConfig "groq" "⚡ Groq (Lightning Fast)" "groq"
       "https://api.groq.com/openai/v1"
       (Some (getenv env "GROQ_API_KEY" ""))
       "llama-3.3-70b-versatile" "Ultra-fast inference with Groq LPU");
    ("gpt-4o",
     mkModelConfig "gpt-4o" "🧠 GPT-4o (OpenAI Foundation)" "openai"
       "https://api.openai.com/v1"
       (Some (getenv env "OPENAI_API_KEY" ""))
       "gpt-4o" "Most capable OpenAI model");
    ("gpt-4o-mini",
     mkModelConfig "gpt-4o-mini" "⚡ GPT-4o Mini (OpenAI, Fast)" "openai"
       "https://api.openai.com/v1"
       (Some (getenv env "OPENAI_API_KEY" ""))
       "gpt-4o-mini" "Faster, cheaper OpenAI model") ].

Definition nonempty (s : string) : bool :=
  match s with EmptyString => false | _ => true end.

(** The test of the loop body of [get_available_models]: a local model
    needs an endpoint, a hosted one an API key; any other provider is
    passed over. *)
Definition configured (config : ModelConfig) : bool :=
  if String.eqb (provider config) "llamastack" then nonempty (endpoint config)
  else if String.eqb (provider config) "vllm" then nonempty (endpoint config)
  else if existsb (String.eqb (provider config)) ["openai"; "groq"]
       then truthy (api_key config)
  else false.

(** The loop of [get_available_models] over a registry. *)
Definition available_of (models : Dict.t ModelConfig) : Dict.t ModelConfig :=
  fold_left
    (fun available entry =>
       if configured (snd entry)
       then Dict.set available (fst entry) (snd entry)
       else available)
    models [].

Definition get_available_models (env : environ) : Dict.t ModelConfig :=
  available_of (MODELS env).

Definition get_model_by_id (env : environ) (model_id : string) : option ModelConfig :=
  Dict.get (MODELS env) model_id.

End ModelRegistry.

Module Inference.

Import ModelRegistry.

(** The client object [UnifiedInference.__init__] stores: a Llama Stack
    client, an OpenAI-compatible client, or no [client] attribute at all
    when the provider is none of the four the constructor knows. *)
Inductive sdk_client : Type :=
| LlamaStackClient (base_url : string)
| OpenAI (api_key : option string) (base_url : string).

Definition client_of (config : ModelConfig) : option sdk_client :=
  if String.eqb (provider config) "llamastack"
  then Some (LlamaStackClient (endpoint config))
  else if existsb (String.eqb (provider config)) ["openai"; "groq"]
  then Some (OpenAI (api_key config) (endpoint config))
  else if String.eqb (provider config) "vllm"
  then Some (OpenAI (Some "EMPTY") (endpoint config))
  else None.

(** The two SDK calls with the reading of the answer text, as oracles:
    the first argument is the number of external calls made before. *)
Record Backend : Type := mkBackend {
  (** [client.inference.chat_completion(model_id, messages,
      sampling_params)] with greedy sampling and [max_tokens], then
      [.completion_message.content] *)
  llama_chat_completion :
    nat -> sdk_client -> string -> list message -> nat -> result string;
  (** [client.chat.completions.create(model, messages, max_tokens,
      temperature)], then [.choices[0].message.content] *)
  openai_create :
    nat -> sdk_client -> string -> list message -> nat -> Q -> result string
}.

(** [str(e)] of the [AttributeError] raised when [self.client] is read
    and was never set. *)
Definition no_client_error : string :=
  "'UnifiedInference' object has no attribute 'client'".

(** [UnifiedInference(config).chat_completion(messages, max_tokens,
    temperature)]. *)
Definition chat_completion (backend : Backend) (config : ModelConfig) (n : nat)
           (messages : list message) (max_tokens : nat) (temperature : Q)
  : result string :=
  if String.eqb (provider config) "llamastack" then
    match client_of config with
    | Some client =>
        llama_chat_completion backend n client (model_id config) messages max_tokens
    | None => Raise no_client_error
    end
  else
    match client_of config with
    | Some client =>
        openai_create backend n client (model_id config) messages max_tokens
          temperature
    | None => Raise no_client_error
    end.

(** A [Nodes] instance as [Nodes.__init__] sets it up: every model call
    of the nodes goes through the unified client, at temperature 0. *)
Definition nodes_with (backend : Backend) (config : ModelConfig)
           (services : Nodes) : Nodes :=
  mkNodes (llama_stack_url services) (display_name config) (provider config)
    (new_retriever services) (retriever_retrieve services)
    (rerank_documents services)
    (fun n messages max_tokens =>
       chat_completion backend config n messages max_tokens 0%Q).

End Inference.

(** ** Run metadata and tags ([v10_langsmith_config.py]) *)

Module Langsmith.

(** [metadata.update(kwargs)] after the fixed and the optional entries;
    the values are JSON values. *)
Definition create_run_metadata (namespace pod_name question : option string)
           (kwargs : Dict.t json) : Dict.t json :=
  let metadata0 := [("version", JStr "v10"); ("application", JStr "ai-troubleshooter")] in
  let metadata1 :=
    if truthy namespace
    then Dict.set metadata0 "namespace" (JStr (fmt namespace))
    else metadata0 in
  let metadata2 :=
    if truthy pod_name
    then Dict.set metadata1 "pod_name" (JStr (fmt pod_name))
    else metadata1 in
  let metadata3 :=
    if truthy question
    then Dict.set metadata2 "question" (JStr (PyStr.take 100 (fmt question)))
    else metadata2 in
  Dict.update metadata3 kwargs.

Definition base_tags : list string :=
  ["ai-troubleshooter"; "v10"; "kubernetes"; "troubleshooting"].

(** [get_langsmith_tags(iteration)]; the number is printed only when it
    is positive. *)
Definition get_langsmith_tags (iteration : Z) : list string :=
  if (0 <? iteration)%Z
  then base_tags
       ++ [("iteration-" ++ PyStr.of_nat (Z.to_nat iteration))%string;
           "self-correction"]
  else base_tags.

End Langsmith.

(** ** The automation hand-over ([v10_eda_integration.py]) *)

Module EDA.

(** A value [yaml.safe_load] can return. *)
#[warnings="-register-all"]
Inductive yaml : Type :=
| YNull
| YBool (b : bool)
| YInt (z : Z)
| YFloat (q : Q)
| YStr (s : string)
| YSeq (items : list yaml)
| YMap (members : list (yaml * yaml)).

(** What [yaml.safe_load] does with a text. *)
Inductive loaded : Type :=
| Loaded (document : yaml)
| YAMLError (e : string)
| OtherError (e : string).

(** The texts of the interpreter's own exceptions. *)
Record Interpreter : Type := mkInterpreter {
  (** [TypeError] of [key in v] for a [v] that is no container *)
  not_iterable : yaml -> string;
  (** [AttributeError] of [v.get] *)
  no_get : yaml -> string;
  (** [TypeError] of [len(v)] *)
  no_len : yaml -> string
}.

Definition is_str (v : yaml) (s : string) : bool :=
  match v with
  | YStr x => String.eqb x s
  | _ => false
  end.

(** A mapping has the string [key] among its keys. *)
Definition has_key (members : list (yaml * yaml)) (key : string) : bool :=
  existsb (fun kv => is_str (fst kv) key) members.

(** [key in v] for a string [key]: a key of a mapping, an item of a
    sequence, a part of a string. *)
Definition py_in (py : Interpreter) (key : string) (v : yaml) : result bool :=
  match v with
  | YMap members => Ok (has_key members key)
  | YSeq items => Ok (existsb (fun item => is_str item key) items)
  | YStr s => Ok (PyStr.contains key s)
  | _ => Raise (not_iterable py v)
  end.

Fixpoint map_get (members : list (yaml * yaml)) (key : string) (default : yaml) : yaml :=
  match members with
  | [] => default
  | (k, v) :: rest => if is_str k key then v else map_get rest key default
  end.

(** [v.get(key, default)]. *)
Definition py_get (py : Interpreter) (v : yaml) (key : string) (default : yaml)
  : result yaml :=
  match v with
  | YMap members => Ok (map_get members key default)
  | _ => Raise (no_get py v)
  end.

(** [len(v)]. *)
Definition py_len (py : Interpreter) (v : yaml) : result nat :=
  match v with
  | YSeq items => Ok (List.length items)
  | YMap members => Ok (List.length members)
  | YStr s => Ok (String.length s)
  | _ => Raise (no_len py v)
  end.

(** The dict [validate_playbook] returns. *)
Record validation : Type := mkValidation {
  valid : bool;
  v_message : string;
  num_plays : option nat;
  num_tasks : option nat
}.

Definition invalid (message : string) : validation :=
  mkValidation false message None None.

Definition validation_error (e : string) : validation :=
  invalid ("❌ Validation error: " ++ e).

Definition validate_playbook (py : Interpreter) (safe_load : string -> loaded)
           (playbook_yaml : string) : validation :=
  match safe_load playbook_yaml with
  | YAMLError e => invalid ("❌ YAML parsing error: " ++ e)
  | OtherError e => validation_error e
  | Loaded playbook =>
      match playbook with
      | YSeq plays =>
          match plays with
          | [] => invalid "Playbook is empty"
          | first_play :: _ =>
              match py_in py "hosts" first_play with
              | Raise e => validation_error e
              | Ok false => invalid "Play must have 'hosts' field"
              | Ok true =>
                  match py_in py "tasks" first_play with
                  | Raise e => validation_error e
                  | Ok false => invalid "Play must have 'tasks' field"
                  | Ok true =>
                      match py_get py first_play "tasks" (YSeq []) with
                      | Raise e => validation_error e
                      | Ok tasks =>
                          match py_len py tasks with
                          | Raise e => validation_error e
                          | Ok n =>
                              mkValidation true "✅ Playbook structure is valid"
                                (Some (List.length plays)) (Some n)
                          end
                      end
                  end
              end
          end
      | _ => invalid "Playbook must be a list of plays"
      end
  end.

(** [EDAIntegration(eda_webhook_url)]: the attribute it stores. *)
Definition webhook_url (env : environ) (eda_webhook_url : option string) : string :=
  or_else eda_webhook_url (getenv env "EDA_WEBHOOK_URL" "").

(** The dict [send_to_eda] returns. *)
Record delivery : Type := mkDelivery {
  success : bool;
  d_message : string;
  action : string
}.

Definition send_to_eda (env : environ) (eda_webhook_url : option string)
           (remediation : AnsibleRemediationOutput) : delivery :=
  match webhook_url env eda_webhook_url with
  | EmptyString =>
      mkDelivery false
        "⚠️ EDA webhook not configured. Set EDA_WEBHOOK_URL environment variable."
        "Configure EDA webhook URL to enable automatic remediation"
  | _ =>
      mkDelivery false
        "🚧 EDA webhook integration not yet implemented"
        "This is a placeholder for future automation"
  end.

End EDA.

(** ** The log fetcher ([v9_opensearch_fetcher.py]) *)

Module OpenSearch.

(** The clauses of the query DSL the fetcher writes. *)
#[warnings="-register-all"]
Inductive clause : Type :=
| Range (field gte : string)
| Term (field value : string)
| Terms (field : string) (values : list string)
| Match (field text : string)
| BoolShould (should : list clause) (minimum_should_match : nat).

(** [{'query': {'bool': {'must': ...}}, 'size': ..., 'sort':
    [{'@timestamp': 'desc'}]}]. *)
Record query_body : Type := mkQuery {
  must : list clause;
  size : nat
}.

(** A terms aggregation over [agg_field], on the documents matching
    [agg_must] (['size': 0]). *)
Record agg_body : Type := mkAgg {
  agg_must : list clause;
  agg_field : string;
  agg_size : nat
}.

(** The client, as two oracles. A hit is its [_source] with the field
    values as they print; the buckets are their keys. [Raise] stands for
    a failed request and for a response without the expected parts, both
    of which the fetcher catches in the same [except]. *)
Record Client : Type := mkClient {
  search_hits : nat -> string -> query_body -> result (list (list (string * string)));
  search_buckets : nat -> string -> agg_body -> result (list string)
}.

Definition index_patterns : Dict.t string :=
  [("storage", "storage-*"); ("server", "server-*"); ("database", "database-*");
   ("kubernetes", "kubernetes-*"); ("firewall", "firewall-*")].

Definition index_for (component_type : string) : string :=
  match Dict.get index_patterns component_type with
  | Some pattern => pattern
  | None => "*-*"
  end.

Definition infrastructure_types : list string :=
  ["storage"; "server"; "database"; "firewall"].

Definition must_clauses (component_type : string)
           (device_name namespace pod_name : option string)
           (time_range : string) (level_filter : option (list string)) : list clause :=
  let clauses0 := [Range "@timestamp" ("now-" ++ time_range)] in
  let clauses1 :=
    if String.eqb component_type "kubernetes" then
      let with_namespace :=
        if truthy namespace
        then clauses0 ++ [Term "namespace.keyword" (fmt namespace)]
        else clauses0 in
      if truthy pod_name
      then with_namespace ++ [Term "pod_name.keyword" (fmt pod_name)]
      else with_namespace
    else if existsb (String.eqb component_type) infrastructure_types then
      if truthy device_name
      then clauses0
           ++ [BoolShould [Term "device.keyword" (fmt device_name);
                           Term "host.keyword" (fmt device_name)] 1]
      else clauses0
    else clauses0 in
  match level_filter with
  | Some (level :: levels) => clauses1 ++ [Terms "level.keyword" (level :: levels)]
  | _ => clauses1
  end.

(** One formatted line per hit. *)
Definition format_hit (component_type : string) (log : list (string * string)) : string :=
  let head :=
    ("[" ++ dict_get log "@timestamp" "N/A" ++ "] "
     ++ dict_get log "level" "INFO" ++ " | ")%string in
  let message := dict_get log "message" "" in
  if String.eqb component_type "kubernetes" then
    (head ++ "Pod: " ++ dict_get log "pod_name" "N/A" ++ " | "
     ++ "Namespace: " ++ dict_get log "namespace" "N/A" ++ " | " ++ message)%string
  else if String.eqb component_type "storage" then
    (head ++ "Device: " ++ dict_get log "device" "N/A" ++ " | " ++ message)%string
  else if existsb (String.eqb component_type) ["server"; "database"] then
    (head ++ "Host: " ++ dict_get log "host" "N/A" ++ " | " ++ message)%string
  else if String.eqb component_type "firewall" then
    (head ++ "Device: " ++ dict_get log "device" "N/A" ++ " | "
     ++ "Action: " ++ dict_get log "action" "N/A" ++ " | " ++ message)%string
  else (head ++ message)%string.

(** [fetch_logs], as external call number [n]. *)
Definition fetch_logs (client : Client) (n : nat) (component_type : string)
           (device_name namespace pod_name : option string)
           (time_range : string) (max_logs : nat)
           (level_filter : option (list string)) : string :=
  let query_body :=
    mkQuery (must_clauses component_type device_name namespace pod_name
               time_range level_filter) max_logs in
  match search_hits client n (index_for component_type) query_body with
  | Ok hits => PyStr.join PyStr.nl (map (format_hit component_type) hits)
  | Raise e => ("Error fetching logs: " ++ e)%string
  end.

(** [sorted(...)] on strings: the stable sort by increasing value. *)
Fixpoint insert_str (x : string) (l : list string) : list string :=
  match l with
  | [] => [x]
  | y :: l' => if String.leb x y then x :: y :: l' else y :: insert_str x l'
  end.

Definition sorted_strings (l : list string) : list string :=
  fold_right insert_str [] l.

(** The order of Python on strings. *)
Definition str_le (a b : string) : Prop := String.leb a b = true.
Definition str_lt (a b : string) : Prop := String.ltb a b = true.

(** [set(...)]: each string once. *)
Definition py_set (l : list string) : list string := nodup string_dec l.

Definition pods_from_logs_query (namespace : string) : agg_body :=
  mkAgg [Term "kubernetes.namespace_name.keyword" namespace]
        "kubernetes.pod_name.keyword" 100.

Definition pods_from_events_query (namespace : string) : agg_body :=
  mkAgg [Term "kubernetes.namespace_name.keyword" "openshift-logging";
         Match "kubernetes.pod_name" "eventrouter";
         Term "kubernetes.event.involvedObject.namespace.keyword" namespace;
         Term "kubernetes.event.involvedObject.kind.keyword" "Pod"]
        "kubernetes.event.involvedObject.name.keyword" 100.

(** [get_pod_list], its first request being external call number [n]. *)
Definition get_pod_list (client : Client) (n : nat) (namespace : string) : list string :=
  match search_buckets client n "openshift-logs" (pods_from_logs_query namespace) with
  | Raise _ => []
  | Ok pods_from_logs =>
      match search_buckets client (S n) "openshift-logs"
              (pods_from_events_query namespace) with
      | Raise _ => []
      | Ok pods_from_events =>
          sorted_strings (py_set (pods_from_logs ++ pods_from_events))
      end
  end.

End OpenSearch.

(** *** Inputs for the examples of the other modules *)

Module Samples.

(** A session about an infrastructure device: no namespace, no pod. *)
Definition device_session (logs : string) : GraphState :=
  {| question := "is the array degraded";
     namespace := PyNone;
     pod_name := PyNone;
     log_context := logs;
     pod_events := "";
     retrieved_docs := [];
     reranked_docs := [];
     relevance_scores := [];
     generation := "";
     iteration := 0;
     max_iterations := 3;
     transformation_history := [];
     ansible_output := None;
     ansible_formatted := None |}.

(** An environment in which no variable is set. *)
Definition empty_env : environ := fun _ => None.

Definition interpreter : EDA.Interpreter :=
  EDA.mkInterpreter (fun _ => "argument is not iterable")
                    (fun _ => "object has no attribute 'get'")
                    (fun _ => "object has no len()").

(** A loader that reads every text as one play with two tasks. *)
Definition one_play (text : string) : EDA.loaded :=
  EDA.Loaded
    (EDA.YSeq
       [EDA.YMap [(EDA.YStr "hosts", EDA.YStr "all");
                  (EDA.YStr "tasks", EDA.YSeq [EDA.YNull; EDA.YNull])]]).

(** A loader that reads every text as one play written as a string. *)
Definition string_play (text : string) : EDA.loaded :=
  EDA.Loaded (EDA.YSeq [EDA.YStr "hosts: all, tasks: none"]).

(** A cluster where the logs know two pods and the events two. *)
Definition pods_client : OpenSearch.Client :=
  OpenSearch.mkClient
    (fun _ _ _ => Ok [])
    (fun n _ _ => if n =? 0 then Ok ["web-1"; "db-0"] else Ok ["web-1"; "api-2"]).

End Samples.

(** ** Facts about the node monad *)

(** [m] returns a value satisfying [P] from every trace: it does not
    raise. *)
Definition returns {A} (m : M A) (P : A -> Prop) : Prop :=
  forall t, exists a t', m t = (Ok a, t') /\ P a.

Lemma returns_ret {A} (a : A) (P : A -> Prop) : P a -> returns (ret a) P.
Proof. intros H t. exists a, t. split; [reflexivity | exact H]. Qed.

(** A [try] whose handler returns cannot raise, whatever its body does. *)
Lemma returns_try {A} (body : M A) (handler : string -> M A) (P : A -> Prop) :
  (forall t a t', body t = (Ok a, t') -> P a) ->
  (forall e, returns (handler e) P) ->
  returns (try_except body handler) P.
Proof.
  intros Hb Hh t. unfold try_except.
  destruct (body t) as [[a | e] t1] eqn:E.
  - exists a, t1. split; [reflexivity | eapply Hb, E].
  - apply Hh.
Qed.

Lemma length_snoc {A} (l : list A) (x : A) : List.length (l ++ [x]) = S (List.length l).
Proof. rewrite length_app. simpl. lia. Qed.

(** ** Node 1: retrieve *)

(** C4: when the combined evidence text (the log context, with the pod
    events appended under their header) is empty or shorter than 50
    characters, [retrieve] returns normally with an empty
    [retrieved_docs] and the question it was given, and the call trace is
    the one it started from: no index is built and nothing is queried. *)
Theorem retrieve_short_circuit (self : Nodes) (st : GraphState) (t : trace) :
  combined_logs st = "" \/ String.length (combined_logs st) < 50 ->
  retrieve self st t = (Ok (retrieve_result [] (question st)), t).
Proof.
  intros H. unfold retrieve.
  destruct H as [H | H].
  - rewrite H. reflexivity.
  - apply Nat.ltb_lt in H. rewrite H. rewrite orb_true_r. reflexivity.
Qed.

Lemma retrieve_short_circuit_witness :
  String.length (combined_logs (Demo.session "pod started" [] 3)) < 50 /\
  retrieve (Demo.answering "yes") (Demo.session "pod started" [] 3) [] =
  (Ok (retrieve_result [] "what errors occurred"), []).
Proof.
  split.
  - simpl. lia.
  - apply (retrieve_short_circuit (Demo.answering "yes")
             (Demo.session "pod started" [] 3) []).
    right. simpl. lia.
Defined.

(** What [retrieve] does, case by case. *)
Lemma retrieve_spec (self : Nodes) (st : GraphState) (t : trace) :
  let text := combined_logs st in
  let query := build_enhanced_query (question st) (log_context st) st in
  let build := CallBuildIndex text (llama_stack_url self) in
  retrieve self st t =
  if match text with EmptyString => true | _ => false end
     || (String.length text <? 50)
  then (Ok (retrieve_result [] (question st)), t)
  else
    match new_retriever self (List.length t) text (llama_stack_url self) with
    | Raise _ => (Ok (retrieve_result [] (question st)), t ++ [build])
    | Ok _ =>
        match retriever_retrieve self (S (List.length t)) text query 10 with
        | Raise _ =>
            (Ok (retrieve_result [] (question st)),
             (t ++ [build]) ++ [CallRetrieve text query 10])
        | Ok found =>
            (Ok (retrieve_result (convert_docs 0 found) (question st)),
             (t ++ [build]) ++ [CallRetrieve text query 10])
        end
    end.
Proof.
  cbn zeta. unfold retrieve.
  destruct (_ || _); [reflexivity |].
  unfold try_except, bind, external, ret.
  destruct (new_retriever self (List.length t) (combined_logs st)
              (llama_stack_url self)) as [[] | e0]; [| reflexivity].
  rewrite length_snoc.
  destruct (retriever_retrieve self (S (List.length t)) (combined_logs st)
              (build_enhanced_query (question st) (log_context st) st) 10);
    reflexivity.
Qed.

(** C6: [retrieve] never raises. From every state and trace it returns
    an update that carries the question unchanged; and when building the
    index raises, or querying it raises, the returned [retrieved_docs] is
    empty. *)
Theorem retrieve_never_raises (self : Nodes) (st : GraphState) (t : trace) :
  exists docs t',
    retrieve self st t = (Ok (retrieve_result docs (question st)), t') /\
    (forall e,
        new_retriever self (List.length t) (combined_logs st)
          (llama_stack_url self) = Raise e ->
        docs = []) /\
    (forall e,
        retriever_retrieve self (S (List.length t)) (combined_logs st)
          (build_enhanced_query (question st) (log_context st) st) 10 = Raise e ->
        docs = []).
Proof.
  rewrite retrieve_spec. cbn zeta.
  destruct (_ || _).
  - exists [], t. repeat split; reflexivity.
  - destruct (new_retriever self (List.length t) (combined_logs st)
                (llama_stack_url self)) as [[] | e0] eqn:Hbuild.
    + destruct (retriever_retrieve self (S (List.length t)) (combined_logs st)
                  (build_enhanced_query (question st) (log_context st) st) 10)
        as [found | e1] eqn:Hquery.
      * eexists _, _. split; [reflexivity |].
        split; intros e He; discriminate He.
      * eexists [], _. split; [reflexivity |]. split; reflexivity.
    + eexists [], _. split; [reflexivity |]. split; reflexivity.
Qed.

Lemma retrieve_never_raises_witness :
  exists t',
    retrieve Demo.all_down (Demo.session Demo.long_logs [] 3) [] =
    (Ok (retrieve_result [] "what errors occurred"), t').
Proof.
  destruct (retrieve_never_raises Demo.all_down
              (Demo.session Demo.long_logs [] 3) [])
    as (docs & t' & Hrun & Hbuild & _).
  exists t'. rewrite Hrun.
  rewrite (Hbuild "connection refused" eq_refl). reflexivity.
Defined.

Lemma retrieve_returns (self : Nodes) (st : GraphState) :
  returns (retrieve self st)
    (fun u => u_iteration u = None /\ u_transformation_history u = None).
Proof.
  intros t. rewrite retrieve_spec. cbn zeta.
  destruct (_ || _); [eexists _, _; repeat split; reflexivity |].
  destruct (new_retriever _ _ _ _); [| eexists _, _; repeat split; reflexivity].
  destruct (retriever_retrieve _ _ _ _ _); eexists _, _; repeat split; reflexivity.
Qed.

(** ** Node 4 with no evidence, node 5 with a failing model *)

(** C5: with an empty filtered document list [generate] returns at once,
    normally, the fixed answer that no relevant log data was found; the
    call trace is unchanged, so no model call is issued. *)
Theorem generate_no_evidence (self : Nodes) (lib : Library)
        (st : GraphState) (t : trace) :
  reranked_docs st = [] ->
  generate self lib st t = (Ok (generate_short no_data_message (question st)), t).
Proof.
  intros H. unfold generate. rewrite H. reflexivity.
Qed.

Lemma generate_no_evidence_witness :
  reranked_docs (Demo.session Demo.long_logs [] 2) = [] /\
  generate (Demo.answering "fine") Demo.lib (Demo.session Demo.long_logs [] 2) [] =
  (Ok (generate_short no_data_message "what errors occurred"), []).
Proof.
  split.
  - reflexivity.
  - apply (generate_no_evidence (Demo.answering "fine") Demo.lib
             (Demo.session Demo.long_logs [] 2) []).
    reflexivity.
Defined.

(** C8: when the rewrite call raises, [transform_query] returns the
    question it was given together with [iteration + 1] and nothing
    else: merged into the state, the question is unchanged and exactly
    one unit of the retry budget is consumed. *)
Theorem transform_failure_consumes_budget (self : Nodes) (lib : Library)
        (st : GraphState) (t : trace) (e : string) :
  chat_completion self (List.length t) (transform_messages lib st) 100 = Raise e ->
  exists t',
    transform_query self lib st t =
    (Ok (transform_failed (question st) (iteration st + 1)), t') /\
    question (merge st (transform_failed (question st) (iteration st + 1)))
    = question st /\
    iteration (merge st (transform_failed (question st) (iteration st + 1)))
    = iteration st + 1.
Proof.
  intros H. unfold transform_query, try_except, bind, external.
  fold (transform_messages lib st). rewrite H.
  eexists. split; [reflexivity |]. split; reflexivity.
Qed.

Lemma transform_failure_consumes_budget_witness :
  exists t',
    transform_query Demo.all_down Demo.lib (Demo.session Demo.long_logs [] 3) [] =
    (Ok (transform_failed "what errors occurred" 1), t').
Proof.
  destruct (transform_failure_consumes_budget Demo.all_down Demo.lib
              (Demo.session Demo.long_logs [] 3) [] "connection refused" eq_refl)
    as (t' & Hrun & _).
  exists t'. exact Hrun.
Defined.

(** ** Node 2: the fallback ranking *)

Section FallbackRanking.

Lemma insert_desc_perm (x : Doc) (l : list Doc) :
  Permutation (x :: l) (insert_desc x l).
Proof.
  induction l as [| y l IH]; simpl.
  - apply Permutation_refl.
  - destruct (Qle_bool (score_key y) (score_key x)).
    + apply Permutation_refl.
    + apply perm_trans with (y :: x :: l).
      * apply perm_swap.
      * apply perm_skip, IH.
Qed.

Lemma sorted_by_score_desc_perm (docs : list Doc) :
  Permutation docs (sorted_by_score_desc docs).
Proof.
  induction docs as [| d docs IH]; simpl.
  - apply perm_nil.
  - apply perm_trans with (d :: sorted_by_score_desc docs).
    + apply perm_skip, IH.
    + apply insert_desc_perm.
Qed.

Lemma insert_desc_sorted (x : Doc) (l : list Doc) :
  StronglySorted score_ge l -> StronglySorted score_ge (insert_desc x l).
Proof.
  induction 1 as [| y l Hsorted IH Hall]; simpl.
  - constructor; constructor.
  - destruct (Qle_bool (score_key y) (score_key x)) eqn:Hcmp.
    + apply Qle_bool_iff in Hcmp.
      constructor.
      * constructor; assumption.
      * constructor; [exact Hcmp |].
        eapply Forall_impl; [| exact Hall].
        intros z Hz. unfold score_ge in *.
        eapply Qle_trans; eassumption.
    + constructor; [exact IH |].
      assert (Hxy : score_ge y x).
      { unfold score_ge. apply Qlt_le_weak, Qnot_le_lt.
        intros Hle. apply Qle_bool_iff in Hle. congruence. }
      eapply Permutation_Forall; [apply insert_desc_perm |].
      constructor; assumption.
Qed.

Lemma sorted_by_score_desc_sorted (docs : list Doc) :
  StronglySorted score_ge (sorted_by_score_desc docs).
Proof.
  induction docs as [| d docs IH]; simpl.
  - constructor.
  - apply insert_desc_sorted, IH.
Qed.

(** Documents with equal scores keep the order they had: the sort is
    stable, as Python's [sorted] is, also with [reverse=True]. *)
Lemma insert_desc_stable (q : Q) (x : Doc) (l : list Doc) :
  filter (fun d => Qeq_bool (score_key d) q) (insert_desc x l) =
  filter (fun d => Qeq_bool (score_key d) q) (x :: l).
Proof.
  induction l as [| y l IH]; [reflexivity |].
  cbn [insert_desc].
  destruct (Qle_bool (score_key y) (score_key x)) eqn:Hcmp; [reflexivity |].
  cbn [filter] in *. rewrite IH.
  destruct (Qeq_bool (score_key y) q) eqn:Hy;
    destruct (Qeq_bool (score_key x) q) eqn:Hx; try reflexivity.
  apply Qeq_bool_iff in Hy, Hx.
  assert (Hle : Qle_bool (score_key y) (score_key x) = true).
  { apply Qle_bool_iff. rewrite Hy, Hx. apply Qle_refl. }
  congruence.
Qed.

Lemma sorted_by_score_desc_stable (q : Q) (docs : list Doc) :
  filter (fun d => Qeq_bool (score_key d) q) (sorted_by_score_desc docs) =
  filter (fun d => Qeq_bool (score_key d) q) docs.
Proof.
  induction docs as [| d docs IH]; [reflexivity |].
  cbn [sorted_by_score_desc fold_right].
  fold (sorted_by_score_desc docs).
  rewrite insert_desc_stable. cbn [filter]. rewrite IH. reflexivity.
Qed.

Lemma firstn_sorted (n : nat) (l : list Doc) :
  StronglySorted score_ge l -> StronglySorted score_ge (firstn n l).
Proof.
  intros H. revert n.
  induction H as [| y l Hsorted IH Hall]; intros [| n]; simpl;
    try constructor.
  - apply IH.
  - rewrite Forall_forall in *. intros z Hz. apply Hall.
    rewrite <- (firstn_skipn n l). apply in_or_app. left. exact Hz.
Qed.

End FallbackRanking.

(** C7: when the reranker call raises, [rerank] returns normally; the
    [reranked_docs] of the update it returns, and so of the state after
    the step, are the first five of the original candidates arranged by
    decreasing fusion score (a missing score counts as 0, candidates
    with equal scores keep their order). So the fallback list has at
    most 5 documents, exactly [min 5 n] of the [n] candidates, and each
    of its documents has a score at least as large as every document
    after it. The question and the retrieved list are left as they
    were. *)
Theorem rerank_fallback (self : Nodes) (st : GraphState) (t : trace) (e : string) :
  rerank_documents self (List.length t) (question st) (retrieved_docs st) 10
  = Raise e ->
  exists u ranked top t',
    rerank self st t = (Ok u, t') /\
    u_reranked_docs u = Some top /\
    u_question u = Some (question st) /\
    reranked_docs (merge st u) = top /\
    retrieved_docs (merge st u) = retrieved_docs st /\
    question (merge st u) = question st /\
    Permutation (retrieved_docs st) ranked /\
    StronglySorted score_ge ranked /\
    (forall q,
        filter (fun d => Qeq_bool (score_key d) q) ranked =
        filter (fun d => Qeq_bool (score_key d) q) (retrieved_docs st)) /\
    top = firstn 5 ranked /\
    List.length top <= 5 /\
    List.length top = Nat.min 5 (List.length (retrieved_docs st)) /\
    StronglySorted score_ge top.
Proof.
  intros Hraise.
  assert (Hrun : exists t',
             rerank self st t =
             (Ok (rerank_result
                    (firstn 5 (sorted_by_score_desc (retrieved_docs st)))
                    (question st)), t')).
  { unfold rerank. destruct (retrieved_docs st) as [| d docs] eqn:Hdocs.
    - exists t. reflexivity.
    - unfold try_except, bind, external. rewrite Hraise.
      eexists. reflexivity. }
  destruct Hrun as (t' & Hrun).
  exists (rerank_result (firstn 5 (sorted_by_score_desc (retrieved_docs st)))
            (question st)),
         (sorted_by_score_desc (retrieved_docs st)),
         (firstn 5 (sorted_by_score_desc (retrieved_docs st))), t'.
  split; [exact Hrun |].
  split; [reflexivity |].
  split; [reflexivity |].
  split; [reflexivity |].
  split; [reflexivity |].
  split; [reflexivity |].
  split; [apply sorted_by_score_desc_perm |].
  split; [apply sorted_by_score_desc_sorted |].
  split; [intros q; apply sorted_by_score_desc_stable |].
  split; [reflexivity |].
  split; [rewrite length_firstn; apply Nat.le_min_l |].
  split.
  - rewrite length_firstn.
    rewrite <- (Permutation_length (sorted_by_score_desc_perm (retrieved_docs st))).
    reflexivity.
  - apply firstn_sorted, sorted_by_score_desc_sorted.
Qed.

Lemma rerank_returns (self : Nodes) (st : GraphState) :
  returns (rerank self st)
    (fun u => u_iteration u = None /\ u_transformation_history u = None).
Proof.
  unfold rerank. destruct (retrieved_docs st).
  - apply returns_ret. split; reflexivity.
  - apply returns_try.
    + intros t a t'. unfold bind, external.
      destruct (rerank_documents _ _ _ _ _); intros H; inversion H.
      split; reflexivity.
    + intros e. apply returns_ret. split; reflexivity.
Qed.

Lemma rerank_fallback_witness :
  exists u t',
    rerank Demo.all_down
      (Demo.session Demo.long_logs
         [Demo.doc "a" (1 # 3); Demo.doc "b" 1; Demo.doc "c" (1 # 2)] 3) []
    = (Ok u, t') /\
    u_reranked_docs u
    = Some [Demo.doc "b" 1; Demo.doc "c" (1 # 2); Demo.doc "a" (1 # 3)] /\
    u_question u = Some "what errors occurred".
Proof.
  destruct (rerank_fallback Demo.all_down
              (Demo.session Demo.long_logs
                 [Demo.doc "a" (1 # 3); Demo.doc "b" 1; Demo.doc "c" (1 # 2)] 3)
              [] "connection refused" eq_refl)
    as (u & ranked & top & t' & Hrun & Hdocs & Hq & _).
  exists u, t'. split; [exact Hrun |]. split; [| exact Hq].
  vm_compute in Hrun. inversion Hrun. reflexivity.
Defined.

Example rerank_fallback_order :
  match fst (rerank Demo.all_down
               (Demo.session Demo.long_logs
                  [Demo.doc "a" (1 # 3); Demo.doc "b" 1; Demo.doc "c" (1 # 2);
                   Demo.doc "d" (1 # 2); Demo.doc "e" (1 # 7); Demo.doc "f" (1 # 9)] 3)
               []) with
  | Ok u => u_reranked_docs u
  | Raise _ => None
  end
  = Some [Demo.doc "b" 1; Demo.doc "c" (1 # 2); Demo.doc "d" (1 # 2);
          Demo.doc "a" (1 # 3); Demo.doc "e" (1 # 7)].
Proof. reflexivity. Qed.

(** ** Node 3: grading *)

Lemma grade_one_spec (self : Nodes) (lib : Library) (q : string) (d : Doc)
      (filtered : list Doc) (scores : list Q) (t : trace) :
  let v := relevance_decision
             (chat_completion self (List.length t) (grading_messages lib q d) 100) in
  grade_one self lib q d (filtered, scores) t =
  (Ok (if fst v then filtered ++ [d] else filtered, scores ++ [snd v]),
   t ++ [CallChat (grading_messages lib q d) 100]).
Proof.
  unfold grade_one, try_except, bind, external, grading_messages.
  destruct (chat_completion self (List.length t) _ 100) as [response | e]; simpl.
  - destruct (PyStr.contains "yes" (PyStr.lower response)); reflexivity.
  - reflexivity.
Qed.

Lemma kept_cons (d : Doc) (docs : list Doc) (v : bool * Q) (vs : list (bool * Q)) :
  kept (d :: docs) (v :: vs) = (if fst v then [d] else []) ++ kept docs vs.
Proof. unfold kept. simpl. destruct (fst v); reflexivity. Qed.

Lemma grade_loop_spec (self : Nodes) (lib : Library) (q : string) (docs : list Doc) :
  forall (filtered : list Doc) (scores : list Q) (t : trace),
    let vs := verdicts self lib q (List.length t) docs in
    grade_loop self lib q docs (filtered, scores) t =
    (Ok (filtered ++ kept docs vs, scores ++ map snd vs),
     t ++ grading_calls lib q docs).
Proof.
  induction docs as [| d docs IH]; intros filtered scores t; cbn zeta.
  - simpl. unfold ret, kept. simpl. rewrite !app_nil_r. reflexivity.
  - cbn [grade_loop verdicts]. unfold bind.
    rewrite grade_one_spec. cbn zeta.
    rewrite IH. cbn zeta. rewrite length_snoc.
    rewrite kept_cons. cbn [map grading_calls].
    destruct (fst (relevance_decision _)); rewrite <- !app_assoc; reflexivity.
Qed.

Lemma grade_documents_spec (self : Nodes) (lib : Library) (st : GraphState) (t : trace) :
  let vs := verdicts self lib (question st) (List.length t) (reranked_docs st) in
  grade_documents self lib st t =
  (Ok (grade_result (kept (reranked_docs st) vs) (map snd vs) (question st)),
   t ++ grading_calls lib (question st) (reranked_docs st)).
Proof.
  cbn zeta. unfold grade_documents.
  destruct (reranked_docs st) as [| d docs] eqn:Hdocs.
  - unfold ret. simpl. rewrite app_nil_r. reflexivity.
  - unfold bind. rewrite grade_loop_spec. reflexivity.
Qed.

Lemma verdicts_length (self : Nodes) (lib : Library) (q : string) (docs : list Doc) :
  forall n, List.length (verdicts self lib q n docs) = List.length docs.
Proof.
  induction docs as [| d docs IH]; intros n; simpl; [| rewrite IH]; reflexivity.
Qed.

(** A score of zero is exactly the decision to drop. *)
Lemma decision_nonzero (answer : result string) :
  negb (Qeq_bool (snd (relevance_decision answer)) 0) = fst (relevance_decision answer).
Proof.
  destruct answer as [response | e]; simpl.
  - destruct (PyStr.contains "yes" (PyStr.lower response)); reflexivity.
  - reflexivity.
Qed.

Lemma scored_nonzero_verdicts (self : Nodes) (lib : Library) (q : string)
      (docs : list Doc) :
  forall n,
    scored_nonzero docs (map snd (verdicts self lib q n docs)) =
    kept docs (verdicts self lib q n docs).
Proof.
  unfold scored_nonzero, kept.
  induction docs as [| d docs IH]; intros n; [reflexivity |].
  cbn [verdicts map combine filter fst snd].
  rewrite decision_nonzero.
  destruct (fst (relevance_decision _)); cbn [map]; rewrite IH; reflexivity.
Qed.

Lemma kept_length (docs : list Doc) (vs : list (bool * Q)) :
  List.length (kept docs vs) <= List.length vs.
Proof.
  unfold kept. rewrite length_map.
  eapply Nat.le_trans; [apply filter_length_le |].
  rewrite length_combine. apply Nat.le_min_r.
Qed.

Lemma verdicts_nth (self : Nodes) (lib : Library) (q : string) (docs : list Doc) :
  forall n i d,
    nth_error docs i = Some d ->
    nth_error (verdicts self lib q n docs) i =
    Some (relevance_decision
            (chat_completion self (n + i) (grading_messages lib q d) 100)).
Proof.
  induction docs as [| d0 docs IH]; intros n i d H.
  - destruct i; discriminate H.
  - destruct i as [| i]; cbn [verdicts nth_error] in *.
    + inversion H; subst. rewrite Nat.add_0_r. reflexivity.
    + rewrite (IH (S n) i d H). replace (S n + i) with (n + S i) by lia.
      reflexivity.
Qed.

Lemma prefix_lower (a : string) :
  forall s, prefix a s = true -> prefix (PyStr.lower a) (PyStr.lower s) = true.
Proof.
  induction a as [| x a IH]; intros s H.
  - destruct s; reflexivity.
  - destruct s as [| y s]; [discriminate H |].
    cbn [prefix PyStr.lower] in *.
    destruct (ascii_dec x y) as [-> | Hne]; [| discriminate H].
    destruct (ascii_dec (PyStr.lower_char y) (PyStr.lower_char y)) as [_ | Hne];
      [apply IH, H | congruence].
Qed.

(** Lowering keeps occurrences: a word that occurs in a text occurs,
    lowered, in the lowered text. *)
Lemma contains_lower (sub : string) :
  forall s, PyStr.contains sub s = true ->
            PyStr.contains (PyStr.lower sub) (PyStr.lower s) = true.
Proof.
  induction s as [| c s IH]; cbn [PyStr.contains PyStr.lower]; intros H.
  - rewrite orb_false_r in *. apply (prefix_lower sub "" H).
  - apply orb_true_iff in H. apply orb_true_iff.
    destruct H as [H | H]; [left | right; apply IH, H].
    apply (prefix_lower sub (String c s) H).
Qed.

Lemma map_fst_combine {A B} (l : list A) :
  forall l' : list B,
    List.length l = List.length l' -> map fst (combine l l') = l.
Proof.
  induction l as [| a l IH]; intros [| b l'] H; try discriminate H; [reflexivity |].
  simpl. rewrite IH; [reflexivity | simpl in H; lia].
Qed.

Lemma filter_keeps_all {A} (f : A -> bool) (l : list A) :
  List.length (filter f l) = List.length l -> filter f l = l.
Proof.
  induction l as [| a l IH]; [reflexivity |].
  simpl. destruct (f a); simpl; intros H.
  - rewrite IH; [reflexivity | lia].
  - pose proof (filter_length_le f l). lia.
Qed.

Lemma kept_nothing_dropped (docs : list Doc) (vs : list (bool * Q)) :
  List.length vs = List.length docs ->
  List.length (kept docs vs) = List.length vs ->
  kept docs vs = docs.
Proof.
  intros Hvs Hlen. unfold kept in *. rewrite length_map in Hlen.
  rewrite filter_keeps_all.
  - apply map_fst_combine. symmetry. exact Hvs.
  - rewrite Hlen, length_combine, Hvs. symmetry. apply Nat.min_id.
Qed.

(** C3: grading follows the policy of the design document, document by
    document. The node returns normally; the i-th entry of the
    [relevance_scores] it returns is decided by the answer to the
    grading request for the i-th reranked document alone: 1.0 when the
    call succeeds and the lowercased answer contains [yes] (so also for
    an answer that says Yes or YES), 0.0 when the call succeeds without
    it, 0.5 when the call raises. The [reranked_docs] it returns are the
    reranked documents whose score is not zero, in order: the documents
    scored 1.0 and 0.5 are kept, those scored 0.0 are dropped. The
    decision is a function of the answer ([relevance_decision]). *)
Theorem grading_follows_policy (self : Nodes) (lib : Library)
        (st : GraphState) (t : trace) :
  let docs := reranked_docs st in
  let answer i d :=
    chat_completion self (List.length t + i)
      (grading_messages lib (question st) d) 100 in
  exists u t' filtered scores,
    grade_documents self lib st t = (Ok u, t') /\
    u_reranked_docs u = Some filtered /\
    u_relevance_scores u = Some scores /\
    u_question u = Some (question st) /\
    reranked_docs (merge st u) = filtered /\
    relevance_scores (merge st u) = scores /\
    List.length scores = List.length docs /\
    (forall i d,
        nth_error docs i = Some d ->
        nth_error scores i =
        Some match answer i d with
             | Ok response =>
                 if PyStr.contains "yes" (PyStr.lower response) then 1%Q else 0%Q
             | Raise _ => (1 # 2)%Q
             end) /\
    (forall i d response,
        nth_error docs i = Some d ->
        answer i d = Ok response ->
        PyStr.contains "yes" response = true \/
        PyStr.contains "Yes" response = true \/
        PyStr.contains "YES" response = true ->
        nth_error scores i = Some 1%Q) /\
    filtered = scored_nonzero docs scores /\
    (forall i d,
        nth_error docs i = Some d ->
        nth_error scores i = Some (snd (relevance_decision (answer i d)))) /\
    filtered = kept docs (verdicts self lib (question st) (List.length t) docs) /\
    t' = t ++ grading_calls lib (question st) docs.
Proof.
  cbn zeta.
  set (vs := verdicts self lib (question st) (List.length t) (reranked_docs st)).
  exists (grade_result (kept (reranked_docs st) vs) (map snd vs) (question st)),
         (t ++ grading_calls lib (question st) (reranked_docs st)),
         (kept (reranked_docs st) vs), (map snd vs).
  assert (Hnth : forall i d,
             nth_error (reranked_docs st) i = Some d ->
             nth_error (map snd vs) i =
             Some (snd (relevance_decision
                          (chat_completion self (List.length t + i)
                             (grading_messages lib (question st) d) 100)))).
  { intros i d H. rewrite nth_error_map. unfold vs.
    rewrite (verdicts_nth self lib (question st) (reranked_docs st) _ i d H).
    reflexivity. }
  split; [apply grade_documents_spec |].
  split; [reflexivity |]. split; [reflexivity |]. split; [reflexivity |].
  split; [reflexivity |]. split; [reflexivity |].
  split; [rewrite length_map; apply verdicts_length |].
  split.
  { intros i d H. rewrite (Hnth i d H).
    destruct (chat_completion self (List.length t + i) _ 100) as [response | e];
      cbn [relevance_decision];
      [destruct (PyStr.contains "yes" (PyStr.lower response)) |]; reflexivity. }
  split.
  { intros i d response H Hanswer Hyes. rewrite (Hnth i d H), Hanswer.
    cbn [relevance_decision].
    assert (Hlow : PyStr.contains "yes" (PyStr.lower response) = true).
    { destruct Hyes as [Hy | [Hy | Hy]].
      - apply (contains_lower "yes" response Hy).
      - apply (contains_lower "Yes" response Hy).
      - apply (contains_lower "YES" response Hy). }
    rewrite Hlow. reflexivity. }
  split; [symmetry; apply scored_nonzero_verdicts |].
  split; [exact Hnth |].
  split; reflexivity.
Qed.

Lemma grading_follows_policy_witness :
  exists u t',
    grade_documents (Demo.answering "YES, it is.") Demo.lib
      (Demo.session Demo.long_logs [Demo.doc "pod crashed: error" 1] 3) []
    = (Ok u, t') /\
    u_reranked_docs u = Some [Demo.doc "pod crashed: error" 1] /\
    u_relevance_scores u = Some [1%Q].
Proof.
  destruct (grading_follows_policy (Demo.answering "YES, it is.") Demo.lib
              (Demo.session Demo.long_logs [Demo.doc "pod crashed: error" 1] 3) [])
    as (u & t' & filtered & scores & Hrun & Hdocs & Hscores & _ & _ & _ & Hlen
        & _ & Hyes & Hfiltered & _).
  exists u, t'. split; [exact Hrun |].
  assert (Hs : scores = [1%Q]).
  { pose proof (Hyes 0 (Demo.doc "pod crashed: error" 1) "YES, it is."
                  eq_refl eq_refl (or_intror (or_intror eq_refl))) as H0.
    destruct scores as [| s0 [| s1 scores]]; try discriminate Hlen.
    inversion H0. reflexivity. }
  subst scores. split; [| exact Hscores].
  rewrite Hdocs, Hfiltered. reflexivity.
Defined.

Lemma grade_returns (self : Nodes) (lib : Library) (st : GraphState) :
  returns (grade_documents self lib st)
    (fun u => u_iteration u = None /\ u_transformation_history u = None).
Proof.
  intros t. eexists _, _. split; [apply grade_documents_spec |].
  split; reflexivity.
Qed.

(** C2 fails as stated: one document that the model judges irrelevant
    leaves an empty filtered list next to a score array of length 1. *)
Lemma grader_outputs_not_parallel :
  ~ grader_outputs_parallel (Demo.answering "no") Demo.lib
      (Demo.session Demo.long_logs [Demo.doc "kernel banner" 1] 3) [].
Proof.
  intros H.
  destruct (H _ _ (grade_documents_spec (Demo.answering "no") Demo.lib
                     (Demo.session Demo.long_logs [Demo.doc "kernel banner" 1] 3) []))
    as (docs & scores & Hdocs & Hscores & Hlen).
  vm_compute in Hdocs, Hscores.
  inversion Hdocs; inversion Hscores; subst. discriminate Hlen.
Qed.

(** C2, amended: the relevance-score array is parallel to the list the
    grader was given, not to the list it returns. The [relevance_scores]
    of the update have one score per input document, the i-th score
    being the decision for the i-th input document; the [reranked_docs]
    of the update are the input documents whose score is not zero, in
    order, so the filtered list is never longer than the score array,
    and it is equally long only when no document was dropped. *)
Theorem grader_scores_parallel_to_input (self : Nodes) (lib : Library)
        (st : GraphState) (t : trace) :
  exists u filtered scores t',
    grade_documents self lib st t = (Ok u, t') /\
    u_reranked_docs u = Some filtered /\
    u_relevance_scores u = Some scores /\
    reranked_docs (merge st u) = filtered /\
    relevance_scores (merge st u) = scores /\
    List.length scores = List.length (reranked_docs st) /\
    scores = map snd (verdicts self lib (question st) (List.length t)
                        (reranked_docs st)) /\
    (forall i d,
        nth_error (reranked_docs st) i = Some d ->
        nth_error scores i =
        Some (snd (relevance_decision
                     (chat_completion self (List.length t + i)
                        (grading_messages lib (question st) d) 100)))) /\
    filtered = scored_nonzero (reranked_docs st) scores /\
    List.length filtered <= List.length scores /\
    (List.length filtered = List.length scores -> filtered = reranked_docs st).
Proof.
  set (vs := verdicts self lib (question st) (List.length t) (reranked_docs st)).
  exists (grade_result (kept (reranked_docs st) vs) (map snd vs) (question st)),
         (kept (reranked_docs st) vs), (map snd vs),
         (t ++ grading_calls lib (question st) (reranked_docs st)).
  split; [apply grade_documents_spec |].
  split; [reflexivity |]. split; [reflexivity |].
  split; [reflexivity |]. split; [reflexivity |].
  split; [rewrite length_map; apply verdicts_length |].
  split; [reflexivity |].
  split.
  { intros i d H. rewrite nth_error_map. unfold vs.
    rewrite (verdicts_nth self lib (question st) (reranked_docs st) _ i d H).
    reflexivity. }
  split; [symmetry; apply scored_nonzero_verdicts |].
  split; [rewrite length_map; apply kept_length |].
  rewrite length_map. apply kept_nothing_dropped. apply verdicts_length.
Qed.

Lemma grader_scores_parallel_to_input_witness :
  exists u t',
    grade_documents (Demo.answering "no") Demo.lib
      (Demo.session Demo.long_logs
         [Demo.doc "kernel banner" 1; Demo.doc "motd" (1 # 2)] 3) []
    = (Ok u, t') /\
    u_reranked_docs u = Some [] /\
    u_relevance_scores u = Some [0%Q; 0%Q].
Proof.
  destruct (grader_scores_parallel_to_input (Demo.answering "no") Demo.lib
              (Demo.session Demo.long_logs
                 [Demo.doc "kernel banner" 1; Demo.doc "motd" (1 # 2)] 3) [])
    as (u & filtered & scores & t' & Hrun & Hdocs & Hscores & _ & _ & _ & Hs
        & _ & Hfiltered & _).
  exists u, t'. split; [exact Hrun |].
  rewrite Hdocs, Hscores, Hfiltered, Hs. split; reflexivity.
Defined.

(** ** Node 5: the rewrite and the history *)

Lemma transform_query_spec (self : Nodes) (lib : Library)
      (st : GraphState) (t : trace) :
  transform_query self lib st t =
  (Ok match chat_completion self (List.length t) (transform_messages lib st) 100 with
      | Ok response =>
          transform_ok (PyStr.strip response) (iteration st + 1)
            (transformation_history st ++ [question st])
      | Raise _ => transform_failed (question st) (iteration st + 1)
      end,
   t ++ [CallChat (transform_messages lib st) 100]).
Proof.
  unfold transform_query, try_except, bind, external.
  fold (transform_messages lib st).
  destruct (chat_completion self (List.length t) (transform_messages lib st) 100);
    reflexivity.
Qed.

Lemma transform_returns (self : Nodes) (lib : Library) (st : GraphState) :
  returns (transform_query self lib st)
    (fun u => u_iteration u = Some (iteration st + 1)).
Proof.
  intros t. eexists _, _. split; [apply transform_query_spec |].
  destruct (chat_completion _ _ _ _); reflexivity.
Qed.

(** C9 fails as stated: a rewrite whose model call raises increments
    [iteration] and leaves the history as it was. *)
Lemma failed_rewrite_breaks_history_length :
  ~ step_keeps_history_length Demo.all_down Demo.lib NodeTransform
      (Demo.session Demo.long_logs [] 3) [].
Proof.
  intros H.
  specialize (H eq_refl _ _
                (transform_query_spec Demo.all_down Demo.lib
                   (Demo.session Demo.long_logs [] 3) [])).
  vm_compute in H. discriminate H.
Qed.

(** ** Node 4: the answer and the structured alert *)

Lemma ansible_step_spec (self : Nodes) (lib : Library) (namespace pod : option string)
      (q ctx : string) (t : trace) :
  ansible_step self lib namespace pod q ctx t =
  if wants_structured_alert namespace
  then match structured_alert self lib (fmt namespace) pod q ctx t with
       | (Ok remediation, t') => (Ok (Some remediation), t')
       | (Raise _, t') => (Ok None, t')
       end
  else (Ok None, t).
Proof.
  unfold ansible_step. destruct (wants_structured_alert namespace); [| reflexivity].
  unfold try_except, bind, ret.
  destruct (structured_alert self lib (fmt namespace) pod q ctx t) as [[r | e] t'];
    reflexivity.
Qed.

(** A failing model call makes the secondary path raise. *)
Lemma structured_alert_chat_raises (self : Nodes) (lib : Library)
      (namespace : string) (pod : option string) (q ctx : string) (t : trace) (e : string) :
  chat_completion self (List.length t)
    [Msg "system" (ansible_system_prompt lib namespace (or_else pod "pod-name"));
     Msg "user" (ansible_user_prompt lib namespace (or_else pod "All pods") q ctx)]
    1500 = Raise e ->
  exists e' t', structured_alert self lib namespace pod q ctx t = (Raise e', t').
Proof.
  intros H. unfold structured_alert, bind, lift, external.
  destruct (import_schemas lib).
  - rewrite H. eexists _, _. reflexivity.
  - eexists _, _. reflexivity.
Qed.

(** A payload that [json.loads] rejects makes the secondary path raise. *)
Lemma structured_alert_json_raises (self : Nodes) (lib : Library)
      (namespace : string) (pod : option string) (q ctx : string) (t : trace)
      (response json_text e : string) :
  chat_completion self (List.length t)
    [Msg "system" (ansible_system_prompt lib namespace (or_else pod "pod-name"));
     Msg "user" (ansible_user_prompt lib namespace (or_else pod "All pods") q ctx)]
    1500 = Ok response ->
  (forall t1, extract_json response t1 = (Ok json_text, t1)) ->
  json_loads lib json_text = Raise e ->
  exists e' t', structured_alert self lib namespace pod q ctx t = (Raise e', t').
Proof.
  intros Hchat Hextract Hjson. unfold structured_alert.
  unfold bind at 1. unfold lift at 1.
  destruct (import_schemas lib); [| eexists _, _; reflexivity].
  unfold bind at 1. unfold external at 1. rewrite Hchat.
  unfold bind at 1. rewrite Hextract.
  unfold bind at 1. unfold lift at 1. rewrite Hjson.
  eexists _, _. reflexivity.
Qed.

(** [extract_json] is a pure function: it leaves the trace alone. *)
Lemma extract_json_pure (response : string) (t1 t2 : trace) (r : result string) (t' : trace) :
  extract_json response t1 = (r, t') ->
  t' = t1 /\ extract_json response t2 = (r, t2).
Proof.
  unfold extract_json, index, bind, ret, throw.
  destruct (PyStr.contains fence_json response).
  - destruct (nth_error (PyStr.split fence_json response) 1) as [after |].
    + destruct (nth_error (PyStr.split fence after) 0);
        intros H; inversion H; split; reflexivity.
    + intros H; inversion H; split; reflexivity.
  - destruct (PyStr.contains fence response).
    + destruct (nth_error (PyStr.split fence response) 1) as [after |].
      * destruct (nth_error (PyStr.split fence after) 0);
          intros H; inversion H; split; reflexivity.
      * intros H; inversion H; split; reflexivity.
    + intros H; inversion H; split; reflexivity.
Qed.

Lemma generate_spec (self : Nodes) (lib : Library) (st : GraphState) (t : trace)
      (answer : string) :
  reranked_docs st <> [] ->
  chat_completion self (List.length t) (generate_messages lib st) 500 = Ok answer ->
  generate self lib st t =
  match ansible_step self lib (get_default (namespace st) "unknown")
          (get_default (pod_name st) "") (question st) (evidence_context lib st)
          (t ++ [CallChat (generate_messages lib st) 500]) with
  | (Ok a, t') =>
      (Ok (generate_full
             (answer ++ metadata_trailer self (List.length (reranked_docs st))
                          (iteration st))
             (question st) a), t')
  | (Raise e, t') =>
      (Ok (generate_short ("❌ Generation error: " ++ e) (question st)), t')
  end.
Proof.
  intros Hdocs Hchat. unfold generate.
  destruct (reranked_docs st) as [| d docs] eqn:E; [congruence |].
  unfold generate_messages, evidence_context in *. rewrite E in *.
  unfold try_except. unfold bind at 1. unfold external at 1.
  rewrite Hchat. unfold bind.
  destruct (ansible_step _ _ _ _ _ _ _) as [[a | e] t']; reflexivity.
Qed.

(** The structured alert is wanted exactly for a namespace that is
    present, not empty, and not one of the placeholders. *)
Lemma wants_structured_alert_iff (namespace : option string) :
  wants_structured_alert namespace = true <->
  exists s,
    namespace = Some s /\ s <> "" /\
    PyStr.lower s <> "none" /\ PyStr.lower s <> "unknown".
Proof.
  unfold wants_structured_alert. split.
  - destruct namespace as [[| c r] |]; try discriminate.
    intros H. exists (String c r). apply negb_true_iff in H.
    cbn [existsb] in H. rewrite !orb_false_iff in H.
    destruct H as (Hnone & Hunknown & _).
    repeat split; try discriminate.
    + intros E. rewrite E in Hnone. discriminate.
    + intros E. rewrite E in Hunknown. discriminate.
  - intros (s & -> & Hne & Hnone & Hunknown).
    destruct s as [| c r]; [congruence |].
    apply negb_true_iff. cbn [existsb]. rewrite !orb_false_iff.
    repeat split.
    + apply String.eqb_neq, Hnone.
    + apply String.eqb_neq, Hunknown.
Qed.

Lemma prefix_append (a b : string) : prefix a (a ++ b) = true.
Proof.
  induction a as [| c a IH]; simpl.
  - destruct b; reflexivity.
  - destruct (ascii_dec c c) as [_ | Hne]; [exact IH | congruence].
Qed.

(** C10: once the primary model call has answered, [generate] returns
    normally and the [generation] of its update, and of the state after
    the step, is that answer followed by the metadata trailer, whatever
    happens on the secondary path; the question is returned unchanged.
    The structured alert is attempted only when the namespace test
    passes: otherwise the [ansible_output] of the update is [None] and
    the primary call is the only call made. When the secondary path
    fails, because its model call raises, because [json.loads] rejects
    the payload, or for any other exception, [ansible_output] is [None]
    and the answer is still returned. *)
Theorem structured_alert_never_blocks_answer (self : Nodes) (lib : Library)
        (st : GraphState) (t : trace) (answer : string) :
  reranked_docs st <> [] ->
  chat_completion self (List.length t) (generate_messages lib st) 500 = Ok answer ->
  let ns := get_default (namespace st) "unknown" in
  let t1 := t ++ [CallChat (generate_messages lib st) 500] in
  let text :=
    (answer ++ metadata_trailer self (List.length (reranked_docs st))
                 (iteration st))%string in
  exists u a t',
    generate self lib st t = (Ok u, t') /\
    u_generation u = Some text /\
    u_question u = Some (question st) /\
    u_ansible_output u = Some a /\
    u_ansible_formatted u = Some None /\
    generation (merge st u) = text /\
    prefix answer (generation (merge st u)) = true /\
    question (merge st u) = question st /\
    ansible_output (merge st u) = a /\
    (wants_structured_alert ns = false -> a = None /\ t' = t1) /\
    (forall e,
        chat_completion self (S (List.length t)) (alert_messages lib st) 1500
        = Raise e ->
        a = None) /\
    (forall response json_text e,
        chat_completion self (S (List.length t)) (alert_messages lib st) 1500
        = Ok response ->
        fst (extract_json response []) = Ok json_text ->
        json_loads lib json_text = Raise e ->
        a = None) /\
    (forall e t2,
        structured_alert self lib (fmt ns) (get_default (pod_name st) "")
          (question st) (evidence_context lib st) t1 = (Raise e, t2) ->
        a = None).
Proof.
  intros Hdocs Hchat ns t1 text.
  rewrite (generate_spec self lib st t answer Hdocs Hchat).
  fold ns t1 text. rewrite ansible_step_spec.
  assert (Hlen : List.length t1 = S (List.length t)) by apply length_snoc.
  assert (Hfields : forall a,
             u_generation (generate_full text (question st) a) = Some text /\
             u_question (generate_full text (question st) a) = Some (question st) /\
             u_ansible_output (generate_full text (question st) a) = Some a /\
             u_ansible_formatted (generate_full text (question st) a) = Some None /\
             generation (merge st (generate_full text (question st) a)) = text /\
             prefix answer
               (generation (merge st (generate_full text (question st) a))) = true /\
             question (merge st (generate_full text (question st) a)) = question st /\
             ansible_output (merge st (generate_full text (question st) a)) = a).
  { intros a. repeat split. cbn. unfold text. apply prefix_append. }
  destruct (wants_structured_alert ns) eqn:Hwants.
  - destruct (structured_alert self lib (fmt ns) (get_default (pod_name st) "")
                (question st) (evidence_context lib st) t1)
      as [[remediation | e0] t2] eqn:Hrun.
    + exists (generate_full text (question st) (Some remediation)),
             (Some remediation), t2.
      split; [reflexivity |].
      destruct (Hfields (Some remediation))
        as (H1 & H2 & H3 & H4 & H5 & H6 & H7 & H8).
      repeat (split; [assumption |]).
      split; [discriminate |].
      split; [| split].
      * intros e He. rewrite <- Hlen in He.
        destruct (structured_alert_chat_raises self lib (fmt ns)
                    (get_default (pod_name st) "") (question st)
                    (evidence_context lib st) t1 e He) as (e' & t' & Hr).
        congruence.
      * intros response json_text e He Hextract Hjson. rewrite <- Hlen in He.
        destruct (extract_json response []) as [r tx] eqn:Hx.
        simpl in Hextract. subst r.
        destruct (structured_alert_json_raises self lib (fmt ns)
                    (get_default (pod_name st) "") (question st)
                    (evidence_context lib st) t1 response json_text e He)
          as (e' & t' & Hr); [| exact Hjson | congruence].
        intros tr. apply (extract_json_pure response [] tr _ _ Hx).
      * intros e t2' Hr. congruence.
    + exists (generate_full text (question st) None), None, t2.
      split; [reflexivity |].
      destruct (Hfields None) as (H1 & H2 & H3 & H4 & H5 & H6 & H7 & H8).
      repeat (split; [assumption |]).
      split; [discriminate |]. repeat split; reflexivity.
  - exists (generate_full text (question st) None), None, t1.
    split; [reflexivity |].
    destruct (Hfields None) as (H1 & H2 & H3 & H4 & H5 & H6 & H7 & H8).
    repeat (split; [assumption |]).
    split; [intros _; split; reflexivity |]. repeat split; reflexivity.
Qed.

Lemma structured_alert_never_blocks_answer_witness :
  exists u t',
    generate (Demo.answering "the pod is crash looping") Demo.lib
      (Demo.session Demo.long_logs [Demo.doc "pod crashed: error" 1] 3) []
    = (Ok u, t') /\
    u_generation u
    = Some ("the pod is crash looping"
            ++ metadata_trailer (Demo.answering "the pod is crash looping") 1 0)%string /\
    u_ansible_output u = Some None.
Proof.
  destruct (structured_alert_never_blocks_answer
              (Demo.answering "the pod is crash looping") Demo.lib
              (Demo.session Demo.long_logs [Demo.doc "pod crashed: error" 1] 3) []
              "the pod is crash looping")
    as (u & a & t' & Hrun & Hgen & _ & Hout & _ & _ & _ & _ & _ & _ & _ & Hjson & _).
  - discriminate.
  - reflexivity.
  - exists u, t'. split; [exact Hrun |]. split; [exact Hgen |].
    rewrite Hout.
    rewrite (Hjson "the pod is crash looping" "the pod is crash looping"
               "JSONDecodeError" eq_refl eq_refl eq_refl).
    reflexivity.
Defined.

Lemma generate_returns (self : Nodes) (lib : Library) (st : GraphState) :
  returns (generate self lib st)
    (fun u => u_iteration u = None /\ u_transformation_history u = None).
Proof.
  unfold generate. destruct (reranked_docs st).
  - apply returns_ret. split; reflexivity.
  - apply returns_try.
    + intros t a t'. unfold bind at 1.
      destruct (external _ _ t) as [[answer | e] t1]; [| discriminate].
      unfold bind.
      destruct (ansible_step _ _ _ _ _ _ t1) as [[ao | e] t2]; [| discriminate].
      unfold ret. intros H. inversion H. split; reflexivity.
    + intros e. apply returns_ret. split; reflexivity.
Qed.

(** C9, amended: the history is never longer than the iteration
    counter. Every node returns normally and preserves
    [length transformation_history <= iteration]; only [transform_query]
    touches the two fields: it always increments [iteration] by one, and
    it appends the previous question to the history when the rewrite
    call succeeds and leaves the history unchanged when the call
    raises. *)
Theorem history_never_longer_than_iteration (self : Nodes) (lib : Library)
        (n : node) (st : GraphState) (t : trace) :
  List.length (transformation_history st) <= iteration st ->
  exists u t',
    run self lib n st t = (Ok u, t') /\
    List.length (transformation_history (merge st u)) <= iteration (merge st u) /\
    (n <> NodeTransform ->
     iteration (merge st u) = iteration st /\
     transformation_history (merge st u) = transformation_history st) /\
    (n = NodeTransform ->
     iteration (merge st u) = iteration st + 1 /\
     transformation_history (merge st u) =
     match chat_completion self (List.length t) (transform_messages lib st) 100 with
     | Ok _ => transformation_history st ++ [question st]
     | Raise _ => transformation_history st
     end).
Proof.
  intros Hinv.
  assert (Hframe : forall m : M Update,
             returns m (fun u => u_iteration u = None /\
                                 u_transformation_history u = None) ->
             forall t, exists u t',
               m t = (Ok u, t') /\
               iteration (merge st u) = iteration st /\
               transformation_history (merge st u) = transformation_history st).
  { intros m Hm t0. destruct (Hm t0) as (u & t' & E & Hi & Hh).
    exists u, t'. split; [exact E |].
    unfold merge; simpl. rewrite Hi, Hh. split; reflexivity. }
  assert (Hother : forall (m : M Update) (k : node),
             k <> NodeTransform ->
             returns m (fun u => u_iteration u = None /\
                                 u_transformation_history u = None) ->
             exists u t',
               m t = (Ok u, t') /\
               List.length (transformation_history (merge st u))
               <= iteration (merge st u) /\
               (k <> NodeTransform ->
                iteration (merge st u) = iteration st /\
                transformation_history (merge st u) = transformation_history st) /\
               (k = NodeTransform ->
                iteration (merge st u) = iteration st + 1 /\
                transformation_history (merge st u) =
                match chat_completion self (List.length t)
                        (transform_messages lib st) 100 with
                | Ok _ => transformation_history st ++ [question st]
                | Raise _ => transformation_history st
                end)).
  { intros m k Hk Hm. destruct (Hframe m Hm t) as (u & t' & E & Hi & Hh).
    exists u, t'. split; [exact E |].
    split; [rewrite Hi, Hh; exact Hinv |].
    split; [intros _; split; assumption | intros Heq; contradiction]. }
  destruct n; cbn [run].
  - apply Hother; [discriminate | apply retrieve_returns].
  - apply Hother; [discriminate | apply rerank_returns].
  - apply Hother; [discriminate | apply grade_returns].
  - apply Hother; [discriminate | apply generate_returns].
  - eexists _, _. split; [apply transform_query_spec |].
    destruct (chat_completion self (List.length t) (transform_messages lib st) 100);
      simpl.
    + split; [rewrite length_snoc; lia |].
      split; [intros H; congruence | intros _; split; reflexivity].
    + split; [lia |].
      split; [intros H; congruence | intros _; split; reflexivity].
Qed.

Lemma history_never_longer_than_iteration_witness :
  exists u t',
    run Demo.all_down Demo.lib NodeTransform (Demo.session Demo.long_logs [] 3) []
    = (Ok u, t') /\
    iteration (merge (Demo.session Demo.long_logs [] 3) u) = 1 /\
    transformation_history (merge (Demo.session Demo.long_logs [] 3) u) = [].
Proof.
  destruct (history_never_longer_than_iteration Demo.all_down Demo.lib
              NodeTransform (Demo.session Demo.long_logs [] 3) [])
    as (u & t' & Hrun & _ & _ & Htransform).
  - simpl. lia.
  - exists u, t'. split; [exact Hrun |].
    destruct (Htransform eq_refl) as (Hi & Hh).
    split; [exact Hi | exact Hh].
Defined.

(** ** The controller: bounded retries *)

Section ControllerFacts.

Import Controller.

Variable self : Nodes.
Variable lib : Library.
Variable below_relevance_threshold : GraphState -> bool.
Variable flags_insufficient_grounding : GraphState -> bool.

Local Abbreviation step := (step self lib below_relevance_threshold flags_insufficient_grounding).
Local Abbreviation steps := (steps self lib below_relevance_threshold flags_insufficient_grounding).
Local Abbreviation after_grade := (after_grade below_relevance_threshold).
Local Abbreviation after_generate := (after_generate flags_insufficient_grounding).

Lemma run_node_spec (c : config) (node : GraphState -> M Update)
      (next : GraphState -> phase) (P : Update -> Prop) :
  returns (node (session c)) P ->
  forall t, exists u t',
    P u /\
    run_node c node next t =
    (Ok (mkConfig (next (merge (session c) u)) (merge (session c) u)
           (visited c ++ [at_phase c])), t').
Proof.
  intros Hnode t. destruct (Hnode t) as (u & t' & E & Pu).
  exists u, t'. split; [exact Pu |].
  unfold run_node, bind. rewrite E. reflexivity.
Qed.

Lemma steps_at_end (n : nat) (c : config) (t : trace) :
  at_phase c = END -> steps n c t = (Ok c, t).
Proof.
  intros H. induction n as [| n IH]; [reflexivity |].
  cbn [Controller.steps]. unfold bind, Controller.step. rewrite H.
  unfold ret. exact IH.
Qed.

Lemma after_grade_cases (st : GraphState) :
  (after_grade st = TRANSFORM /\ iteration st < max_iterations st) \/
  after_grade st = GENERATE.
Proof.
  unfold Controller.after_grade, budget_left.
  destruct (_ || _); simpl; [| right; reflexivity].
  destruct (iteration st <? max_iterations st) eqn:E; [| right; reflexivity].
  left. split; [reflexivity | apply Nat.ltb_lt, E].
Qed.

Lemma after_generate_cases (st : GraphState) :
  (after_generate st = TRANSFORM /\ iteration st < max_iterations st) \/
  after_generate st = END.
Proof.
  unfold Controller.after_generate, budget_left.
  destruct (flags_insufficient_grounding st); simpl; [| right; reflexivity].
  destruct (iteration st <? max_iterations st) eqn:E; [| right; reflexivity].
  left. split; [reflexivity | apply Nat.ltb_lt, E].
Qed.

Lemma passes_snoc (l : list phase) (p : phase) :
  count_occ phase_eq_dec (l ++ [p]) RETRIEVE =
  count_occ phase_eq_dec l RETRIEVE
  + if phase_eq_dec p RETRIEVE then 1 else 0.
Proof.
  rewrite count_occ_app. simpl.
  destruct (phase_eq_dec p RETRIEVE); reflexivity.
Qed.

(** A node that leaves the counter alone, followed by the choice of
    the next state. *)
Lemma merge_keeps_counter (st : GraphState) (u : Update) :
  u_iteration u = None ->
  iteration (merge st u) = iteration st /\
  max_iterations (merge st u) = max_iterations st.
Proof. intros H. unfold merge; simpl. rewrite H. split; reflexivity. Qed.

(** Every transition out of a state other than END returns, keeps the
    configuration consistent and decreases the measure. *)
Lemma step_progress (N : nat) (c : config) (t : trace) :
  consistent N c ->
  at_phase c <> END ->
  exists c' t',
    step c t = (Ok c', t') /\ consistent N c' /\ measure c' < measure c.
Proof.
  intros (Hmax & Hle & Htr & Hpasses) Hnot.
  unfold Controller.step.
  destruct (at_phase c) eqn:Hphase; [| | | | | congruence].
  - (* RETRIEVE *)
    destruct (run_node_spec c (retrieve self) (fun _ => RERANK) _
                (retrieve_returns self (session c)) t)
      as (u & t' & (Hi & _) & E).
    destruct (merge_keeps_counter (session c) u Hi) as (Hit & Hmx).
    eexists _, t'. rewrite Hphase in E. split; [exact E |].
    set (st' := merge (session c) u) in *. clearbody st'.
    unfold consistent, measure, passes_due, retrieve_passes in *.
    rewrite Hphase in *. cbn [at_phase session visited rank].
    rewrite passes_snoc. simpl.
    repeat split; try lia; try discriminate.
  - (* RERANK *)
    destruct (run_node_spec c (rerank self) (fun _ => GRADE) _
                (rerank_returns self (session c)) t)
      as (u & t' & (Hi & _) & E).
    destruct (merge_keeps_counter (session c) u Hi) as (Hit & Hmx).
    eexists _, t'. rewrite Hphase in E. split; [exact E |].
    set (st' := merge (session c) u) in *. clearbody st'.
    unfold consistent, measure, passes_due, retrieve_passes in *.
    rewrite Hphase in *. cbn [at_phase session visited rank].
    rewrite passes_snoc. simpl.
    repeat split; try lia; try discriminate.
  - (* GRADE *)
    destruct (run_node_spec c (grade_documents self lib) after_grade _
                (grade_returns self lib (session c)) t)
      as (u & t' & (Hi & _) & E).
    destruct (merge_keeps_counter (session c) u Hi) as (Hit & Hmx).
    eexists _, t'. rewrite Hphase in E. split; [exact E |].
    set (st' := merge (session c) u) in *. clearbody st'.
    unfold consistent, measure, passes_due, retrieve_passes in *.
    rewrite Hphase in *. cbn [at_phase session visited].
    rewrite passes_snoc. simpl.
    destruct (after_grade_cases st') as [(Hn & Hb) | Hn];
      rewrite Hn; simpl; repeat split; try lia; try discriminate.
  - (* GENERATE *)
    destruct (run_node_spec c (generate self lib) after_generate _
                (generate_returns self lib (session c)) t)
      as (u & t' & (Hi & _) & E).
    destruct (merge_keeps_counter (session c) u Hi) as (Hit & Hmx).
    eexists _, t'. rewrite Hphase in E. split; [exact E |].
    set (st' := merge (session c) u) in *. clearbody st'.
    unfold consistent, measure, passes_due, retrieve_passes in *.
    rewrite Hphase in *. cbn [at_phase session visited].
    rewrite passes_snoc. simpl.
    destruct (after_generate_cases st') as [(Hn & Hb) | Hn];
      rewrite Hn; simpl; repeat split; try lia; try discriminate.
  - (* TRANSFORM *)
    destruct (run_node_spec c (transform_query self lib) (fun _ => RETRIEVE) _
                (transform_returns self lib (session c)) t)
      as (u & t' & Hi & E).
    assert (Hit : iteration (merge (session c) u) = iteration (session c) + 1)
      by (unfold merge; simpl; rewrite Hi; reflexivity).
    assert (Hmx : max_iterations (merge (session c) u) = max_iterations (session c))
      by reflexivity.
    specialize (Htr eq_refl).
    eexists _, t'. rewrite Hphase in E. split; [exact E |].
    set (st' := merge (session c) u) in *. clearbody st'.
    unfold consistent, measure, passes_due, retrieve_passes in *.
    rewrite Hphase in *. cbn [at_phase session visited rank].
    rewrite passes_snoc. simpl.
    repeat split; try lia; try discriminate.
Qed.

(** From a consistent configuration the machine runs for any number
    of transitions without raising, stays consistent, and is at END
    once the number of transitions reaches the measure. *)
Lemma steps_progress (N : nat) (n : nat) :
  forall (c : config) (t : trace),
    consistent N c ->
    exists c' t',
      steps n c t = (Ok c', t') /\ consistent N c' /\
      (measure c <= n -> at_phase c' = END).
Proof.
  induction n as [| n IH]; intros c t Hc.
  - exists c, t. split; [reflexivity |]. split; [exact Hc |].
    intros Hm. destruct Hc as (Hmax & Hle & Htr & _).
    unfold measure in Hm.
    destruct (at_phase c) eqn:Hphase; simpl in Hm; try lia.
    + specialize (Htr eq_refl). lia.
    + reflexivity.
  - destruct (phase_eq_dec (at_phase c) END) as [Hend | Hnot].
    + exists c, t. split; [apply steps_at_end, Hend |].
      split; [exact Hc | intros _; exact Hend].
    + destruct (step_progress N c t Hc Hnot) as (c1 & t1 & E1 & Hc1 & Hlt).
      destruct (IH c1 t1 Hc1) as (c2 & t2 & E2 & Hc2 & Hend).
      exists c2, t2. split.
      * cbn [Controller.steps]. unfold bind. rewrite E1. exact E2.
      * split; [exact Hc2 |]. intros Hm. apply Hend. lia.
Qed.

Lemma consistent_bounds (N : nat) (c : config) :
  consistent N c ->
  iteration (session c) <= N /\ retrieve_passes c <= N + 1.
Proof.
  intros (Hmax & Hle & Htr & Hpasses). split; [exact Hle |].
  rewrite Hpasses. unfold passes_due. destruct (at_phase c); lia.
Qed.

(** C1: a session entered at RETRIEVE with [iteration = 0] and
    [max_iterations = N]. Whatever the collaborators answer, and so
    whichever fallback paths are taken, the controller never raises;
    after any number of transitions [iteration] is at most [N] and
    RETRIEVE has been passed at most [N + 1] times; and after
    [5 * N + 4] transitions the controller is at END. *)
Theorem bounded_retries (st : GraphState) (t : trace) :
  iteration st = 0 ->
  let N := max_iterations st in
  (forall n, exists c t',
      steps n (start st) t = (Ok c, t') /\
      iteration (session c) <= N /\
      retrieve_passes c <= N + 1) /\
  (exists c t',
      steps (5 * N + 4) (start st) t = (Ok c, t') /\
      at_phase c = END /\
      iteration (session c) <= N /\
      retrieve_passes c <= N + 1).
Proof.
  intros Hzero N.
  assert (Hstart : consistent N (start st)).
  { unfold consistent, start, passes_due, retrieve_passes; simpl.
    repeat split; try lia; try discriminate. }
  split.
  - intros n.
    destruct (steps_progress N n (start st) t Hstart) as (c & t' & E & Hc & _).
    exists c, t'. split; [exact E |]. apply (consistent_bounds N c Hc).
  - destruct (steps_progress N (5 * N + 4) (start st) t Hstart)
      as (c & t' & E & Hc & Hend).
    exists c, t'. split; [exact E |]. split.
    + apply Hend. unfold measure, start; simpl. fold N. lia.
    + apply (consistent_bounds N c Hc).
Qed.

End ControllerFacts.

Lemma bounded_retries_witness :
  exists c t',
    Controller.steps Demo.all_down Demo.lib (fun _ => false) (fun _ => false) 14
      (Controller.start (Demo.session Demo.long_logs [] 2)) [] = (Ok c, t') /\
    Controller.at_phase c = Controller.END /\
    Controller.retrieve_passes c <= 3.
Proof.
  destruct (bounded_retries Demo.all_down Demo.lib (fun _ => false) (fun _ => false)
              (Demo.session Demo.long_logs [] 2) [] eq_refl)
    as (_ & c & t' & Hrun & Hend & _ & Hpasses).
  exists c, t'. split; [exact Hrun |]. split; [exact Hend | exact Hpasses].
Defined.

(** ** Two sessions run to the end *)

(** Every service is down and two retries are allowed: three passes
    through RETRIEVE, two failed rewrites that leave the history empty,
    and the fixed answer at the end. *)
Example session_all_down :
  outcome (Controller.steps Demo.all_down Demo.lib (fun _ => false) (fun _ => false)
             14 (Controller.start (Demo.session Demo.long_logs [] 2)) [])
  = Some (Controller.END, 2, 3, no_data_message, []).
Proof. vm_compute. reflexivity. Qed.

(** The grader rejects every document and two retries are allowed: two
    rewrites recorded in the history, then the fixed answer. *)
Example session_nothing_relevant :
  outcome (Controller.steps (Demo.answering "no") Demo.lib
             (fun _ => false) (fun _ => false)
             14 (Controller.start (Demo.session Demo.long_logs [] 2)) [])
  = Some (Controller.END, 2, 3, no_data_message, ["what errors occurred"; "no"]).
Proof. vm_compute. reflexivity. Qed.

(** ** More about node 1: the enhanced query and the retrieved list *)

Lemma first_pattern_cases (patterns : list string) (text : string) :
  (first_pattern patterns text = [] /\
   forall p, In p patterns -> PyStr.contains p text = false) \/
  (exists before p after,
      patterns = before ++ p :: after /\
      first_pattern patterns text = [p] /\
      PyStr.contains p text = true /\
      forall q, In q before -> PyStr.contains q text = false).
Proof.
  induction patterns as [| p patterns IH]; simpl.
  - left. split; [reflexivity | intros p []].
  - destruct (PyStr.contains p text) eqn:Hp.
    + right. exists [], p, patterns. repeat split; try assumption.
      intros q [].
    + destruct IH as [(Hnone & Hall) | (before & p' & after & Hsplit & Hfirst & Hin & Hbefore)].
      * left. split; [exact Hnone |].
        intros q [<- | Hq]; [exact Hp | apply Hall, Hq].
      * right. exists (p :: before), p', after.
        split; [rewrite Hsplit; reflexivity |].
        split; [exact Hfirst |]. split; [exact Hin |].
        intros q [<- | Hq]; [exact Hp | apply Hbefore, Hq].
Qed.

(** The query never carries more than one error keyword, and the one it
    carries is the first of the priority list that occurs in the
    lowercased log context: every pattern before it is absent. *)
Theorem error_hint_is_first_match (log_context : string) :
  (error_hint log_context = [] /\
   (log_context <> "" ->
    forall p, In p error_patterns ->
              PyStr.contains p (PyStr.lower log_context) = false)) \/
  (exists before p after,
      error_patterns = before ++ p :: after /\
      error_hint log_context = [p] /\
      PyStr.contains p (PyStr.lower log_context) = true /\
      forall q, In q before ->
                PyStr.contains q (PyStr.lower log_context) = false).
Proof.
  unfold error_hint. destruct log_context as [| c r].
  - left. split; [reflexivity | congruence].
  - destruct (first_pattern_cases error_patterns (PyStr.lower (String c r)))
      as [(Hnone & Hall) | Hsome].
    + left. split; [exact Hnone | intros _; exact Hall].
    + right. exact Hsome.
Qed.

Lemma error_hint_is_first_match_aux (log_context : string) :
  error_hint log_context = [] \/ exists p, error_hint log_context = [p].
Proof.
  unfold error_hint. destruct log_context as [| c r]; [left; reflexivity |].
  destruct (first_pattern_cases error_patterns (PyStr.lower (String c r)))
    as [(Hnone & _) | (before & p & after & _ & Hfirst & _)].
  - left. exact Hnone.
  - right. exists p. exact Hfirst.
Qed.

Lemma resource_keywords_subseq (patterns : list (string * string)) (text : string) :
  Subseq (resource_keywords patterns text) (map snd patterns).
Proof.
  induction patterns as [| [p keyword] patterns IH]; simpl.
  - constructor.
  - destruct (PyStr.contains p text); constructor; exact IH.
Qed.

Lemma Subseq_In {A} (xs ys : list A) (a : A) :
  Subseq xs ys -> In a xs -> In a ys.
Proof.
  induction 1 as [| y xs ys H IH | x xs ys H IH]; simpl; intros Hin.
  - exact Hin.
  - right. apply IH, Hin.
  - destruct Hin as [-> | Hin]; [left; reflexivity | right; apply IH, Hin].
Qed.

Lemma Subseq_NoDup {A} (xs ys : list A) :
  Subseq xs ys -> NoDup ys -> NoDup xs.
Proof.
  induction 1 as [| y xs ys H IH | x xs ys H IH]; intros Hnd.
  - constructor.
  - inversion Hnd; subst. apply IH. assumption.
  - inversion Hnd as [| ? ? Hnotin Hnd']; subst. constructor.
    + intros Hin. apply Hnotin. eapply Subseq_In; eassumption.
    + apply IH, Hnd'.
Qed.

Lemma Subseq_length {A} (xs ys : list A) :
  Subseq xs ys -> List.length xs <= List.length ys.
Proof. induction 1; simpl; lia. Qed.

Lemma Subseq_refl {A} (xs : list A) : Subseq xs xs.
Proof. induction xs; constructor; assumption. Qed.

Lemma join_prefix (sep p : string) (rest : list string) :
  prefix p (PyStr.join sep (p :: rest)) = true.
Proof.
  assert (Happ : forall a b, prefix a (a ++ b)%string = true).
  { induction a as [| c a IH]; intros b; simpl.
    - destruct b; reflexivity.
    - destruct (ascii_dec c c) as [_ | Hne]; [apply IH | congruence]. }
  destruct rest as [| q rest]; cbn [PyStr.join].
  - rewrite <- (Happ p ""). f_equal. induction p as [| c p IH]; simpl;
      [reflexivity | rewrite <- IH; reflexivity].
  - apply Happ.
Qed.

(** The enhanced query is the question followed by its hints, joined by
    single spaces: it always begins with the question, carries at most
    eight hints, and no resource keyword twice. With no pod, no namespace
    and no log context it is the question itself. *)
Theorem enhanced_query_shape (question log_context : string) (state : GraphState) :
  let hints := pod_hint state ++ namespace_hint state
               ++ error_hint log_context ++ resource_hints log_context in
  build_enhanced_query question log_context state
  = PyStr.join " " (question :: hints) /\
  prefix question (build_enhanced_query question log_context state) = true /\
  List.length hints <= 8 /\
  List.length (error_hint log_context) <= 1 /\
  NoDup (resource_hints log_context) /\
  (hints = [] -> build_enhanced_query question log_context state = question).
Proof.
  cbn zeta.
  assert (Heq : build_enhanced_query question log_context state
                = PyStr.join " " (question :: pod_hint state ++ namespace_hint state
                                    ++ error_hint log_context
                                    ++ resource_hints log_context)).
  { unfold build_enhanced_query, pod_hint, namespace_hint, error_hint, resource_hints.
    destruct (pod_name state) as [| | [| c1 r1]];
      destruct (namespace state) as [| | [| c2 r2]];
      destruct log_context as [| c3 r3]; reflexivity. }
  assert (Herr : List.length (error_hint log_context) <= 1).
  { destruct (error_hint_is_first_match_aux log_context) as [-> | (p & ->)];
      simpl; lia. }
  assert (Hres : Subseq (resource_hints log_context) (map snd resource_patterns)).
  { unfold resource_hints. destruct log_context.
    - simpl. repeat constructor.
    - apply resource_keywords_subseq. }
  split; [exact Heq |].
  split; [rewrite Heq; apply join_prefix |].
  split.
  - rewrite !length_app.
    apply Subseq_length in Hres. simpl in Hres.
    assert (List.length (pod_hint state) <= 1)
      by (unfold pod_hint; destruct (pod_name state) as [| | [|]]; simpl; lia).
    assert (List.length (namespace_hint state) <= 1)
      by (unfold namespace_hint; destruct (namespace state) as [| | [|]]; simpl; lia).
    lia.
  - split; [exact Herr |]. split.
    + eapply Subseq_NoDup; [exact Hres |].
      simpl. repeat constructor; simpl; intuition discriminate.
    + intros Hnil. rewrite Heq, Hnil. reflexivity.
Qed.
Lemma convert_docs_scores (docs : list LangchainDoc) :
  forall i,
    Forall (fun d => exists j, i <= j /\ score_key d = (1 # Pos.of_succ_nat j)%Q)
           (convert_docs i docs).
Proof.
  induction docs as [| d docs IH]; intros i; simpl; constructor.
  - exists i. split; [lia | reflexivity].
  - eapply Forall_impl; [| apply (IH (S i))].
    intros a (j & Hj & Ha). exists j. split; [lia | exact Ha].
Qed.

Lemma reciprocal_rank_le (i j : nat) :
  i <= j -> (1 # Pos.of_succ_nat j <= 1 # Pos.of_succ_nat i)%Q.
Proof.
  intros H. unfold Qle. cbn [Qnum Qden].
  rewrite <- !positive_nat_Z, !SuccNat2Pos.id_succ. lia.
Qed.

Lemma convert_docs_sorted (docs : list LangchainDoc) :
  forall i, StronglySorted score_ge (convert_docs i docs).
Proof.
  induction docs as [| d docs IH]; intros i; simpl; constructor.
  - apply IH.
  - eapply Forall_impl; [| apply (convert_docs_scores docs (S i))].
    intros a (j & Hj & Ha). unfold score_ge. rewrite Ha.
    unfold score_key; cbn [score].
    apply (reciprocal_rank_le i j). lia.
Qed.

Lemma convert_docs_nth (docs : list LangchainDoc) :
  forall i k d,
    nth_error (convert_docs i docs) k = Some d ->
    score d = Some (1 # Pos.of_succ_nat (i + k))%Q /\
    exists src, nth_error docs k = Some src /\ content d = page_content src.
Proof.
  induction docs as [| src docs IH]; intros i k d H.
  - destruct k; discriminate H.
  - destruct k as [| k]; simpl in H.
    + inversion H; subst. simpl. rewrite Nat.add_0_r.
      split; [reflexivity |]. exists src. split; reflexivity.
    + destruct (IH (S i) k d H) as (Hs & src' & Hsrc & Hc).
      split.
      * rewrite Hs. replace (S i + k) with (i + S k) by lia. reflexivity.
      * exists src'. split; assumption.
Qed.

Lemma convert_docs_length (docs : list LangchainDoc) :
  forall i, List.length (convert_docs i docs) = List.length docs.
Proof.
  induction docs as [| d docs IH]; intros i; simpl; [| rewrite IH]; reflexivity.
Qed.

(** The list [retrieve] builds has one entry per document of the
    retriever, in the retriever's order: the entry at position [k]
    (counted from 0) carries the text of the k-th document and the score
    [1 / (k + 1)], so the scores decrease along the list. *)
Theorem retrieved_docs_rank_scores (found : list LangchainDoc) :
  List.length (convert_docs 0 found) = List.length found /\
  (forall k d,
      nth_error (convert_docs 0 found) k = Some d ->
      score d = Some (1 # Pos.of_succ_nat k)%Q /\
      exists src, nth_error found k = Some src /\ content d = page_content src) /\
  StronglySorted score_ge (convert_docs 0 found).
Proof.
  split; [apply convert_docs_length |].
  split; [| apply convert_docs_sorted].
  intros k d H. apply (convert_docs_nth found 0 k d H).
Qed.

(** ** More about node 2: lists that are already ranked *)

Lemma insert_desc_head (x : Doc) (l : list Doc) :
  Forall (score_ge x) l -> insert_desc x l = x :: l.
Proof.
  intros H. destruct l as [| y l]; [reflexivity |].
  simpl. inversion H as [| ? ? Hy _]; subst.
  unfold score_ge in Hy. apply Qle_bool_iff in Hy. rewrite Hy. reflexivity.
Qed.

Lemma sorted_by_score_desc_fixed (docs : list Doc) :
  StronglySorted score_ge docs -> sorted_by_score_desc docs = docs.
Proof.
  induction 1 as [| d docs Hsorted IH Hall]; [reflexivity |].
  cbn [sorted_by_score_desc fold_right]. fold (sorted_by_score_desc docs).
  rewrite IH. apply insert_desc_head, Hall.
Qed.

(** The fallback ranking changes nothing in a list that is already in
    decreasing order of score; ranking twice is ranking once. *)
Theorem fallback_ranking_idempotent (docs : list Doc) :
  (StronglySorted score_ge docs -> sorted_by_score_desc docs = docs) /\
  sorted_by_score_desc (sorted_by_score_desc docs) = sorted_by_score_desc docs.
Proof.
  split; [apply sorted_by_score_desc_fixed |].
  apply sorted_by_score_desc_fixed, sorted_by_score_desc_sorted.
Qed.

Lemma fallback_ranking_idempotent_witness :
  sorted_by_score_desc [Demo.doc "b" 1; Demo.doc "c" (1 # 2); Demo.doc "a" (1 # 3)]
  = [Demo.doc "b" 1; Demo.doc "c" (1 # 2); Demo.doc "a" (1 # 3)].
Proof.
  apply (proj1 (fallback_ranking_idempotent
                  [Demo.doc "b" 1; Demo.doc "c" (1 # 2); Demo.doc "a" (1 # 3)])).
  repeat constructor; unfold score_ge; simpl; unfold Qle; simpl; lia.
Defined.

(** The fallback ranking is stable: documents with equal scores stay in
    the order in which they were retrieved. For every score, the
    documents carrying it appear in the ranked list exactly as they
    appear in the original one. *)
Theorem fallback_ranking_stable (q : Q) (docs : list Doc) :
  filter (fun d => Qeq_bool (score_key d) q) (sorted_by_score_desc docs) =
  filter (fun d => Qeq_bool (score_key d) q) docs.
Proof.
  induction docs as [| d docs IH]; [reflexivity |].
  cbn [sorted_by_score_desc fold_right].
  fold (sorted_by_score_desc docs).
  rewrite insert_desc_stable. cbn [filter]. rewrite IH. reflexivity.
Qed.

Lemma retrieve_docs_sorted (self : Nodes) (st : GraphState) (t : trace)
      (u : Update) (t' : trace) :
  retrieve self st t = (Ok u, t') ->
  u_question u = Some (question st) /\
  exists docs, u_retrieved_docs u = Some docs /\ StronglySorted score_ge docs.
Proof.
  rewrite retrieve_spec. cbn zeta.
  destruct (_ || _).
  - intros H. inversion H. split; [reflexivity |]. exists []. split; [reflexivity | constructor].
  - destruct (new_retriever _ _ _ _).
    + destruct (retriever_retrieve _ _ _ _ _) as [found |];
        intros H; inversion H; (split; [reflexivity |]).
      * eexists. split; [reflexivity | apply convert_docs_sorted].
      * exists []. split; [reflexivity | constructor].
    + intros H. inversion H. split; [reflexivity |].
      exists []. split; [reflexivity | constructor].
Qed.

Lemma convert_docs_firstn_content (k i : nat) (found : list LangchainDoc) :
  map content (firstn k (convert_docs i found)) = map page_content (firstn k found).
Proof.
  revert i found. induction k as [| k IH]; intros i found; [reflexivity |].
  destruct found as [| d found]; [reflexivity |].
  cbn [convert_docs firstn map content]. f_equal. apply IH.
Qed.

(** Retrieval followed by a failing reranker: the [reranked_docs] the
    fallback returns, and the state after the two steps holds, are the
    first five retrieved documents in the order in which the retriever
    returned them; when the retriever found documents, these are the
    entries made from its first five. *)
Theorem failed_rerank_keeps_retrieval_order (self : Nodes) (st : GraphState)
        (t t1 : trace) (u : Update) (e : string) :
  retrieve self st t = (Ok u, t1) ->
  rerank_documents self (List.length t1) (question st)
    (retrieved_docs (merge st u)) 10 = Raise e ->
  exists docs u2 t2,
    u_retrieved_docs u = Some docs /\
    rerank self (merge st u) t1 = (Ok u2, t2) /\
    u_reranked_docs u2 = Some (firstn 5 docs) /\
    u_question u2 = Some (question st) /\
    retrieved_docs (merge (merge st u) u2) = docs /\
    reranked_docs (merge (merge st u) u2) = firstn 5 docs /\
    (forall found,
        50 <= String.length (combined_logs st) ->
        new_retriever self (List.length t) (combined_logs st) (llama_stack_url self)
        = Ok tt ->
        retriever_retrieve self (S (List.length t)) (combined_logs st)
          (build_enhanced_query (question st) (log_context st) st) 10 = Ok found ->
        docs = convert_docs 0 found /\
        map content (firstn 5 docs) = map page_content (firstn 5 found)).
Proof.
  intros Hretrieve Hraise.
  destruct (retrieve_docs_sorted self st t u t1 Hretrieve)
    as (Hq & docs & Hdocs & Hsorted).
  assert (Hd : retrieved_docs (merge st u) = docs)
    by (unfold merge; simpl; rewrite Hdocs; reflexivity).
  assert (Hquestion : question (merge st u) = question st)
    by (unfold merge; simpl; rewrite Hq; reflexivity).
  assert (Hrun : exists t2,
             rerank self (merge st u) t1 =
             (Ok (rerank_result (firstn 5 docs) (question st)), t2)).
  { unfold rerank. rewrite Hquestion, Hd in *.
    destruct docs as [| d docs]; [exists t1; reflexivity |].
    unfold try_except, bind, external. rewrite Hraise.
    rewrite (sorted_by_score_desc_fixed _ Hsorted).
    eexists. reflexivity. }
  destruct Hrun as (t2 & Hrun).
  exists docs, (rerank_result (firstn 5 docs) (question st)), t2.
  split; [exact Hdocs |]. split; [exact Hrun |].
  split; [reflexivity |]. split; [reflexivity |].
  split; [cbn; exact Hd |]. split; [reflexivity |].
  intros found Hlong Hbuild Hquery.
  rewrite retrieve_spec in Hretrieve. cbn zeta in Hretrieve.
  assert (Hnot_short :
            (match combined_logs st with EmptyString => true | _ => false end
             || (String.length (combined_logs st) <? 50)) = false).
  { apply orb_false_iff. split.
    - destruct (combined_logs st); [simpl in Hlong; lia | reflexivity].
    - apply Nat.ltb_ge. exact Hlong. }
  rewrite Hnot_short, Hbuild, Hquery in Hretrieve.
  inversion Hretrieve; subst u t1. cbn in Hdocs. inversion Hdocs; subst docs.
  split; [reflexivity |]. apply convert_docs_firstn_content.
Qed.

Lemma failed_rerank_keeps_retrieval_order_witness :
  exists u t1 u2 t2,
    retrieve Fixtures.reranker_down (Demo.session Demo.long_logs [] 3) []
    = (Ok u, t1) /\
    rerank Fixtures.reranker_down (merge (Demo.session Demo.long_logs [] 3) u) t1
    = (Ok u2, t2) /\
    match u_reranked_docs u2 with
    | Some docs => map content docs
    | None => []
    end = ["first"; "second"].
Proof.
  destruct (retrieve Fixtures.reranker_down (Demo.session Demo.long_logs [] 3) [])
    as [[u | e] t1] eqn:Hretrieve; [| vm_compute in Hretrieve; discriminate Hretrieve].
  assert (Hraise : rerank_documents Fixtures.reranker_down (List.length t1)
                     (question (Demo.session Demo.long_logs [] 3))
                     (retrieved_docs (merge (Demo.session Demo.long_logs [] 3) u)) 10
                   = Raise "reranker down") by reflexivity.
  destruct (failed_rerank_keeps_retrieval_order Fixtures.reranker_down
              (Demo.session Demo.long_logs [] 3) [] t1 u "reranker down"
              Hretrieve Hraise)
    as (docs & u2 & t2 & Hdocs & Hrun & Hreranked & _ & _ & _ & Hfound).
  exists u, t1, u2, t2. split; [reflexivity |]. split; [exact Hrun |].
  rewrite Hreranked.
  destruct (Hfound [mkLangchainDoc "first" None; mkLangchainDoc "second" None])
    as (_ & Hcontent); [simpl; lia | reflexivity | reflexivity |].
  rewrite Hcontent. reflexivity.
Defined.

(** ** More about node 3: what the grader hands on *)

Lemma Subseq_nil_l {A} (ys : list A) : Subseq [] ys.
Proof. induction ys; constructor; assumption. Qed.

Lemma kept_subseq (docs : list Doc) :
  forall vs, Subseq (kept docs vs) docs.
Proof.
  induction docs as [| d docs IH]; intros vs.
  - unfold kept. simpl. constructor.
  - destruct vs as [| v vs].
    + unfold kept. simpl. apply Subseq_nil_l.
    + rewrite kept_cons. destruct (fst v); simpl; constructor; apply IH.
Qed.

(** The grader never invents or reorders evidence and asks the model
    exactly once per document: the filtered list is the reranked list
    with some documents left out, and the trace grows by one grading
    request (100 tokens at most) per reranked document, in order. *)
Theorem grading_filters_in_order (self : Nodes) (lib : Library)
        (st : GraphState) (t : trace) :
  exists filtered scores t',
    grade_documents self lib st t =
    (Ok (grade_result filtered scores (question st)), t') /\
    Subseq filtered (reranked_docs st) /\
    t' = t ++ grading_calls lib (question st) (reranked_docs st) /\
    List.length t' = List.length t + List.length (reranked_docs st).
Proof.
  eexists _, _, _. split; [apply grade_documents_spec |].
  split; [apply kept_subseq |]. split; [reflexivity |].
  rewrite length_app. unfold grading_calls. rewrite length_map. reflexivity.
Qed.

Lemma verdicts_all_raise (self : Nodes) (lib : Library) (q : string) (docs : list Doc) :
  (forall n d, In d docs ->
               exists e, chat_completion self n (grading_messages lib q d) 100 = Raise e) ->
  forall n,
    verdicts self lib q n docs = repeat (true, (1 # 2)%Q) (List.length docs).
Proof.
  induction docs as [| d docs IH]; intros Hall n; [reflexivity |].
  cbn [verdicts List.length repeat].
  destruct (Hall n d (or_introl eq_refl)) as (e & ->).
  cbn [relevance_decision]. f_equal.
  apply IH. intros m d' Hd'. apply Hall. right. exact Hd'.
Qed.

Lemma kept_all (docs : list Doc) (q : Q) :
  kept docs (repeat (true, q) (List.length docs)) = docs.
Proof.
  induction docs as [| d docs IH]; [reflexivity |].
  cbn [List.length repeat]. rewrite kept_cons. cbn [fst]. rewrite IH. reflexivity.
Qed.

(** When every grading call raises, nothing is dropped: the
    [reranked_docs] of the update, and of the state after the step, are
    the whole reranked list, and [relevance_scores] holds the score 0.5
    once for each document. *)
Theorem failed_grading_keeps_everything (self : Nodes) (lib : Library)
        (st : GraphState) (t : trace) :
  (forall n d, In d (reranked_docs st) ->
               exists e,
                 chat_completion self n (grading_messages lib (question st) d) 100
                 = Raise e) ->
  exists u t',
    grade_documents self lib st t = (Ok u, t') /\
    u_reranked_docs u = Some (reranked_docs st) /\
    u_relevance_scores u
    = Some (repeat (1 # 2)%Q (List.length (reranked_docs st))) /\
    u_question u = Some (question st) /\
    reranked_docs (merge st u) = reranked_docs st /\
    relevance_scores (merge st u)
    = repeat (1 # 2)%Q (List.length (reranked_docs st)).
Proof.
  intros Hall.
  exists (grade_result (reranked_docs st)
            (repeat (1 # 2)%Q (List.length (reranked_docs st))) (question st)).
  eexists. split.
  - rewrite grade_documents_spec. cbn zeta.
    rewrite (verdicts_all_raise self lib (question st) (reranked_docs st) Hall).
    rewrite kept_all. rewrite map_repeat. reflexivity.
  - repeat split.
Qed.

Lemma failed_grading_keeps_everything_witness :
  exists u t',
    grade_documents Demo.all_down Demo.lib
      (Demo.session Demo.long_logs [Demo.doc "a" 1; Demo.doc "b" (1 # 2)] 3) []
    = (Ok u, t') /\
    u_reranked_docs u = Some [Demo.doc "a" 1; Demo.doc "b" (1 # 2)] /\
    u_relevance_scores u = Some [(1 # 2)%Q; (1 # 2)%Q].
Proof.
  destruct (failed_grading_keeps_everything Demo.all_down Demo.lib
              (Demo.session Demo.long_logs [Demo.doc "a" 1; Demo.doc "b" (1 # 2)] 3) [])
    as (u & t' & Hrun & Hdocs & Hscores & _).
  - intros n d _. exists "connection refused". reflexivity.
  - exists u, t'. split; [exact Hrun |]. split; [exact Hdocs | exact Hscores].
Defined.

(** ** More about node 4: the answer is always a text *)

Lemma generate_primary_failure_aux (self : Nodes) (lib : Library)
        (st : GraphState) (t : trace) (e : string) :
  reranked_docs st <> [] ->
  chat_completion self (List.length t) (generate_messages lib st) 500 = Raise e ->
  generate self lib st t =
  (Ok (generate_short ("❌ Generation error: " ++ e) (question st)),
   t ++ [CallChat (generate_messages lib st) 500]).
Proof.
  intros Hdocs Hraise. unfold generate.
  destruct (reranked_docs st) as [| d docs] eqn:E; [congruence |].
  unfold generate_messages, evidence_context in *. rewrite E in *.
  unfold try_except. unfold bind at 1. unfold external at 1.
  rewrite Hraise. reflexivity.
Qed.

(** When the primary model call raises, [generate] makes no further
    call and returns the error as the answer, without the two
    structured-alert keys. *)
Theorem generate_primary_failure (self : Nodes) (lib : Library)
        (st : GraphState) (t : trace) (e : string) :
  reranked_docs st <> [] ->
  chat_completion self (List.length t) (generate_messages lib st) 500 = Raise e ->
  generate self lib st t =
  (Ok (generate_short ("❌ Generation error: " ++ e) (question st)),
   t ++ [CallChat (generate_messages lib st) 500]).
Proof.
  intros Hdocs Hraise.
  rewrite (generate_primary_failure_aux self lib st t e Hdocs Hraise).
  reflexivity.
Qed.

Lemma generate_primary_failure_witness :
  generate Demo.all_down Demo.lib
    (Demo.session Demo.long_logs [Demo.doc "pod crashed: error" 1] 3) []
  = (Ok (generate_short "❌ Generation error: connection refused"
           "what errors occurred"),
     [CallChat (generate_messages Demo.lib
                  (Demo.session Demo.long_logs [Demo.doc "pod crashed: error" 1] 3))
        500]).
Proof.
  apply (generate_primary_failure Demo.all_down Demo.lib
           (Demo.session Demo.long_logs [Demo.doc "pod crashed: error" 1] 3) []
           "connection refused").
  - discriminate.
  - reflexivity.
Defined.

Lemma append_nonempty_r (a b : string) : b <> "" -> (a ++ b)%string <> "".
Proof.
  intros Hb. destruct a; simpl; [exact Hb | discriminate].
Qed.

(** Whatever the collaborators do, [generate] returns normally with a
    non-empty answer text and the question it was given: the fixed
    message, the model's answer with its trailer, or the error text. *)
Theorem generate_always_answers (self : Nodes) (lib : Library)
        (st : GraphState) (t : trace) :
  exists u t' g,
    generate self lib st t = (Ok u, t') /\
    u_generation u = Some g /\ g <> "" /\
    u_question u = Some (question st).
Proof.
  destruct (reranked_docs st) as [| d docs] eqn:Hdocs.
  - exists (generate_short no_data_message (question st)), t, no_data_message.
    split; [unfold generate; rewrite Hdocs; reflexivity |].
    repeat split. discriminate.
  - assert (Hne : reranked_docs st <> []) by congruence.
    destruct (chat_completion self (List.length t) (generate_messages lib st) 500)
      as [answer | e] eqn:Hchat.
    + rewrite (generate_spec self lib st t answer Hne Hchat).
      destruct (ansible_step _ _ _ _ _ _ _) as [[a | e] t'].
      * eexists _, _, _. split; [reflexivity |]. repeat split.
        apply append_nonempty_r. unfold metadata_trailer, PyStr.nl. discriminate.
      * eexists _, _, _. split; [reflexivity |]. repeat split. discriminate.
    + rewrite (generate_primary_failure_aux self lib st t e Hne Hchat).
      eexists _, _, _. split; [reflexivity |]. repeat split. discriminate.
Qed.
(** ** More about the structured alert *)

Lemma split_aux_nonempty (sep : string) (s : string) :
  forall skip cur, exists piece rest, PyStr.split_aux sep skip cur s = piece :: rest.
Proof.
  induction s as [| c s IH]; intros skip cur; cbn [PyStr.split_aux].
  - eexists _, _. reflexivity.
  - destruct skip as [| k]; [| apply IH].
    destruct (prefix sep (String c s)); [eexists _, _; reflexivity | apply IH].
Qed.

(** A separator that occurs in the text splits it into at least two
    pieces. *)
Lemma split_aux_two (sep : string) (s : string) :
  sep <> "" ->
  forall cur,
    PyStr.contains sep s = true ->
    exists a b rest, PyStr.split_aux sep 0 cur s = a :: b :: rest.
Proof.
  intros Hsep. induction s as [| c s IH]; intros cur Hin.
  - simpl in Hin. destruct sep; [congruence | discriminate].
  - cbn [PyStr.split_aux]. cbn [PyStr.contains] in Hin.
    destruct (prefix sep (String c s)) eqn:Hp.
    + destruct (split_aux_nonempty sep s (String.length sep - 1) []) as (b & rest & ->).
      eexists _, _, _. reflexivity.
    + simpl in Hin. apply IH, Hin.
Qed.

Lemma prefix_app_l (a b : string) :
  forall s, prefix (a ++ b) s = true -> prefix a s = true.
Proof.
  induction a as [| x a IH]; intros s H.
  - destruct s; reflexivity.
  - destruct s as [| y s]; [discriminate H |].
    cbn [append prefix] in *.
    destruct (ascii_dec x y); [apply IH, H | discriminate H].
Qed.

(** Looking for the JSON text never fails: the indexing after a split is
    always in range. A response without a code fence is returned as it
    is. *)
Theorem extract_json_total (response : string) :
  exists text,
    (forall t, extract_json response t = (Ok text, t)) /\
    (PyStr.contains fence response = false -> text = response).
Proof.
  unfold extract_json.
  assert (Hfirst : forall sep s, exists inside,
               forall t, index (PyStr.split sep s) 0 t = (Ok inside, t)).
  { intros sep s. unfold PyStr.split.
    destruct (split_aux_nonempty sep s 0 []) as (piece & rest & ->).
    exists piece. reflexivity. }
  assert (Hsecond : forall sep s, sep <> "" -> PyStr.contains sep s = true ->
               exists after, forall t, index (PyStr.split sep s) 1 t = (Ok after, t)).
  { intros sep s Hsep Hin. unfold PyStr.split.
    destruct (split_aux_two sep s Hsep [] Hin) as (a & b & rest & ->).
    exists b. reflexivity. }
  destruct (PyStr.contains fence_json response) eqn:Hjson.
  - destruct (Hsecond fence_json response) as (after & Hafter);
      [discriminate | exact Hjson |].
    destruct (Hfirst fence after) as (inside & Hinside).
    exists (PyStr.strip inside). split.
    + intros t. unfold bind. rewrite Hafter, Hinside. reflexivity.
    + intros Hno. exfalso.
      assert (Himp : forall s, PyStr.contains fence_json s = true ->
                               PyStr.contains fence s = true).
      { induction s as [| c s IH]; [discriminate |].
        cbn [PyStr.contains]. intros H.
        apply orb_true_iff in H. apply orb_true_iff.
        destruct H as [H | H]; [left | right; apply IH, H].
        apply (prefix_app_l fence "json"). exact H. }
      rewrite (Himp response Hjson) in Hno. discriminate Hno.
  - destruct (PyStr.contains fence response) eqn:Hfence.
    + destruct (Hsecond fence response) as (after & Hafter);
        [discriminate | exact Hfence |].
      destruct (Hfirst fence after) as (inside & Hinside).
      exists (PyStr.strip inside). split.
      * intros t. unfold bind. rewrite Hafter, Hinside. reflexivity.
      * discriminate.
    + exists response. split; [reflexivity | reflexivity].
Qed.
Lemma py_get_cases (parsed : json) (key default : string) (t : trace) :
  (exists members,
      parsed = JObj members /\
      py_get parsed key default t =
      (Ok match lookup key members with Some v => v | None => JStr default end, t)) \/
  (exists e, py_get parsed key default t = (Raise e, t)).
Proof.
  destruct parsed; try (right; eexists; reflexivity).
  left. eexists. split; reflexivity.
Qed.

Lemma validated_str_cases (v : json) (t : trace) :
  (exists s, v = JStr s /\ validated_str v t = (Ok s, t)) \/
  (exists e, validated_str v t = (Raise e, t)).
Proof.
  destruct v; try (right; eexists; reflexivity).
  left. eexists. split; reflexivity.
Qed.

(** What a successful run of the secondary path has gone through, and
    the record it has built. *)
Lemma structured_alert_ok (self : Nodes) (lib : Library) (namespace : string)
      (pod : option string) (q ctx : string) (t t' : trace)
      (r : AnsibleRemediationOutput) :
  structured_alert self lib namespace pod q ctx t = (Ok r, t') ->
  exists response json_text members alert_name severity rca_text stamp uuid,
    fst (extract_json response []) = Ok json_text /\
    json_loads lib json_text = Ok (JObj members) /\
    JStr alert_name =
      match lookup "alert_name" members with
      | Some v => v | None => JStr "KubernetesPodIssue" end /\
    JStr severity =
      match lookup "severity" members with
      | Some v => v | None => JStr "warning" end /\
    JStr rca_text =
      match lookup "rca" members with
      | Some v => v | None => JStr "Root cause analysis not available" end /\
    r = {| meta :=
             {| endpoint := "alerts";
                received_at := stamp;
                source := [("name", "ai-troubleshooter-v10");
                           ("type", "log_analysis");
                           ("uuid", uuid)] |};
           payload :=
             {| alerts :=
                  [ {| labels := [("alertname", alert_name);
                                  ("instance",
                                   if truthy pod
                                   then (namespace ++ "/" ++ fmt pod)%string
                                   else namespace);
                                  ("namespace", namespace);
                                  ("pod_name", or_else pod "");
                                  ("severity", severity)];
                       annotations :=
                         [("summary", (alert_name ++ " in " ++ namespace)%string);
                          ("description", q)];
                       startsAt := stamp;
                       endsAt := "0001-01-01T00:00:00Z";
                       generatorURL :=
                         ("http://ai-troubleshooter-v10/logs?namespace="
                          ++ namespace)%string |} ];
                commonLabels := [("alertname", alert_name);
                                 ("namespace", namespace);
                                 ("severity", severity)];
                commonAnnotations :=
                  [("summary", (alert_name ++ " in " ++ namespace)%string)];
                externalURL := "http://ai-troubleshooter-v10";
                groupKey := ("alertname:" ++ alert_name)%string;
                receiver := "Ansible";
                status := "firing";
                version := "4" |};
           rca := rca_text;
           playbook := None |}.
Proof.
  unfold structured_alert.
  unfold bind at 1. unfold lift at 1.
  destruct (import_schemas lib) as [[] | e]; [| discriminate].
  unfold bind at 1. unfold external at 1.
  destruct (chat_completion self (List.length t) _ 1500) as [response | e];
    [| discriminate].
  unfold bind at 1.
  destruct (extract_json response _) as [[json_text | e] t1] eqn:Hx; [| discriminate].
  destruct (extract_json_pure response _ [] _ _ Hx) as (-> & Hx0).
  unfold bind at 1. unfold lift at 1.
  destruct (json_loads lib json_text) as [parsed | e] eqn:Hjson; [| discriminate].
  unfold bind at 1.
  destruct (py_get_cases parsed "alert_name" "KubernetesPodIssue"
              (t ++ [CallChat
                       [Msg "system"
                          (ansible_system_prompt lib namespace (or_else pod "pod-name"));
                        Msg "user"
                          (ansible_user_prompt lib namespace (or_else pod "All pods")
                             q ctx)] 1500]))
    as [(members & -> & ->) | (e & ->)]; [| discriminate].
  unfold bind at 1. cbn [py_get]. unfold ret at 1.
  unfold bind at 1. unfold ret at 1.
  unfold bind at 1. unfold external at 1.
  unfold bind at 1. unfold external at 1.
  unfold bind at 1.
  match goal with
  | |- context [validated_str ?v ?tr] =>
      destruct (validated_str_cases v tr) as [(alert_name & Ha & ->) | (e & ->)];
        [| discriminate]
  end.
  unfold bind at 1.
  match goal with
  | |- context [validated_str ?v ?tr] =>
      destruct (validated_str_cases v tr) as [(severity & Hs & ->) | (e & ->)];
        [| discriminate]
  end.
  unfold bind at 1.
  match goal with
  | |- context [validated_str ?v ?tr] =>
      destruct (validated_str_cases v tr) as [(rca_text & Hr & ->) | (e & ->)];
        [| discriminate]
  end.
  unfold ret. intros H. inversion H; subst r t'. clear H.
  exists response, json_text, members, alert_name, severity, rca_text.
  eexists _, _.
  split; [rewrite Hx0; reflexivity |].
  split; [exact Hjson |].
  split; [symmetry; exact Ha |].
  split; [symmetry; exact Hs |].
  split; [symmetry; exact Hr |].
  reflexivity.
Qed.

(** Every structured alert that [generate] can attach carries exactly
    one alert for the session's namespace, the same alert name in its
    labels, its common labels and its group key, one timestamp for
    reception and start, and no playbook. *)
Theorem structured_alert_is_coherent (self : Nodes) (lib : Library)
        (namespace : string) (pod : option string) (q ctx : string)
        (t t' : trace) (r : AnsibleRemediationOutput) :
  structured_alert self lib namespace pod q ctx t = (Ok r, t') ->
  exists alert name,
    alerts (payload r) = [alert] /\
    dict_get (labels alert) "alertname" "" = name /\
    dict_get (commonLabels (payload r)) "alertname" "" = name /\
    groupKey (payload r) = ("alertname:" ++ name)%string /\
    dict_get (labels alert) "namespace" "" = namespace /\
    dict_get (commonLabels (payload r)) "namespace" "" = namespace /\
    dict_get (labels alert) "pod_name" "?" = or_else pod "" /\
    startsAt alert = received_at (meta r) /\
    playbook r = None.
Proof.
  intros H.
  destruct (structured_alert_ok self lib namespace pod q ctx t t' r H)
    as (response & json_text & members & alert_name & severity & rca_text
        & stamp & uuid & _ & _ & _ & _ & _ & ->).
  eexists _, alert_name. cbn. repeat split.
Qed.

(** The display format of an alert built by [generate] never shows the
    pod: the common labels hold no pod name, so the pod field is empty
    also for a session about one pod; the playbook field is empty too,
    while alert name, severity and namespace are those of the alert. *)
Theorem generated_alert_display (self : Nodes) (lib : Library)
        (namespace : string) (pod : option string) (q ctx : string)
        (t t' : trace) (r : AnsibleRemediationOutput) :
  structured_alert self lib namespace pod q ctx t = (Ok r, t') ->
  display_pod_name (to_display_format r) = "" /\
  display_playbook (to_display_format r) = "" /\
  display_namespace (to_display_format r) = namespace /\
  display_rca (to_display_format r) = rca r /\
  (exists alert,
      alerts (payload r) = [alert] /\
      display_alert_name (to_display_format r)
      = dict_get (labels alert) "alertname" "LogAlert" /\
      display_severity (to_display_format r)
      = dict_get (labels alert) "severity" "warning").
Proof.
  intros H.
  destruct (structured_alert_ok self lib namespace pod q ctx t t' r H)
    as (response & json_text & members & alert_name & severity & rca_text
        & stamp & uuid & _ & _ & _ & _ & _ & ->).
  cbn. repeat split. eexists. repeat split.
Qed.

(** A payload that is a JSON object without the three fields still gives
    an alert: the defaults of the source are used. *)
Theorem structured_alert_defaults (self : Nodes) (lib : Library)
        (namespace : string) (pod : option string) (q ctx : string)
        (t : trace) (response json_text : string) (members : list (string * json)) :
  import_schemas lib = Ok tt ->
  chat_completion self (List.length t)
    [Msg "system" (ansible_system_prompt lib namespace (or_else pod "pod-name"));
     Msg "user" (ansible_user_prompt lib namespace (or_else pod "All pods") q ctx)]
    1500 = Ok response ->
  fst (extract_json response []) = Ok json_text ->
  json_loads lib json_text = Ok (JObj members) ->
  lookup "alert_name" members = None ->
  lookup "severity" members = None ->
  lookup "rca" members = None ->
  exists r t',
    structured_alert self lib namespace pod q ctx t = (Ok r, t') /\
    commonLabels (payload r) = [("alertname", "KubernetesPodIssue");
                                ("namespace", namespace);
                                ("severity", "warning")] /\
    rca r = "Root cause analysis not available".
Proof.
  intros Himport Hchat Hextract Hjson Ha Hs Hr.
  unfold structured_alert.
  unfold bind at 1. unfold lift at 1. rewrite Himport.
  unfold bind at 1. unfold external at 1. rewrite Hchat.
  unfold bind at 1.
  destruct (extract_json response []) as [x tx] eqn:Hx0. simpl in Hextract. subst x.
  match goal with
  | |- context [extract_json response ?tr] =>
      rewrite (proj2 (extract_json_pure response [] tr _ _ Hx0))
  end.
  unfold bind at 1. unfold lift at 1. rewrite Hjson.
  cbn [py_get]. rewrite Ha, Hs, Hr.
  unfold bind, ret, external. cbn [validated_str]. unfold ret.
  eexists _, _. split; [reflexivity |]. split; reflexivity.
Qed.

Lemma structured_alert_defaults_witness :
  exists r t',
    structured_alert (Demo.answering "{}") Fixtures.empty_object_lib
      "prod" (Some "web-1") "what errors occurred" "evidence" [] = (Ok r, t') /\
    rca r = "Root cause analysis not available".
Proof.
  destruct (structured_alert_defaults (Demo.answering "{}") Fixtures.empty_object_lib
              "prod" (Some "web-1") "what errors occurred" "evidence" []
              "{}" "{}" [] eq_refl eq_refl eq_refl eq_refl eq_refl eq_refl eq_refl)
    as (r & t' & Hrun & _ & Hrca).
  exists r, t'. split; [exact Hrun | exact Hrca].
Defined.

Lemma structured_alert_is_coherent_witness :
  exists r t' alert,
    structured_alert (Demo.answering "{}") Fixtures.empty_object_lib
      "prod" (Some "web-1") "what errors occurred" "evidence" [] = (Ok r, t') /\
    alerts (payload r) = [alert] /\
    playbook r = None.
Proof.
  destruct (structured_alert (Demo.answering "{}") Fixtures.empty_object_lib
              "prod" (Some "web-1") "what errors occurred" "evidence" [])
    as [[r | e] t'] eqn:Hrun.
  - destruct (structured_alert_is_coherent _ _ _ _ _ _ _ _ _ Hrun)
      as (alert & name & Halerts & _ & _ & _ & _ & _ & _ & _ & Hplaybook).
    exists r, t', alert. split; [reflexivity |].
    split; [exact Halerts | exact Hplaybook].
  - vm_compute in Hrun. discriminate Hrun.
Defined.

Lemma generated_alert_display_witness :
  exists r t',
    structured_alert (Demo.answering "{}") Fixtures.empty_object_lib
      "prod" (Some "web-1") "what errors occurred" "evidence" [] = (Ok r, t') /\
    display_pod_name (to_display_format r) = "".
Proof.
  destruct (structured_alert (Demo.answering "{}") Fixtures.empty_object_lib
              "prod" (Some "web-1") "what errors occurred" "evidence" [])
    as [[r | e] t'] eqn:Hrun.
  - exists r, t'. split; [reflexivity |].
    apply (generated_alert_display _ _ _ _ _ _ _ _ _ Hrun).
  - vm_compute in Hrun. discriminate Hrun.
Defined.
(** ** More about node 5: the rewritten question *)

Lemma lstrip_first (s : string) :
  PyStr.lstrip s = "" \/ not_space (first_char (PyStr.lstrip s)).
Proof.
  induction s as [| c s IH]; simpl; [left; reflexivity |].
  destruct (PyStr.is_space c) eqn:Hc; [exact IH |].
  right. simpl. exact Hc.
Qed.

Lemma rstrip_last (s : string) :
  PyStr.rstrip s = "" \/ not_space (last_char (PyStr.rstrip s)).
Proof.
  induction s as [| c s IH]; cbn [PyStr.rstrip]; [left; reflexivity |].
  destruct (PyStr.rstrip s) as [| c' r] eqn:Hr.
  - destruct (PyStr.is_space c) eqn:Hc; [left; reflexivity |].
    right. simpl. exact Hc.
  - right. destruct IH as [IH | IH]; [discriminate IH |].
    cbn [last_char]. exact IH.
Qed.

Lemma rstrip_first (c : ascii) (s : string) :
  PyStr.is_space c = false ->
  exists r, PyStr.rstrip (String c s) = String c r.
Proof.
  intros Hc. cbn [PyStr.rstrip].
  destruct (PyStr.rstrip s); [rewrite Hc |]; eexists; reflexivity.
Qed.

Lemma rstrip_idempotent (s : string) :
  PyStr.rstrip (PyStr.rstrip s) = PyStr.rstrip s.
Proof.
  induction s as [| c s IH]; [reflexivity |].
  cbn [PyStr.rstrip].
  destruct (PyStr.rstrip s) as [| c' r] eqn:Hr.
  - destruct (PyStr.is_space c) eqn:Hc; [reflexivity |].
    cbn [PyStr.rstrip]. rewrite Hc. reflexivity.
  - cbn [PyStr.rstrip]. cbn [PyStr.rstrip] in IH.
    rewrite IH. reflexivity.
Qed.

Lemma lstrip_fixed (s : string) :
  s = "" \/ not_space (first_char s) -> PyStr.lstrip s = s.
Proof.
  intros [-> | H]; [reflexivity |].
  destruct s as [| c s]; [reflexivity |].
  simpl in H. simpl. rewrite H. reflexivity.
Qed.

Lemma strip_shape (s : string) :
  PyStr.strip s = "" \/
  (not_space (first_char (PyStr.strip s)) /\ not_space (last_char (PyStr.strip s))).
Proof.
  unfold PyStr.strip.
  destruct (lstrip_first s) as [-> | Hfirst]; [left; reflexivity |].
  destruct (PyStr.lstrip s) as [| c r] eqn:Hl; [left; reflexivity |].
  simpl in Hfirst.
  destruct (rstrip_first c r Hfirst) as (r' & Hr).
  right. split.
  - rewrite Hr. simpl. exact Hfirst.
  - destruct (rstrip_last (String c r)) as [He | Hlast]; [congruence | exact Hlast].
Qed.

Lemma strip_idempotent (s : string) :
  PyStr.strip (PyStr.strip s) = PyStr.strip s.
Proof.
  unfold PyStr.strip at 1.
  rewrite lstrip_fixed.
  - unfold PyStr.strip. apply rstrip_idempotent.
  - destruct (strip_shape s) as [H | (H & _)]; [left | right]; exact H.
Qed.

(** After a successful rewrite the question is the model's answer
    without surrounding white space: it is empty (when the answer was
    blank) or begins and ends with a character that is not a space, and
    stripping it again changes nothing. The previous question is the
    last entry of the history, and exactly one model call was made. *)
Theorem rewritten_question_is_trimmed (self : Nodes) (lib : Library)
        (st : GraphState) (t : trace) (response : string) :
  chat_completion self (List.length t) (transform_messages lib st) 100 = Ok response ->
  exists u,
    transform_query self lib st t =
    (Ok u, t ++ [CallChat (transform_messages lib st) 100]) /\
    question (merge st u) = PyStr.strip response /\
    (question (merge st u) = "" \/
     (not_space (first_char (question (merge st u))) /\
      not_space (last_char (question (merge st u))))) /\
    PyStr.strip (question (merge st u)) = question (merge st u) /\
    transformation_history (merge st u)
    = transformation_history st ++ [question st].
Proof.
  intros Hchat. eexists. rewrite transform_query_spec, Hchat.
  split; [reflexivity |]. cbn.
  split; [reflexivity |].
  split; [apply strip_shape |].
  split; [apply strip_idempotent | reflexivity].
Qed.

Lemma rewritten_question_is_trimmed_witness :
  exists u t',
    transform_query (Demo.answering "  why does web-1 crash?  ") Demo.lib
      (Demo.session Demo.long_logs [] 3) [] = (Ok u, t') /\
    question (merge (Demo.session Demo.long_logs [] 3) u) = "why does web-1 crash?".
Proof.
  destruct (rewritten_question_is_trimmed
              (Demo.answering "  why does web-1 crash?  ") Demo.lib
              (Demo.session Demo.long_logs [] 3) []
              "  why does web-1 crash?  " eq_refl)
    as (u & Hrun & Hq & _).
  eexists u, _. split; [exact Hrun | exact Hq].
Defined.

(** ** A whole pass on too little evidence *)

(** With an evidence text shorter than 50 characters the four nodes of a
    pass, run one after the other, make no external call at all: nothing
    is indexed, reranked or graded, no model is asked, and the pass ends
    with empty document lists and the fixed answer. *)
Theorem short_evidence_pass_is_silent (self : Nodes) (lib : Library)
        (st : GraphState) (t : trace) :
  String.length (combined_logs st) < 50 ->
  exists st',
    forward_pass self lib st t = (Ok st', t) /\
    retrieved_docs st' = [] /\
    reranked_docs st' = [] /\
    relevance_scores st' = [] /\
    generation st' = no_data_message /\
    question st' = question st /\
    iteration st' = iteration st.
Proof.
  intros Hshort. apply Nat.ltb_lt in Hshort.
  unfold forward_pass.
  unfold bind at 1. rewrite retrieve_spec. cbn zeta.
  rewrite Hshort, orb_true_r.
  unfold bind at 1. unfold rerank at 1. cbn.
  eexists. split; [reflexivity |]. repeat split.
Qed.

Lemma short_evidence_pass_is_silent_witness :
  exists st',
    forward_pass (Demo.answering "yes") Demo.lib (Demo.session "pod started" [] 3) []
    = (Ok st', []) /\
    generation st' = no_data_message.
Proof.
  destruct (short_evidence_pass_is_silent (Demo.answering "yes") Demo.lib
              (Demo.session "pod started" [] 3) [])
    as (st' & Hrun & _ & _ & _ & Hgen & _).
  - simpl. lia.
  - exists st'. split; [exact Hrun | exact Hgen].
Defined.
(** ** The model registry *)

Section RegistryFacts.

Import ModelRegistry.

Lemma dict_set_fresh {V} (d : Dict.t V) (k : string) (v : V) :
  ~ In k (Dict.keys d) -> Dict.set d k v = d ++ [(k, v)].
Proof.
  induction d as [| [k' v'] d IH]; intros Hfresh; [reflexivity |].
  cbn [Dict.set]. destruct (String.eqb_spec k' k) as [-> | Hne].
  - exfalso. apply Hfresh. left. reflexivity.
  - cbn [app]. rewrite IH; [reflexivity |].
    intros Hin. apply Hfresh. right. exact Hin.
Qed.

Lemma available_of_acc (models : Dict.t ModelConfig) :
  forall acc,
    NoDup (Dict.keys (acc ++ models)) ->
    fold_left
      (fun available entry =>
         if configured (snd entry)
         then Dict.set available (fst entry) (snd entry)
         else available)
      models acc
    = acc ++ filter (fun entry => configured (snd entry)) models.
Proof.
  induction models as [| [k c] models IH]; intros acc Hnd.
  - simpl. rewrite app_nil_r. reflexivity.
  - cbn [fold_left filter fst snd].
    assert (Hfresh : ~ In k (Dict.keys acc)).
    { unfold Dict.keys in *. rewrite map_app in Hnd.
      apply NoDup_remove_2 in Hnd. intros Hin. apply Hnd.
      apply in_or_app. left. exact Hin. }
    destruct (configured c).
    + rewrite dict_set_fresh by exact Hfresh.
      rewrite IH.
      * rewrite <- app_assoc. reflexivity.
      * rewrite <- app_assoc. exact Hnd.
    + apply IH. unfold Dict.keys in *. rewrite map_app in *.
      cbn [map] in Hnd. apply NoDup_remove_1 in Hnd. exact Hnd.
Qed.

Lemma available_of_filter (models : Dict.t ModelConfig) :
  NoDup (Dict.keys models) ->
  available_of models = filter (fun entry => configured (snd entry)) models.
Proof.
  intros Hnd. unfold available_of. apply (available_of_acc models [] Hnd).
Qed.

Lemma dict_get_filter {V} (keep : V -> bool) (d : Dict.t V) (k : string) (v : V) :
  NoDup (Dict.keys d) ->
  (Dict.get (filter (fun entry => keep (snd entry)) d) k = Some v <->
   Dict.get d k = Some v /\ keep v = true).
Proof.
  induction d as [| [k' v'] d IH]; intros Hnd.
  - simpl. split; [discriminate | intros [H _]; discriminate H].
  - inversion Hnd as [| ? ? Hnotin Hnd']; subst.
    cbn [filter snd Dict.get].
    assert (Hlater : forall u, Dict.get d k' = Some u -> False).
    { intros u Hu. apply Hnotin. clear - Hu.
      induction d as [| [a b] d IH]; [discriminate |].
      cbn [Dict.get] in Hu. destruct (String.eqb_spec a k').
      - left. assumption.
      - right. apply IH, Hu. }
    destruct (keep v') eqn:Hkeep.
    + cbn [Dict.get]. destruct (String.eqb_spec k' k) as [-> | Hne].
      * split; [intros H; inversion H; subst; split; [reflexivity | exact Hkeep]
               | intros [H _]; exact H].
      * apply IH, Hnd'.
    + destruct (String.eqb_spec k' k) as [-> | Hne].
      * split.
        -- intros H. apply IH in H; [| exact Hnd']. destruct H as [H _].
           exfalso. eapply Hlater, H.
        -- intros [H Hk]. inversion H; subst. congruence.
      * apply IH, Hnd'.
Qed.

Lemma MODELS_keys (env : environ) :
  Dict.keys (MODELS env)
  = ["llama-3b"; "qwen-32b"; "granite-8b"; "groq"; "gpt-4o"; "gpt-4o-mini"].
Proof. reflexivity. Qed.

Lemma MODELS_NoDup (env : environ) : NoDup (Dict.keys (MODELS env)).
Proof.
  rewrite MODELS_keys.
  repeat constructor; simpl; intuition discriminate.
Qed.

(** A model is offered exactly when it is registered and configured, and
    the offered entry is the registered one: [get_model_by_id] finds
    every offered model, and also the registered models that are not
    offered. *)
Theorem offered_models_are_registered (env : environ) (k : string) (c : ModelConfig) :
  Dict.get (get_available_models env) k = Some c <->
  get_model_by_id env k = Some c /\ configured c = true.
Proof.
  unfold get_available_models, get_model_by_id.
  rewrite available_of_filter by apply MODELS_NoDup.
  apply dict_get_filter, MODELS_NoDup.
Qed.

Lemma nonempty_getenv (env : environ) (key default : string) :
  nonempty (getenv env key default) = true <->
  (exists v, env key = Some v /\ v <> "") \/ (env key = None /\ default <> "").
Proof.
  unfold getenv. destruct (env key) as [[| c v] |]; simpl.
  - split; [discriminate |].
    intros [(v & H & Hv) | (H & _)]; [inversion H; subst; congruence | discriminate H].
  - split; [| reflexivity]. intros _. left. eexists. split; [reflexivity | discriminate].
  - destruct default; simpl.
    + split; [discriminate |].
      intros [(v & H & _) | (_ & H)]; [discriminate H | congruence].
    + split; [| reflexivity]. intros _. right. split; [reflexivity | discriminate].
Qed.

Lemma in_keys_get {V} (d : Dict.t V) (k : string) :
  In k (Dict.keys d) <-> exists v, Dict.get d k = Some v.
Proof.
  induction d as [| [k' v'] d IH]; cbn [Dict.keys map In Dict.get fst].
  - split; [intros [] | intros (v & H); discriminate H].
  - destruct (String.eqb_spec k' k) as [-> | Hne].
    + split; [intros _; eexists; reflexivity | intros _; left; reflexivity].
    + split.
      * intros [H | H]; [congruence | apply IH, H].
      * intros H. right. apply IH, H.
Qed.

Lemma offered_key (env : environ) (k : string) :
  In k (Dict.keys (get_available_models env)) <->
  exists c, get_model_by_id env k = Some c /\ configured c = true.
Proof.
  rewrite in_keys_get. unfold get_available_models, get_model_by_id.
  rewrite available_of_filter by apply MODELS_NoDup.
  split; intros (c & H); exists c; apply (dict_get_filter configured); try exact H;
    apply MODELS_NoDup.
Qed.

(** Which environment variable offers which model. The Llama Stack model
    is offered unless [LLAMA_STACK_URL] is set to the empty string; each
    vLLM model needs its endpoint variable set and not empty; Groq needs
    [GROQ_API_KEY]; the two OpenAI models are offered together, when
    [OPENAI_API_KEY] is set and not empty. *)
Theorem offered_models_by_environment (env : environ) :
  let offered := Dict.keys (get_available_models env) in
  let set_and_not_empty key := exists v, env key = Some v /\ v <> "" in
  (In "llama-3b" offered <-> env "LLAMA_STACK_URL" <> Some "") /\
  (In "qwen-32b" offered <-> set_and_not_empty "QWEN_ENDPOINT") /\
  (In "granite-8b" offered <-> set_and_not_empty "GRANITE_ENDPOINT") /\
  (In "groq" offered <-> set_and_not_empty "GROQ_API_KEY") /\
  (In "gpt-4o" offered <-> set_and_not_empty "OPENAI_API_KEY") /\
  (In "gpt-4o-mini" offered <-> set_and_not_empty "OPENAI_API_KEY").
Proof.
  cbv beta zeta.
  assert (Hllama : nonempty (getenv env "LLAMA_STACK_URL"
            "http://llamastack-custom-distribution-service.model.svc.cluster.local:8321")
            = true <-> env "LLAMA_STACK_URL" <> Some "").
  { rewrite nonempty_getenv. split.
    - intros [(v & H & Hv) | (H & _)]; rewrite H; [congruence | discriminate].
    - intros H. destruct (env "LLAMA_STACK_URL") as [v |] eqn:E.
      + left. exists v. split; [reflexivity | congruence].
      + right. split; [reflexivity | discriminate]. }
  assert (Hplain : forall key,
             nonempty (getenv env key "") = true <->
             exists v, env key = Some v /\ v <> "").
  { intros key. rewrite nonempty_getenv. split.
    - intros [H | (_ & H)]; [exact H | congruence].
    - intros H. left. exact H. }
  assert (Hkey : forall key,
             truthy (Some (getenv env key "")) = true <->
             exists v, env key = Some v /\ v <> "").
  { intros key. etransitivity; [| apply Hplain]. unfold truthy, nonempty.
    destruct (getenv env key ""); reflexivity. }
  repeat split; intros H;
    first [ apply offered_key in H; destruct H as (c & Hget & Hc);
            vm_compute in Hget; inversion Hget; subst c;
            first [ apply (proj1 Hllama) | apply (proj1 (Hplain _))
                  | apply (proj1 (Hkey _)) ]; exact Hc
          | apply offered_key; eexists; split; [reflexivity |];
            first [ apply (proj2 Hllama) in H
                  | apply (proj2 (Hplain _)) in H
                  | apply (proj2 (Hkey _)) in H ]; exact H ].
Qed.

Lemma available_of_configured (models : Dict.t ModelConfig) :
  Forall (fun entry => configured (snd entry) = true) (available_of models).
Proof.
  unfold available_of.
  assert (Hset : forall (d : Dict.t ModelConfig) k c,
             Forall (fun entry => configured (snd entry) = true) d ->
             configured c = true ->
             Forall (fun entry => configured (snd entry) = true) (Dict.set d k c)).
  { induction d as [| [k' c'] d IH]; intros k c Hd Hc; cbn [Dict.set].
    - constructor; [exact Hc | constructor].
    - inversion Hd; subst. destruct (String.eqb k' k); constructor; auto. }
  assert (Hfold : forall acc,
             Forall (fun entry => configured (snd entry) = true) acc ->
             Forall (fun entry => configured (snd entry) = true)
               (fold_left
                  (fun available entry =>
                     if configured (snd entry)
                     then Dict.set available (fst entry) (snd entry)
                     else available) models acc)).
  { induction models as [| [k c] models IH]; intros acc Hacc; [exact Hacc |].
    cbn [fold_left fst snd]. apply IH.
    destruct (configured c) eqn:Hc; [apply Hset; assumption | exact Hacc]. }
  apply Hfold. constructor.
Qed.

Lemma dict_get_in {V} (d : Dict.t V) (k : string) (v : V) :
  Dict.get d k = Some v -> In (k, v) d.
Proof.
  induction d as [| [k' v'] d IH]; [discriminate |].
  cbn [Dict.get]. destruct (String.eqb_spec k' k) as [-> | Hne].
  - intros H. inversion H. left. reflexivity.
  - intros H. right. apply IH, H.
Qed.

End RegistryFacts.

(** ** The unified inference client *)

Lemma unsupported_provider_has_no_client (config : ModelRegistry.ModelConfig) :
  ModelRegistry.provider config <> "llamastack" ->
  ModelRegistry.provider config <> "vllm" ->
  ModelRegistry.provider config <> "openai" ->
  ModelRegistry.provider config <> "groq" ->
  ModelRegistry.configured config = false /\
  forall backend n messages max_tokens temperature,
    Inference.chat_completion backend config n messages max_tokens temperature
    = Raise Inference.no_client_error.
Proof.
  intros H1 H2 H3 H4.
  apply String.eqb_neq in H1, H2, H3, H4.
  split.
  - unfold ModelRegistry.configured. cbn [existsb]. rewrite H1, H2, H3, H4. reflexivity.
  - intros. unfold Inference.chat_completion, Inference.client_of. cbn [existsb].
    rewrite H1, H2, H3, H4. reflexivity.
Qed.

(** A configuration whose provider is none of the four the code knows
    (such as the [grok] of the comment in the configuration class) is
    never offered by any registry, and every chat completion with it
    raises before any SDK call: the client object was never created. *)
Theorem unsupported_provider_is_unusable (config : ModelRegistry.ModelConfig) :
  ModelRegistry.provider config <> "llamastack" ->
  ModelRegistry.provider config <> "vllm" ->
  ModelRegistry.provider config <> "openai" ->
  ModelRegistry.provider config <> "groq" ->
  (forall models k,
      Dict.get (ModelRegistry.available_of models) k <> Some config) /\
  (forall backend n messages max_tokens temperature,
      Inference.chat_completion backend config n messages max_tokens temperature
      = Raise Inference.no_client_error).
Proof.
  intros H1 H2 H3 H4.
  destruct (unsupported_provider_has_no_client config H1 H2 H3 H4) as (Hc & Hchat).
  split; [| exact Hchat].
  intros models k Hget. apply dict_get_in in Hget.
  pose proof (available_of_configured models) as Hall.
  rewrite Forall_forall in Hall. specialize (Hall _ Hget). simpl in Hall.
  congruence.
Qed.
Lemma unsupported_provider_is_unusable_witness :
  Inference.chat_completion
    (Inference.mkBackend (fun _ _ _ _ _ => Ok "yes") (fun _ _ _ _ _ _ => Ok "yes"))
    (ModelRegistry.mkModelConfig "grok" "Grok" "grok" "https://api.x.ai/v1"
       (Some "key") "grok-2" "")
    0 [Msg "user" "hello"] 100 0%Q
  = Raise Inference.no_client_error.
Proof.
  apply (unsupported_provider_is_unusable
           (ModelRegistry.mkModelConfig "grok" "Grok" "grok" "https://api.x.ai/v1"
              (Some "key") "grok-2" ""));
    discriminate.
Defined.

(** With such a configuration the pipeline still answers, but never with
    a model's words. Grading returns the whole reranked list with the
    score 0.5 for each document; the rewrite returns the question
    unchanged, one iteration higher, and no history; and the
    [generation] that [generate] returns is the error text naming the
    missing client, after a single attempted call and without the
    structured-alert keys. *)
Theorem unsupported_provider_pipeline (backend : Inference.Backend)
        (config : ModelRegistry.ModelConfig) (services : Nodes) (lib : Library)
        (st : GraphState) (t : trace) :
  ModelRegistry.provider config <> "llamastack" ->
  ModelRegistry.provider config <> "vllm" ->
  ModelRegistry.provider config <> "openai" ->
  ModelRegistry.provider config <> "groq" ->
  reranked_docs st <> [] ->
  let self := Inference.nodes_with backend config services in
  (exists u t',
      grade_documents self lib st t = (Ok u, t') /\
      u_reranked_docs u = Some (reranked_docs st) /\
      u_relevance_scores u
      = Some (repeat (1 # 2)%Q (List.length (reranked_docs st)))) /\
  (exists u t',
      transform_query self lib st t = (Ok u, t') /\
      u_question u = Some (question st) /\
      u_iteration u = Some (iteration st + 1) /\
      u_transformation_history u = None) /\
  (exists u,
      generate self lib st t
      = (Ok u, t ++ [CallChat (generate_messages lib st) 500]) /\
      u_generation u
      = Some "❌ Generation error: 'UnifiedInference' object has no attribute 'client'" /\
      u_question u = Some (question st) /\
      u_ansible_output u = None /\
      generation (merge st u)
      = "❌ Generation error: 'UnifiedInference' object has no attribute 'client'").
Proof.
  intros H1 H2 H3 H4 Hdocs self.
  destruct (unsupported_provider_has_no_client config H1 H2 H3 H4) as (_ & Hchat).
  assert (Hself : forall n messages max_tokens,
             chat_completion self n messages max_tokens
             = Raise Inference.no_client_error).
  { intros. unfold self, Inference.nodes_with. cbn [chat_completion]. apply Hchat. }
  split; [| split].
  - eexists _, _. split.
    + rewrite grade_documents_spec. cbn zeta.
      rewrite (verdicts_all_raise self lib (question st) (reranked_docs st)).
      * rewrite kept_all, map_repeat. reflexivity.
      * intros n d _. eexists. apply Hself.
    + split; reflexivity.
  - eexists _, _. split.
    + rewrite transform_query_spec, Hself. reflexivity.
    + repeat split.
  - eexists. split.
    + apply generate_primary_failure_aux; [exact Hdocs | apply Hself].
    + repeat split.
Qed.

Lemma unsupported_provider_pipeline_witness :
  exists u t',
    generate
      (Inference.nodes_with
         (Inference.mkBackend (fun _ _ _ _ _ => Ok "yes") (fun _ _ _ _ _ _ => Ok "yes"))
         (ModelRegistry.mkModelConfig "grok" "Grok" "grok" "https://api.x.ai/v1"
            (Some "key") "grok-2" "")
         (Demo.answering "yes"))
      Demo.lib (Demo.session Demo.long_logs [Demo.doc "pod crashed: error" 1] 3) []
    = (Ok u, t') /\
    u_generation u
    = Some "❌ Generation error: 'UnifiedInference' object has no attribute 'client'".
Proof.
  destruct (unsupported_provider_pipeline
              (Inference.mkBackend (fun _ _ _ _ _ => Ok "yes")
                 (fun _ _ _ _ _ _ => Ok "yes"))
              (ModelRegistry.mkModelConfig "grok" "Grok" "grok" "https://api.x.ai/v1"
                 (Some "key") "grok-2" "")
              (Demo.answering "yes") Demo.lib
              (Demo.session Demo.long_logs [Demo.doc "pod crashed: error" 1] 3) [])
    as (_ & _ & u & Hrun & Hgen & _); try discriminate.
  eexists u, _. split; [exact Hrun | exact Hgen].
Defined.

(** ** Run metadata and tags *)

Lemma of_nat_inj (n m : nat) : PyStr.of_nat n = PyStr.of_nat m -> n = m.
Proof.
  unfold PyStr.of_nat. intros H.
  apply DecimalNat.Unsigned.to_uint_inj.
  assert (Hsome : Some (Nat.to_uint n) = Some (Nat.to_uint m)).
  { rewrite <- (NilEmpty.usu (Nat.to_uint n)), <- (NilEmpty.usu (Nat.to_uint m)).
    rewrite H. reflexivity. }
  inversion Hsome. reflexivity.
Qed.

(** The tags tell the iterations apart: two runs get the same tags
    exactly when they are at the same iteration, or when neither is a
    retry (iteration zero or below). *)
Theorem tags_identify_iteration (i j : Z) :
  Langsmith.get_langsmith_tags i = Langsmith.get_langsmith_tags j <->
  ((i <= 0)%Z /\ (j <= 0)%Z) \/ i = j.
Proof.
  unfold Langsmith.get_langsmith_tags, Langsmith.base_tags.
  destruct (0 <? i)%Z eqn:Hi; destruct (0 <? j)%Z eqn:Hj;
    try apply Z.ltb_lt in Hi; try apply Z.ltb_lt in Hj;
    try apply Z.ltb_ge in Hi; try apply Z.ltb_ge in Hj;
    cbn [app]; split; intros H.
  - right. inversion H as [Heq].
    apply of_nat_inj in Heq. apply Z2Nat.inj in Heq; lia.
  - destruct H as [(H1 & H2) | ->]; [lia | reflexivity].
  - discriminate H.
  - destruct H as [(H1 & H2) | ->]; lia.
  - discriminate H.
  - destruct H as [(H1 & H2) | ->]; lia.
  - left. split; assumption.
  - reflexivity.
Qed.

Lemma dict_get_set_same {V} (d : Dict.t V) (k : string) (v : V) :
  Dict.get (Dict.set d k v) k = Some v.
Proof.
  induction d as [| [k' v'] d IH]; cbn [Dict.set Dict.get].
  - rewrite String.eqb_refl. reflexivity.
  - destruct (String.eqb k' k) eqn:E; cbn [Dict.get]; rewrite E; [reflexivity | exact IH].
Qed.

Lemma dict_get_set_other {V} (d : Dict.t V) (k k' : string) (v : V) :
  k <> k' -> Dict.get (Dict.set d k v) k' = Dict.get d k'.
Proof.
  intros Hne. induction d as [| [a b] d IH]; cbn [Dict.set Dict.get].
  - apply String.eqb_neq in Hne. rewrite Hne. reflexivity.
  - destruct (String.eqb_spec a k) as [-> | Hak]; cbn [Dict.get].
    + apply String.eqb_neq in Hne. rewrite Hne. reflexivity.
    + destruct (String.eqb a k'); [reflexivity | exact IH].
Qed.

Lemma dict_get_update_absent {V} (other : Dict.t V) (k : string) :
  Dict.get other k = None ->
  forall d, Dict.get (Dict.update d other) k = Dict.get d k.
Proof.
  unfold Dict.update.
  induction other as [| [a b] other IH]; intros Hnone d; [reflexivity |].
  cbn [Dict.get] in Hnone. cbn [fold_left fst snd].
  destruct (String.eqb_spec a k) as [-> | Hne]; [discriminate Hnone |].
  rewrite IH by exact Hnone. apply dict_get_set_other, Hne.
Qed.

Lemma dict_get_none_keys {V} (d : Dict.t V) (k : string) :
  ~ In k (Dict.keys d) -> Dict.get d k = None.
Proof.
  induction d as [| [a b] d IH]; intros Hnot; [reflexivity |].
  cbn [Dict.get]. destruct (String.eqb_spec a k) as [-> | Hne].
  - exfalso. apply Hnot. left. reflexivity.
  - apply IH. intros Hin. apply Hnot. right. exact Hin.
Qed.

Lemma dict_get_update_present {V} (other : Dict.t V) (k : string) (v : V) :
  NoDup (Dict.keys other) ->
  Dict.get other k = Some v ->
  forall d, Dict.get (Dict.update d other) k = Some v.
Proof.
  induction other as [| [a b] other IH]; intros Hnd Hget d; [discriminate Hget |].
  inversion Hnd as [| ? ? Hnotin Hnd']; subst.
  cbn [Dict.get] in Hget. unfold Dict.update. cbn [fold_left fst snd].
  destruct (String.eqb_spec a k) as [-> | Hne].
  - inversion Hget; subst.
    change (Dict.get (Dict.update (Dict.set d k v) other) k = Some v).
    rewrite dict_get_update_absent by (apply dict_get_none_keys, Hnotin).
    apply dict_get_set_same.
  - apply (IH Hnd' Hget).
Qed.

Lemma take_length (n : nat) (s : string) :
  String.length (PyStr.take n s) = Nat.min n (String.length s).
Proof.
  revert s. induction n as [| n IH]; intros [| c s]; simpl; try reflexivity.
  rewrite IH. reflexivity.
Qed.

(** What the run metadata holds. The extra keyword entries always win,
    also over [version] and [application]; where they are silent, the
    version is [v10], the namespace and the pod are recorded only when
    given and not empty, and the question is recorded cut to its first
    100 characters. *)
Theorem run_metadata_entries (namespace pod_name question : option string)
        (kwargs : Dict.t json) :
  NoDup (Dict.keys kwargs) ->
  let metadata := Langsmith.create_run_metadata namespace pod_name question kwargs in
  (forall k v, Dict.get kwargs k = Some v -> Dict.get metadata k = Some v) /\
  (Dict.get kwargs "version" = None ->
   Dict.get metadata "version" = Some (JStr "v10")) /\
  (Dict.get kwargs "namespace" = None ->
   Dict.get metadata "namespace"
   = if truthy namespace then Some (JStr (fmt namespace)) else None) /\
  (Dict.get kwargs "pod_name" = None ->
   Dict.get metadata "pod_name"
   = if truthy pod_name then Some (JStr (fmt pod_name)) else None) /\
  (Dict.get kwargs "question" = None ->
   Dict.get metadata "question"
   = if truthy question
     then Some (JStr (PyStr.take 100 (fmt question))) else None) /\
  String.length (PyStr.take 100 (fmt question)) <= 100.
Proof.
  intros Hnd metadata. unfold metadata, Langsmith.create_run_metadata.
  split; [intros k v Hget; apply dict_get_update_present; assumption |].
  repeat split;
    try (intros Hnone; rewrite dict_get_update_absent by exact Hnone;
         destruct (truthy namespace); destruct (truthy pod_name);
         destruct (truthy question); reflexivity).
  rewrite take_length. apply Nat.le_min_l.
Qed.

Lemma run_metadata_entries_witness :
  Dict.get
    (Langsmith.create_run_metadata (Some "prod") None (Some "why?")
       [("version", JStr "v11"); ("user", JStr "ops")])
    "version" = Some (JStr "v11").
Proof.
  apply (run_metadata_entries (Some "prod") None (Some "why?")
           [("version", JStr "v11"); ("user", JStr "ops")]).
  - repeat constructor; simpl; intuition discriminate.
  - reflexivity.
Defined.
(** ** The automation hand-over *)

Section PlaybookFacts.

Import EDA.

Variable py : Interpreter.
Variable safe_load : string -> loaded.

(** A playbook is accepted exactly when the YAML text loads as a
    non-empty list whose first element is a mapping with the keys
    [hosts] and [tasks], the value of [tasks] being something with a
    length. A first play written as a string or as a list that merely
    mentions the two words is rejected, as is a [tasks] key without a
    value. The counts reported are the number of plays and the length of
    the first play's tasks. *)
Theorem playbook_accepted_iff (playbook_yaml : string) :
  let r := validate_playbook py safe_load playbook_yaml in
  (valid r = true <->
   exists members rest n,
     safe_load playbook_yaml = Loaded (YSeq (YMap members :: rest)) /\
     has_key members "hosts" = true /\
     has_key members "tasks" = true /\
     py_len py (map_get members "tasks" (YSeq [])) = Ok n) /\
  (valid r = true ->
   exists members rest n,
     safe_load playbook_yaml = Loaded (YSeq (YMap members :: rest)) /\
     py_len py (map_get members "tasks" (YSeq [])) = Ok n /\
     num_plays r = Some (S (List.length rest)) /\
     num_tasks r = Some n /\
     v_message r = "✅ Playbook structure is valid") /\
  (valid r = false -> num_plays r = None /\ num_tasks r = None).
Proof.
  cbn zeta. unfold validate_playbook, has_key.
  destruct (safe_load playbook_yaml) as [playbook | e | e].
  2, 3: (split; [split; [discriminate | intros (m & r & n & H & _); discriminate H]
                | split; [discriminate | intros _; split; reflexivity]]).
  destruct playbook as [| b | z | q | s | plays | members0];
    try (split; [split; [discriminate | intros (m & r & n & H & _); discriminate H]
                | split; [discriminate | intros _; split; reflexivity]]).
  destruct plays as [| first_play rest];
    [split; [split; [discriminate | intros (m & r & n & H & _); discriminate H]
            | split; [discriminate | intros _; split; reflexivity]] |].
  destruct first_play as [| b | z | q | s | items | members];
    cbn [py_in py_get]; unfold has_key;
    try (split; [split; [discriminate | intros (m & r & n & H & _); discriminate H]
                | split; [discriminate | intros _; split; reflexivity]]).
  - (* a string *)
    destruct (PyStr.contains "hosts" s); [destruct (PyStr.contains "tasks" s) |];
      (split; [split; [discriminate | intros (m & r & n & H & _); discriminate H]
              | split; [discriminate | intros _; split; reflexivity]]).
  - (* a sequence *)
    destruct (existsb _ items); [destruct (existsb _ items) |];
      (split; [split; [discriminate | intros (m & r & n & H & _); discriminate H]
              | split; [discriminate | intros _; split; reflexivity]]).
  - (* a mapping *)
    destruct (existsb (fun kv => is_str (fst kv) "hosts") members) eqn:Hhosts.
    + destruct (existsb (fun kv => is_str (fst kv) "tasks") members) eqn:Htasks.
      * destruct (py_len py (map_get members "tasks" (YSeq []))) as [n | e] eqn:Hlen.
        -- split; [split |].
           ++ intros _. exists members, rest, n. repeat split; assumption.
           ++ intros _. reflexivity.
           ++ split; [| discriminate].
              intros _. exists members, rest, n. repeat split. exact Hlen.
        -- split; [split; [discriminate |] | split; [discriminate | intros _; split; reflexivity]].
           intros (m & r & n & H & _ & _ & Hn). inversion H; subst. congruence.
      * split; [split; [discriminate |] | split; [discriminate | intros _; split; reflexivity]].
        intros (m & r & n & H & _ & Ht & _). inversion H; subst. congruence.
    + split; [split; [discriminate |] | split; [discriminate | intros _; split; reflexivity]].
      intros (m & r & n & H & Hh & _). inversion H; subst. congruence.
Qed.

End PlaybookFacts.

(** Sending to the automation never reports success: without a webhook
    address the answer says so, with one it says that the integration is
    not implemented. The address given to the constructor comes before
    the environment variable, which is used when the argument is missing
    or empty. *)
Theorem send_to_eda_never_succeeds (env : environ) (url : option string)
        (remediation : AnsibleRemediationOutput) :
  EDA.success (EDA.send_to_eda env url remediation) = false /\
  (EDA.d_message (EDA.send_to_eda env url remediation)
   = "⚠️ EDA webhook not configured. Set EDA_WEBHOOK_URL environment variable."
   <-> EDA.webhook_url env url = "") /\
  (truthy url = true -> EDA.webhook_url env url = fmt url) /\
  (truthy url = false ->
   EDA.webhook_url env url = getenv env "EDA_WEBHOOK_URL" "").
Proof.
  unfold EDA.send_to_eda.
  split; [destruct (EDA.webhook_url env url); reflexivity |].
  split.
  - destruct (EDA.webhook_url env url); cbn [EDA.d_message]; split; intros H;
      try reflexivity; discriminate H.
  - unfold EDA.webhook_url. destruct url as [[| c u] |]; simpl; split;
      intros H; try reflexivity; discriminate H.
Qed.
(** ** The log fetcher *)

Section FetcherFacts.

Import OpenSearch.

(** What the query of [fetch_logs] is restricted by. The time range is
    always its first clause. The namespace and the pod are used for
    Kubernetes logs only, the device name for the four infrastructure
    types only; for a component type the fetcher does not know, no scope
    is used at all and every index is searched. *)
Theorem fetch_query_scope (component_type : string)
        (device_name namespace pod_name : option string)
        (time_range : string) (level_filter : option (list string)) :
  (exists rest,
      must_clauses component_type device_name namespace pod_name time_range level_filter
      = Range "@timestamp" ("now-" ++ time_range) :: rest) /\
  (component_type <> "kubernetes" ->
   must_clauses component_type device_name namespace pod_name time_range level_filter
   = must_clauses component_type device_name None None time_range level_filter) /\
  (component_type = "kubernetes" ->
   must_clauses component_type device_name namespace pod_name time_range level_filter
   = must_clauses component_type None namespace pod_name time_range level_filter) /\
  (~ In component_type ("kubernetes" :: infrastructure_types) ->
   index_for component_type = "*-*" /\
   must_clauses component_type device_name namespace pod_name time_range level_filter
   = must_clauses component_type None None None time_range level_filter).
Proof.
  unfold must_clauses.
  split; [| split; [| split]].
  - destruct (String.eqb component_type "kubernetes");
      [| destruct (existsb _ infrastructure_types)];
      destruct (truthy namespace); destruct (truthy pod_name);
      destruct (truthy device_name);
      destruct level_filter as [[| level levels] |];
      eexists; reflexivity.
  - intros Hne. apply String.eqb_neq in Hne. rewrite Hne. reflexivity.
  - intros ->. cbn [String.eqb Ascii.eqb Bool.eqb]. reflexivity.
  - intros Hnot.
    assert (Hk : String.eqb component_type "kubernetes" = false).
    { apply String.eqb_neq. intros ->. apply Hnot. left. reflexivity. }
    assert (Hi : existsb (String.eqb component_type) infrastructure_types = false).
    { destruct (existsb _ infrastructure_types) eqn:E; [| reflexivity].
      apply existsb_exists in E. destruct E as (x & Hx & Heq).
      apply String.eqb_eq in Heq. subst x. exfalso. apply Hnot. right. exact Hx. }
    rewrite Hk, Hi. split; [| reflexivity].
    unfold index_for, index_patterns. cbn [Dict.get].
    cbn [infrastructure_types existsb] in Hi.
    rewrite !orb_false_iff in Hi. destruct Hi as (H1 & H2 & H3 & H4 & _).
    rewrite (String.eqb_sym "storage"), H1, (String.eqb_sym "server"), H2,
      (String.eqb_sym "database"), H3, (String.eqb_sym "kubernetes"), Hk,
      (String.eqb_sym "firewall"), H4.
    reflexivity.
Qed.

Lemma fetch_query_scope_witness :
  must_clauses "router" (Some "edge-1") (Some "prod") (Some "web-1") "1h" None
  = must_clauses "router" None None None "1h" None.
Proof.
  apply (fetch_query_scope "router" (Some "edge-1") (Some "prod") (Some "web-1")
           "1h" None).
  simpl. intuition discriminate.
Defined.

(** A failed search is not reported as a failure: [fetch_logs] returns
    the error text as if it were the logs, and the front end passes it
    on as the log context. With an error text of fewer than 29
    characters the whole does not reach 50 characters and retrieval is
    skipped; with a longer one the index is built over the error
    message. *)
Theorem fetch_error_becomes_evidence (client : Client) (n : nat)
        (component_type : string) (device_name namespace pod_name : option string)
        (time_range : string) (max_logs : nat) (level_filter : option (list string))
        (e : string) :
  search_hits client n (index_for component_type)
    (mkQuery (must_clauses component_type device_name namespace pod_name
                time_range level_filter) max_logs) = Raise e ->
  let logs := fetch_logs client n component_type device_name namespace pod_name
                time_range max_logs level_filter in
  logs = ("Error fetching logs: " ++ e)%string /\
  forall (self : Nodes) (st : GraphState) (t : trace),
    log_context st = logs ->
    pod_events st = "" ->
    (String.length e < 29 ->
     retrieve self st t = (Ok (retrieve_result [] (question st)), t)) /\
    (29 <= String.length e ->
     exists u later,
       retrieve self st t =
       (Ok u, (t ++ [CallBuildIndex logs (llama_stack_url self)]) ++ later)).
Proof.
  intros Hraise logs.
  assert (Hlogs : logs = ("Error fetching logs: " ++ e)%string).
  { unfold logs, fetch_logs. rewrite Hraise. reflexivity. }
  split; [exact Hlogs |].
  intros self st t Hcontext Hevents.
  assert (Hcombined : combined_logs st = logs).
  { unfold combined_logs. rewrite Hevents. exact Hcontext. }
  assert (Hlen : String.length logs = 21 + String.length e).
  { rewrite Hlogs. reflexivity. }
  rewrite retrieve_spec. cbn zeta. rewrite Hcombined.
  split; intros He.
  - assert (Hlt : (String.length logs <? 50) = true)
      by (apply Nat.ltb_lt; lia).
    rewrite Hlt, orb_true_r. reflexivity.
  - assert (Hge : (String.length logs <? 50) = false)
      by (apply Nat.ltb_ge; lia).
    assert (Hne : match logs with EmptyString => true | _ => false end = false)
      by (rewrite Hlogs; reflexivity).
    rewrite Hge, Hne. cbn [orb].
    destruct (new_retriever self (List.length t) logs (llama_stack_url self)).
    + destruct (retriever_retrieve self (S (List.length t)) logs _ 10);
        eexists _, [_]; reflexivity.
    + eexists _, []. rewrite app_nil_r. reflexivity.
Qed.

Lemma fetch_error_becomes_evidence_witness :
  fetch_logs (mkClient (fun _ _ _ => Raise "timeout") (fun _ _ _ => Raise "timeout"))
    0 "storage" (Some "NAS-02") None None "1h" 1000 None
  = "Error fetching logs: timeout".
Proof.
  apply (fetch_error_becomes_evidence
           (mkClient (fun _ _ _ => Raise "timeout") (fun _ _ _ => Raise "timeout"))
           0 "storage" (Some "NAS-02") None None "1h" 1000 None "timeout").
  reflexivity.
Defined.

Lemma insert_str_perm (x : string) (l : list string) :
  Permutation (x :: l) (insert_str x l).
Proof.
  induction l as [| y l IH]; simpl.
  - apply Permutation_refl.
  - destruct (String.leb x y).
    + apply Permutation_refl.
    + apply perm_trans with (y :: x :: l); [apply perm_swap | apply perm_skip, IH].
Qed.

Lemma sorted_strings_perm (l : list string) : Permutation l (sorted_strings l).
Proof.
  induction l as [| x l IH]; simpl.
  - apply perm_nil.
  - apply perm_trans with (x :: sorted_strings l);
      [apply perm_skip, IH | apply insert_str_perm].
Qed.

Lemma insert_str_sorted (x : string) (l : list string) :
  Sorted str_le l -> Sorted str_le (insert_str x l).
Proof.
  induction 1 as [| y l Hsorted IH Hhd]; simpl.
  - repeat constructor.
  - destruct (String.leb x y) eqn:Hxy.
    + constructor; [constructor; assumption | constructor; exact Hxy].
    + constructor; [exact IH |].
      assert (Hyx : str_le y x).
      { destruct (String.leb_total x y) as [H | H]; [congruence | exact H]. }
      destruct l as [| z l]; simpl.
      * constructor. exact Hyx.
      * destruct (String.leb x z); constructor; [exact Hyx |].
        inversion Hhd; assumption.
Qed.

Lemma sorted_strings_sorted (l : list string) : Sorted str_le (sorted_strings l).
Proof.
  induction l as [| x l IH]; simpl; [constructor | apply insert_str_sorted, IH].
Qed.

Lemma le_neq_lt (a b : string) : str_le a b -> a <> b -> str_lt a b.
Proof.
  unfold str_le, str_lt, String.leb, String.ltb.
  destruct (String.compare a b) eqn:E; intros Hle Hne; try reflexivity.
  - apply String.compare_eq_iff in E. congruence.
  - discriminate Hle.
Qed.

Lemma sorted_nodup_strict (l : list string) :
  Sorted str_le l -> NoDup l -> Sorted str_lt l.
Proof.
  induction 1 as [| a l Hsorted IH Hhd]; intros Hnd; [constructor |].
  inversion Hnd as [| ? ? Hnotin Hnd']; subst.
  constructor; [apply IH, Hnd' |].
  destruct Hhd as [| b l Hab]; constructor.
  apply le_neq_lt; [exact Hab |].
  intros ->. apply Hnotin. left. reflexivity.
Qed.

(** The pod list is the names found by the two searches, each once, in
    strictly increasing order; when either search fails the list is
    empty, also when the other one found pods. *)
Theorem pod_list_sorted_union (client : Client) (n : nat) (namespace : string) :
  let first := search_buckets client n "openshift-logs"
                 (pods_from_logs_query namespace) in
  let second := search_buckets client (S n) "openshift-logs"
                  (pods_from_events_query namespace) in
  let pods := get_pod_list client n namespace in
  (forall from_logs from_events,
      first = Ok from_logs ->
      second = Ok from_events ->
      NoDup pods /\ Sorted str_lt pods /\
      forall pod, In pod pods <-> In pod from_logs \/ In pod from_events) /\
  (forall e, first = Raise e -> pods = []) /\
  (forall e, second = Raise e -> pods = []).
Proof.
  cbn zeta. unfold get_pod_list.
  split; [| split].
  - intros from_logs from_events -> ->.
    assert (Hnd : NoDup (sorted_strings (py_set (from_logs ++ from_events)))).
    { eapply Permutation_NoDup; [apply sorted_strings_perm |].
      apply NoDup_nodup. }
    split; [exact Hnd |].
    split; [apply sorted_nodup_strict; [apply sorted_strings_sorted | exact Hnd] |].
    intros pod. split.
    + intros Hin.
      apply (Permutation_in _ (Permutation_sym (sorted_strings_perm _))) in Hin.
      unfold py_set in Hin. apply nodup_In in Hin. apply in_app_or, Hin.
    + intros Hin. apply (Permutation_in _ (sorted_strings_perm _)).
      unfold py_set. apply nodup_In. apply in_or_app, Hin.
  - intros e ->. reflexivity.
  - intros e ->. destruct (search_buckets client n _ _); reflexivity.
Qed.

End FetcherFacts.
(** ** The statements above at concrete inputs *)

Lemma enhanced_query_shape_witness :
  build_enhanced_query "is the array degraded" "" (Samples.device_session "")
  = "is the array degraded".
Proof.
  apply (enhanced_query_shape "is the array degraded" "" (Samples.device_session "")).
  reflexivity.
Defined.

Lemma retrieved_docs_rank_scores_witness :
  exists d,
    nth_error (convert_docs 0 [mkLangchainDoc "first" None; mkLangchainDoc "second" None]) 1
    = Some d /\
    score d = Some (1 # 2)%Q.
Proof.
  eexists. split; [reflexivity |].
  destruct (retrieved_docs_rank_scores
              [mkLangchainDoc "first" None; mkLangchainDoc "second" None])
    as (_ & Hnth & _).
  destruct (Hnth 1 _ eq_refl) as (Hscore & _). exact Hscore.
Defined.

Lemma extract_json_total_witness :
  exists text,
    extract_json "no fence here" [] = (Ok text, []) /\ text = "no fence here".
Proof.
  destruct (extract_json_total "no fence here") as (text & Hrun & Hplain).
  exists text. split; [apply Hrun | apply Hplain; reflexivity].
Defined.

Lemma playbook_accepted_iff_witness :
  EDA.valid (EDA.validate_playbook Samples.interpreter Samples.one_play "- hosts: all")
  = true.
Proof.
  apply (playbook_accepted_iff Samples.interpreter Samples.one_play "- hosts: all").
  eexists _, _, _. repeat split; reflexivity.
Defined.

Lemma pod_list_sorted_union_witness :
  NoDup (OpenSearch.get_pod_list Samples.pods_client 0 "prod") /\
  (In "api-2" (OpenSearch.get_pod_list Samples.pods_client 0 "prod")).
Proof.
  destruct (pod_list_sorted_union Samples.pods_client 0 "prod") as (Hboth & _).
  destruct (Hboth ["web-1"; "db-0"] ["web-1"; "api-2"] eq_refl eq_refl)
    as (Hnd & _ & Hin).
  split; [exact Hnd |]. apply Hin. right. right. left. reflexivity.
Defined.

Lemma offered_models_are_registered_witness :
  exists c,
    Dict.get (ModelRegistry.get_available_models Samples.empty_env) "llama-3b" = Some c.
Proof.
  eexists.
  apply (offered_models_are_registered Samples.empty_env "llama-3b").
  split; reflexivity.
Defined.

Lemma tags_identify_iteration_witness :
  Langsmith.get_langsmith_tags 0 = Langsmith.get_langsmith_tags (-3).
Proof.
  apply (tags_identify_iteration 0 (-3)). left. split; lia.
Defined.

(** ** A few runs *)

Example extract_json_fenced :
  fst (extract_json
         ("Here it is:" ++ PyStr.nl ++ "```json" ++ PyStr.nl
          ++ "{ }" ++ PyStr.nl ++ "```" ++ PyStr.nl ++ "Done.")%string [])
  = Ok "{ }".
Proof. reflexivity. Qed.

Example playbook_written_as_string_is_rejected :
  EDA.validate_playbook Samples.interpreter Samples.string_play "- 'hosts: all, tasks: none'"
  = EDA.validation_error "object has no attribute 'get'".
Proof. reflexivity. Qed.

Example pod_list_example :
  OpenSearch.get_pod_list Samples.pods_client 0 "prod" = ["api-2"; "db-0"; "web-1"].
Proof. reflexivity. Qed.

Example only_llama_without_environment :
  Dict.keys (ModelRegistry.get_available_models Samples.empty_env) = ["llama-3b"].
Proof. reflexivity. Qed.

Example enhanced_query_example :
  build_enhanced_query "what errors occurred" Demo.long_logs
    (Demo.session Demo.long_logs [] 3)
  = "what errors occurred namespace:prod error secret".
Proof. reflexivity. Qed.
